(** * Event fan-out and subscription targeting of the library system

    A shallow embedding of the asynchronous core of the library
    management services: the availability projector of the book
    service, the subscription store and targeting resolver of the
    notification service, the notification fan-out, and the event
    publisher of the borrow service.

    Persistent collections are explicit values threaded through the
    operations; the clock, the calendar, the generators of identifiers,
    the e-mail transport and the message broker are inputs of the
    operations that use them. *)

From stdpp Require Import gmap strings list sorting.
From Stdlib Require Import ZArith Ascii String Lia.

Local Open Scope Z_scope.

(** ** JavaScript numbers

    A [Number] is an IEEE 754 double.  Every finite double is an
    integer multiple of [2^-1074] with at most 53 significant bits, so
    a finite value is kept as that integer [k], standing for
    [k * 2^-1074]; sums are rounded to the nearest double, ties to the
    even one, and overflow to an infinity.  The sign of zero, which no
    operation used here can tell, is left out. *)

Module Number.

Inductive t :=
| Finite (k : Z)
| Infinity (negative : bool)
| NaN.

(** The integer that stands for 1. *)
Definition scale : Z := 2 ^ 1074.

(** The double nearest to a magnitude [m >= 0]: below [2^53] units
    every integer is one; above, the 53 leading bits are kept. *)
Definition round_magnitude (m : Z) : Z :=
  if m <? 2 ^ 53 then m
  else
    let s := Z.log2 m - 52 in
    let q := m / 2 ^ s in
    let r := m mod 2 ^ s in
    let half := 2 ^ (s - 1) in
    let up := (half <? r) || ((r =? half) && Z.odd q) in
    (if up then q + 1 else q) * 2 ^ s.

(** Magnitudes from [2^1024] on are infinite. *)
Definition round (k : Z) : t :=
  let m := round_magnitude (Z.abs k) in
  if 2 ^ 2098 <=? m then Infinity (k <? 0) else Finite (Z.sgn k * m).

(** The double of an integer literal. *)
Definition of_Z (n : Z) : t := round (n * scale).

Definition zero : t := Finite 0.

Definition one : t := Finite scale.

Definition opp (x : t) : t :=
  match x with
  | Finite k => Finite (- k)
  | Infinity negative => Infinity (negb negative)
  | NaN => NaN
  end.

Definition add (x y : t) : t :=
  match x, y with
  | Finite a, Finite b => round (a + b)
  | Finite _, Infinity negative => Infinity negative
  | Infinity negative, Finite _ => Infinity negative
  | Infinity n1, Infinity n2 => if Bool.eqb n1 n2 then Infinity n1 else NaN
  | _, _ => NaN
  end.

Definition sub (x y : t) : t := add x (opp y).

(** [x < y], [x <= y] and [x === y]; every comparison with [NaN] is
    false. *)
Definition ltb (x y : t) : bool :=
  match x, y with
  | Finite a, Finite b => a <? b
  | Finite _, Infinity negative => negb negative
  | Infinity negative, Finite _ => negative
  | Infinity n1, Infinity n2 => n1 && negb n2
  | _, _ => false
  end.

Definition leb (x y : t) : bool :=
  match x, y with
  | Finite a, Finite b => a <=? b
  | Finite _, Infinity negative => negb negative
  | Infinity negative, Finite _ => negative
  | Infinity n1, Infinity n2 => n1 || negb n2
  | _, _ => false
  end.

Definition eqb (x y : t) : bool :=
  match x, y with
  | Finite a, Finite b => a =? b
  | Infinity n1, Infinity n2 => Bool.eqb n1 n2
  | _, _ => false
  end.

(** Truthiness: [0] and [NaN] are falsy. *)
Definition truthy (x : t) : bool :=
  match x with
  | Finite k => negb (k =? 0)
  | Infinity _ => true
  | NaN => false
  end.

(** The values that a program can hold: a finite one is its own
    rounding. *)
Definition is_double (x : t) : bool :=
  match x with
  | Finite k => match round k with Finite k' => k' =? k | _ => false end
  | _ => true
  end.

(** The doubles that are integers. *)
Definition is_integer (x : t) : bool :=
  match x with
  | Finite k => is_double x && (k mod scale =? 0)
  | _ => false
  end.

(** The integers that doubles count one by one: up to [2^53]. *)
Definition safe (n : Z) : Prop := 0 <= n <= 2 ^ 53.

End Number.

(** ** Book service: the [Book] model and the availability projector

    [backend/book-service/models/Book.js] and
    [backend/book-service/services/eventSubscriber.js]. *)

Module Book.

Inductive Status := available | unavailable.

(** A document of the [books] collection.  The collection is keyed by
    the unique [bookId], which is therefore the key of the map below
    and not repeated in the document. *)
Record doc := mk {
  title : string;
  category : string;
  totalCopies : Number.t;
  availableCopies : Number.t;
  status : Status
}.

(** A document whose counters are the integers [total] and
    [available]. *)
Definition make (title category : string) (total available : Z) (status : Status)
  : doc :=
  mk title category (Number.of_Z total) (Number.of_Z available) status.

Definition set_availableCopies (n : Number.t) (b : doc) : doc :=
  mk (title b) (category b) (totalCopies b) n (status b).

Definition set_status (s : Status) (b : doc) : doc :=
  mk (title b) (category b) (totalCopies b) (availableCopies b) s.

(** The schema's validators on the two counters: [min: 0], and no
    validator that would ask for an integer. *)
Definition validate (b : doc) : bool :=
  Number.leb Number.zero (totalCopies b) && Number.leb Number.zero (availableCopies b).

(** [Book.findOne({ bookId })]. *)
Definition findOne (books : gmap string doc) (bookId : string) : option doc :=
  books !! bookId.

(** [book.save()]: validation runs first and rejects the write. *)
Definition save (books : gmap string doc) (bookId : string) (b : doc)
  : option (gmap string doc) :=
  if validate b then Some (<[bookId := b]> books) else None.

End Book.

Module Projector.

(** What the handlers print. *)
Inductive LogLine :=
| Received (channel : string) (bookId : string)
| BookNotFound (bookId : string)
| NoCopiesAvailable (bookId : string)
| AvailabilityUpdated (bookId : string) (availableCopies totalCopies : Number.t)
| HandlerError (channel : string).

(** The two channels the book service subscribes to. *)
Inductive Event :=
| BookBorrowed (bookId : string)
| BookReturned (bookId : string).

Definition handleBookBorrowed (books : gmap string Book.doc) (bookId : string)
  : gmap string Book.doc * list LogLine :=
  let received := Received "BookBorrowed" bookId in
  match Book.findOne books bookId with
  | None => (books, [received; BookNotFound bookId])
  | Some book =>
      if Number.leb (Book.availableCopies book) Number.zero then
        (books, [received; NoCopiesAvailable bookId])
      else
        let book :=
          Book.set_availableCopies
            (Number.sub (Book.availableCopies book) Number.one) book in
        let book :=
          if Number.eqb (Book.availableCopies book) Number.zero
          then Book.set_status Book.unavailable book else book in
        match Book.save books bookId book with
        | Some books' =>
            (books', [received;
                      AvailabilityUpdated bookId (Book.availableCopies book)
                                          (Book.totalCopies book)])
        | None => (books, [received; HandlerError "BookBorrowed"])
        end
  end.

Definition handleBookReturned (books : gmap string Book.doc) (bookId : string)
  : gmap string Book.doc * list LogLine :=
  let received := Received "BookReturned" bookId in
  match Book.findOne books bookId with
  | None => (books, [received; BookNotFound bookId])
  | Some book =>
      let book :=
        if Number.ltb (Book.availableCopies book) (Book.totalCopies book)
        then Book.set_availableCopies
               (Number.add (Book.availableCopies book) Number.one) book
        else book in
      let book :=
        if Number.ltb Number.zero (Book.availableCopies book)
        then Book.set_status Book.available book else book in
      match Book.save books bookId book with
      | Some books' =>
          (books', [received;
                    AvailabilityUpdated bookId (Book.availableCopies book)
                                        (Book.totalCopies book)])
      | None => (books, [received; HandlerError "BookReturned"])
      end
  end.

(** One message, handled to completion before the next one. *)
Definition handle (books : gmap string Book.doc) (e : Event) : gmap string Book.doc :=
  match e with
  | BookBorrowed bookId => fst (handleBookBorrowed books bookId)
  | BookReturned bookId => fst (handleBookReturned books bookId)
  end.

(** The store after each message of a sequence, in order. *)
Fixpoint run (books : gmap string Book.doc) (es : list Event)
  : list (gmap string Book.doc) :=
  match es with
  | [] => []
  | e :: es' => let books' := handle books e in books' :: run books' es'
  end.

(** [0 <= availableCopies <= totalCopies], as the code compares. *)
Definition bounded (b : Book.doc) : Prop :=
  Number.leb Number.zero (Book.availableCopies b) = true
  /\ Number.leb (Book.availableCopies b) (Book.totalCopies b) = true.

(** The book counts [a] available copies of [t]. *)
Definition counts (a t : Z) (b : Book.doc) : Prop :=
  Book.availableCopies b = Number.of_Z a /\ Book.totalCopies b = Number.of_Z t.

(** What [handleBookBorrowed] leaves in a book's place: the book
    itself when it has no copy or when the write is refused. *)
Definition borrowed (b : Book.doc) : Book.doc :=
  if Number.leb (Book.availableCopies b) Number.zero then b
  else
    let n := Number.sub (Book.availableCopies b) Number.one in
    let b' :=
      Book.mk (Book.title b) (Book.category b) (Book.totalCopies b) n
        (if Number.eqb n Number.zero then Book.unavailable else Book.status b) in
    if Book.validate b' then b' else b.

(** What [handleBookReturned] leaves in a book's place. *)
Definition returned (b : Book.doc) : Book.doc :=
  let n := if Number.ltb (Book.availableCopies b) (Book.totalCopies b)
           then Number.add (Book.availableCopies b) Number.one
           else Book.availableCopies b in
  let b' :=
    Book.mk (Book.title b) (Book.category b) (Book.totalCopies b) n
      (if Number.ltb Number.zero n then Book.available else Book.status b) in
  if Book.validate b' then b' else b.

End Projector.

(** ** Regular expressions, as far as the resolver builds them

    [getTargetedSubscribers] builds [new RegExp(`^${categoryName}$`, 'i')]
    from the raw category name.  The pattern syntax modelled here is
    literal characters, [.], the quantifiers [*], [+], [?] (and their
    lazy forms), groups, alternation and the anchors [^] and [$];
    matching ignores ASCII letter case and, like [$regex], looks for a
    match anywhere in the subject.  Patterns and subjects are read here
    as far as they are made of printable ASCII characters, on which a
    byte is a character and the [i] flag folds the 26 letters only.  A
    pattern that uses a backslash, a bracket or a brace, a group that
    starts with [?], or any other character, is [Beyond] this syntax:
    what the engine does with it, and with a subject that has such a
    character, is an input of the model (see
    [SubscriptionController.RegExp]). *)

Module Regex.

Inductive regex :=
| Eps
| Fail
| Chr (c : ascii)
| Any
| Bol
| Eol
| Seq (r1 r2 : regex)
| Alt (r1 r2 : regex)
| Star (r : regex).

(** *** Reading a pattern *)

Inductive quant := NoAtom | Fresh | Quantified | Lazy.

(** A disjunction being read: the alternatives already closed by a
    [|], the terms of the current alternative (last one first), and
    whether the last term may still take a quantifier. *)
Record frame := mkFrame {
  alts : list regex;
  terms : list regex;
  q : quant
}.

Inductive parsed :=
| Compiled (r : regex)
| SyntaxError
| Beyond.

Definition seq_of (ts : list regex) : regex :=
  fold_left (fun acc t => Seq t acc) ts Eps.

Definition close (f : frame) : regex :=
  fold_left (fun acc a => Alt a acc) (alts f) (seq_of (terms f)).

Definition start : frame := mkFrame [] [] NoAtom.

Definition push_atom (r : regex) (f : frame) : frame :=
  mkFrame (alts f) (r :: terms f) Fresh.

Definition push_assertion (r : regex) (f : frame) : frame :=
  mkFrame (alts f) (r :: terms f) NoAtom.

Definition next_alternative (f : frame) : frame :=
  mkFrame (seq_of (terms f) :: alts f) [] NoAtom.

(** A quantifier applies to the last term, once. *)
Definition quantify (k : regex -> regex) (f : frame) : option frame :=
  match q f, terms f with
  | Fresh, t :: ts => Some (mkFrame (alts f) (k t :: ts) Quantified)
  | _, _ => None
  end.

Definition question (f : frame) : option frame :=
  match q f with
  | Fresh => quantify (fun t => Alt t Eps) f
  | Quantified => Some (mkFrame (alts f) (terms f) Lazy)
  | _ => None
  end.

(** The printable ASCII characters, space to tilde. *)
Definition printable_char (c : ascii) : bool :=
  let n := nat_of_ascii c in ((32 <=? n) && (n <=? 126))%nat.

Fixpoint printable (s : string) : bool :=
  match s with
  | EmptyString => true
  | String c s' => printable_char c && printable s'
  end.

Definition is_beyond (c : ascii) : bool :=
  (Ascii.eqb c "\" || Ascii.eqb c "[" || Ascii.eqb c "]"
   || Ascii.eqb c "{" || Ascii.eqb c "}" || negb (printable_char c))%bool.

Definition is_syntax (c : ascii) : bool :=
  (Ascii.eqb c "^" || Ascii.eqb c "$" || Ascii.eqb c "." || Ascii.eqb c "*"
   || Ascii.eqb c "+" || Ascii.eqb c "?" || Ascii.eqb c "(" || Ascii.eqb c ")"
   || Ascii.eqb c "|" || is_beyond c)%bool.

Fixpoint scan (p : string) (cur : frame) (stack : list frame) : parsed :=
  match p with
  | EmptyString =>
      match stack with
      | [] => Compiled (close cur)
      | _ :: _ => SyntaxError
      end
  | String c p' =>
      if is_beyond c then Beyond
      else if Ascii.eqb c "*" then
        match quantify Star cur with
        | Some f => scan p' f stack
        | None => SyntaxError
        end
      else if Ascii.eqb c "+" then
        match quantify (fun t => Seq t (Star t)) cur with
        | Some f => scan p' f stack
        | None => SyntaxError
        end
      else if Ascii.eqb c "?" then
        match question cur with
        | Some f => scan p' f stack
        | None => SyntaxError
        end
      else if Ascii.eqb c "(" then
        match p' with
        | String "?" _ => Beyond
        | _ => scan p' start (cur :: stack)
        end
      else if Ascii.eqb c ")" then
        match stack with
        | [] => SyntaxError
        | parent :: stack' => scan p' (push_atom (close cur) parent) stack'
        end
      else if Ascii.eqb c "|" then scan p' (next_alternative cur) stack
      else if Ascii.eqb c "^" then scan p' (push_assertion Bol cur) stack
      else if Ascii.eqb c "$" then scan p' (push_assertion Eol cur) stack
      else if Ascii.eqb c "." then scan p' (push_atom Any cur) stack
      else scan p' (push_atom (Chr c) cur) stack
  end.

Definition parse (p : string) : parsed := scan p start [].

(** *** Matching *)

(** Case folding of the [i] flag on the characters the matcher is
    applied to, the printable ASCII ones: only the 26 letters fold. *)
Definition canonicalize (c : ascii) : ascii :=
  let n := nat_of_ascii c in
  if ((97 <=? n) && (n <=? 122))%nat then ascii_of_nat (n - 32) else c.

Definition same_char (a c : ascii) : bool :=
  Ascii.eqb (canonicalize a) (canonicalize c).

Definition line_terminator (c : ascii) : bool :=
  (Ascii.eqb c "010" || Ascii.eqb c "013")%bool.

(** Does [r] match the empty string here?  [bol]: at the start of the
    subject; [eol]: at its end. *)
Fixpoint nullable (bol eol : bool) (r : regex) : bool :=
  match r with
  | Eps => true
  | Fail | Chr _ | Any => false
  | Bol => bol
  | Eol => eol
  | Seq r1 r2 => nullable bol eol r1 && nullable bol eol r2
  | Alt r1 r2 => nullable bol eol r1 || nullable bol eol r2
  | Star _ => true
  end.

(** What is left of [r] after it has read [c] at this position. *)
Fixpoint deriv (bol : bool) (c : ascii) (r : regex) : regex :=
  match r with
  | Eps | Fail | Bol | Eol => Fail
  | Chr a => if same_char a c then Eps else Fail
  | Any => if line_terminator c then Fail else Eps
  | Seq r1 r2 =>
      Alt (Seq (deriv bol c r1) r2)
          (if nullable bol false r1 then deriv bol c r2 else Fail)
  | Alt r1 r2 => Alt (deriv bol c r1) (deriv bol c r2)
  | Star r1 => Seq (deriv bol c r1) (Star r1)
  end.

(** [r] matches some prefix of [s]. *)
Fixpoint match_here (bol : bool) (r : regex) (s : string) : bool :=
  match s with
  | EmptyString => nullable bol true r
  | String c s' => nullable bol false r || match_here false (deriv bol c r) s'
  end.

(** [r] matches at some position after the first one. *)
Fixpoint match_later (r : regex) (s : string) : bool :=
  match s with
  | EmptyString => false
  | String _ s' => match_here false r s' || match_later r s'
  end.

Definition search (r : regex) (s : string) : bool :=
  match_here true r s || match_later r s.

(** Equality of strings up to ASCII letter case. *)
Fixpoint eq_nocase (a b : string) : bool :=
  match a, b with
  | EmptyString, EmptyString => true
  | String x a', String y b' => same_char x y && eq_nocase a' b'
  | _, _ => false
  end.

(** A name with no character of the pattern syntax. *)
Fixpoint plain (s : string) : bool :=
  match s with
  | EmptyString => true
  | String c s' => negb (is_syntax c) && plain s'
  end.

(** The pattern that reads [name] character by character, then [k]. *)
Fixpoint literal (name : string) (k : regex) : regex :=
  match name with
  | EmptyString => k
  | String c name' => Seq (Chr c) (literal name' k)
  end.

(** The terms of a frame after it has read the characters of [name]. *)
Fixpoint pushed (name : string) (ts : list regex) : list regex :=
  match name with
  | EmptyString => ts
  | String c name' => pushed name' (Chr c :: ts)
  end.

(** A pattern that can match nothing, at a glance. *)
Fixpoint void (r : regex) : bool :=
  match r with
  | Fail => true
  | Seq r1 _ => void r1
  | Alt r1 r2 => void r1 && void r2
  | _ => false
  end.

End Regex.

(** ** JavaScript values that flow into the handlers *)

Module Js.

(** A possibly [undefined] string field of a request body or of an
    event payload. *)
Definition value := option string.

(** Truthiness: [undefined] and the empty string are falsy. *)
Definition truthy (v : value) : bool :=
  match v with
  | Some s => negb (String.eqb s "")
  | None => false
  end.

(** [`${v}`] in a template literal. *)
Definition interpolate (v : value) : string :=
  match v with
  | Some s => s
  | None => "undefined"
  end.

(** The double quote character, as a string. *)
Definition quote : string := String (ascii_of_nat 34) EmptyString.

(** [v || d]. *)
Definition or_else (v : value) (d : string) : string :=
  match v with
  | Some s => if String.eqb s "" then d else s
  | None => d
  end.

(** The string of a truthy value: what is left once [!v] has sent the
    other values to the error branch. *)
Definition present (v : value) : option string :=
  match v with
  | Some s => if String.eqb s "" then None else Some s
  | None => None
  end.

(** [v || null], for a nullable column. *)
Definition or_null (v : value) : value :=
  if truthy v then v else None.

End Js.

(** ** Notification service: the three collections

    [models/CategorySubscription.js], [models/BookSubscription.js] and
    [models/Notification.js].  A collection is the list of its
    documents in insertion order. *)

(** What the two subscription models share: documents found by the
    pair of a user and a target, and written back where they stand. *)
Module Model.

Section Keyed.
Context {A : Type} (userOf targetOf : A -> string).

(** The filter [{ userId, <target>Id }]. *)
Definition by_key (u t : string) (d : A) : bool :=
  String.eqb (userOf d) u && String.eqb (targetOf d) t.

Definition findOne (u t : string) (col : list A) : option A :=
  List.find (by_key u t) col.

(** [existing.save()]: the document that [findOne] returned, the first
    one under its key, is replaced where it stands. *)
Fixpoint save (d : A) (col : list A) : list A :=
  match col with
  | [] => []
  | x :: col' =>
      if by_key (userOf d) (targetOf d) x then d :: col'
      else x :: save d col'
  end.

Definition keys (col : list A) : list (string * string) :=
  map (fun d => (userOf d, targetOf d)) col.

(** The unique compound index on the pair. *)
Definition unique (col : list A) : Prop := NoDup (keys col).

Definition row (u t : string) (d : A) (col : list A) : Prop :=
  In d col /\ userOf d = u /\ targetOf d = t.

End Keyed.

End Model.

Module CategorySubscription.

Record doc := mk {
  userId : string;
  userEmail : string;
  userName : string;
  categoryId : string;
  categoryName : string;
  isActive : bool;
  subscribedAt : Z
}.

Definition set_isActive (b : bool) (d : doc) : doc :=
  mk (userId d) (userEmail d) (userName d) (categoryId d) (categoryName d)
     b (subscribedAt d).

Definition set_subscribedAt (t : Z) (d : doc) : doc :=
  mk (userId d) (userEmail d) (userName d) (categoryId d) (categoryName d)
     (isActive d) t.

Definition findOne : string -> string -> list doc -> option doc :=
  Model.findOne userId categoryId.

Definition save : doc -> list doc -> list doc := Model.save userId categoryId.

(** [new CategorySubscription({...}).save()]: [isActive] and
    [subscribedAt] take their defaults, [true] and the current time. *)
Definition create (now : Z) (u e n c cn : string) (col : list doc)
  : doc * list doc :=
  let d := mk u e n c cn true now in (d, col ++ [d]).

Definition keys : list doc -> list (string * string) := Model.keys userId categoryId.

(** A row of the user for the category, active or not. *)
Definition row : string -> string -> doc -> list doc -> Prop :=
  Model.row userId categoryId.

End CategorySubscription.

Module BookSubscription.

Record doc := mk {
  userId : string;
  userEmail : string;
  userName : string;
  bookId : string;
  bookTitle : string;
  bookCategory : string;
  isActive : bool;
  subscribedAt : Z
}.

Definition set_isActive (b : bool) (d : doc) : doc :=
  mk (userId d) (userEmail d) (userName d) (bookId d) (bookTitle d)
     (bookCategory d) b (subscribedAt d).

Definition set_subscribedAt (t : Z) (d : doc) : doc :=
  mk (userId d) (userEmail d) (userName d) (bookId d) (bookTitle d)
     (bookCategory d) (isActive d) t.

Definition findOne : string -> string -> list doc -> option doc :=
  Model.findOne userId bookId.

Definition save : doc -> list doc -> list doc := Model.save userId bookId.

Definition create (now : Z) (u e n b bt bc : string) (col : list doc)
  : doc * list doc :=
  let d := mk u e n b bt bc true now in (d, col ++ [d]).

Definition keys : list doc -> list (string * string) := Model.keys userId bookId.

(** A row of the user for the book, active or not. *)
Definition row : string -> string -> doc -> list doc -> Prop :=
  Model.row userId bookId.

End BookSubscription.

Module Notification.

Inductive Priority := low | normal | high | urgent.

Inductive Type_ := BOOK_ADDED | BOOK_UPDATED.

Record doc := mk {
  notificationId : string;
  userId : string;
  userEmail : string;
  type : Type_;
  title : string;
  message : string;
  relatedBookId : Js.value;
  relatedBookTitle : Js.value;
  relatedCategoryId : Js.value;
  relatedCategoryName : Js.value;
  metadata : list (string * Js.value);
  isRead : bool;
  priority : Priority
}.

(** The schema's [required] strings: an empty one is refused. *)
Definition validate (d : doc) : bool :=
  negb (String.eqb (notificationId d) "") && negb (String.eqb (userId d) "")
  && negb (String.eqb (userEmail d) "") && negb (String.eqb (title d) "")
  && negb (String.eqb (message d) "").

(** The unique index on [notificationId]. *)
Definition taken (col : list doc) (d : doc) : bool :=
  existsb (fun x => String.eqb (notificationId x) (notificationId d)) col.

(** The ordered bulk write: the documents are inserted one by one and
    the first that meets a [notificationId] in use stops the write,
    leaving those before it in the collection. *)
Fixpoint insertOrdered (docs col : list doc) : bool * list doc :=
  match docs with
  | [] => (true, col)
  | d :: docs' => if taken col d then (false, col) else insertOrdered docs' (col ++ [d])
  end.

(** [Notification.insertMany(docs)]: every document is validated
    before anything is written; [false] when the call throws. *)
Definition insertMany (docs col : list doc) : bool * list doc :=
  if forallb validate docs then insertOrdered docs col else (false, col).

End Notification.

Module TargetedSubscriber.

Inductive SubscriptionType := category | book | both.

(** An entry of the resolver's output; the last four fields are only
    present on the entries that one of the two passes filled in. *)
Record t := mk {
  userId : string;
  userEmail : string;
  userName : string;
  subscriptionType : SubscriptionType;
  categoryId : option string;
  categoryName : option string;
  bookId : option string;
  bookTitle : option string
}.

Definition followsBook (s : t) : bool :=
  match subscriptionType s with
  | category => false
  | book | both => true
  end.

End TargetedSubscriber.

(** ** Notification service: the subscription controller

    [controllers/subscriptionController.js]. *)

Module Http.

(** [res.status(status).json({ success, message | error, data })]. *)
Record response (A : Type) := mk {
  status : nat;
  success : bool;
  text : string;
  data : option A
}.

Arguments mk {A} _ _ _ _.
Arguments status {A} _.
Arguments success {A} _.
Arguments text {A} _.
Arguments data {A} _.

End Http.

(** A JavaScript [Map] keyed by strings: entries in insertion order,
    [set] on a present key replaces the value where it stands. *)
Module JsMap.

Section WithValue.
Context {V : Type}.

Fixpoint get (k : string) (m : list (string * V)) : option V :=
  match m with
  | [] => None
  | (k', v) :: m' => if String.eqb k' k then Some v else get k m'
  end.

Definition has (k : string) (m : list (string * V)) : bool :=
  match get k m with Some _ => true | None => false end.

Fixpoint set (k : string) (v : V) (m : list (string * V)) : list (string * V) :=
  match m with
  | [] => [(k, v)]
  | (k', v') :: m' =>
      if String.eqb k' k then (k, v) :: m' else (k', v') :: set k v m'
  end.

Definition values (m : list (string * V)) : list V := map snd m.

Definition keys (m : list (string * V)) : list string := map fst m.

End WithValue.

End JsMap.

Module SubscriptionController.

Record CategoryBody := mkCategoryBody {
  cb_userId : Js.value;
  cb_userEmail : Js.value;
  cb_userName : Js.value;
  cb_categoryId : Js.value;
  cb_categoryName : Js.value
}.

Record BookBody := mkBookBody {
  bb_userId : Js.value;
  bb_userEmail : Js.value;
  bb_userName : Js.value;
  bb_bookId : Js.value;
  bb_bookTitle : Js.value;
  bb_bookCategory : Js.value
}.

Definition subscribeToCategory (now : Z) (body : CategoryBody)
    (col : list CategorySubscription.doc)
  : Http.response CategorySubscription.doc * list CategorySubscription.doc :=
  match Js.present (cb_userId body), Js.present (cb_userEmail body),
        Js.present (cb_categoryId body), Js.present (cb_categoryName body) with
  | Some userId, Some userEmail, Some categoryId, Some categoryName =>
      match CategorySubscription.findOne userId categoryId col with
      | Some existing =>
          if CategorySubscription.isActive existing then
            (Http.mk 409 false "Already subscribed to this category" None, col)
          else
            let existing := CategorySubscription.set_isActive true existing in
            let existing := CategorySubscription.set_subscribedAt now existing in
            (Http.mk 200 true "Subscription reactivated" (Some existing),
             CategorySubscription.save existing col)
      | None =>
          let (subscription, col') :=
            CategorySubscription.create now userId userEmail
              (Js.or_else (cb_userName body) "") categoryId categoryName col in
          (Http.mk 201 true "Successfully subscribed to category"
                   (Some subscription), col')
      end
  | _, _, _, _ =>
      (Http.mk 400 false
         "userId, userEmail, categoryId, and categoryName are required" None, col)
  end.

Definition unsubscribeFromCategory (userId categoryId : Js.value)
    (col : list CategorySubscription.doc)
  : Http.response (string * string) * list CategorySubscription.doc :=
  match Js.present userId, Js.present categoryId with
  | Some u, Some c =>
      match CategorySubscription.findOne u c col with
      | None => (Http.mk 404 false "Subscription not found" None, col)
      | Some subscription =>
          let subscription := CategorySubscription.set_isActive false subscription in
          (Http.mk 200 true "Successfully unsubscribed from category"
                   (Some (c, CategorySubscription.categoryName subscription)),
           CategorySubscription.save subscription col)
      end
  | _, _ => (Http.mk 400 false "userId and categoryId are required" None, col)
  end.

Definition subscribeToBook (now : Z) (body : BookBody)
    (col : list BookSubscription.doc)
  : Http.response BookSubscription.doc * list BookSubscription.doc :=
  match Js.present (bb_userId body), Js.present (bb_userEmail body),
        Js.present (bb_bookId body), Js.present (bb_bookTitle body) with
  | Some userId, Some userEmail, Some bookId, Some bookTitle =>
      match BookSubscription.findOne userId bookId col with
      | Some existing =>
          if BookSubscription.isActive existing then
            (Http.mk 409 false "Already subscribed to this book" None, col)
          else
            let existing := BookSubscription.set_isActive true existing in
            let existing := BookSubscription.set_subscribedAt now existing in
            (Http.mk 200 true "Subscription reactivated" (Some existing),
             BookSubscription.save existing col)
      | None =>
          let (subscription, col') :=
            BookSubscription.create now userId userEmail
              (Js.or_else (bb_userName body) "") bookId bookTitle
              (Js.or_else (bb_bookCategory body) "") col in
          (Http.mk 201 true "Successfully subscribed to book"
                   (Some subscription), col')
      end
  | _, _, _, _ =>
      (Http.mk 400 false
         "userId, userEmail, bookId, and bookTitle are required" None, col)
  end.

Definition unsubscribeFromBook (userId bookId : Js.value)
    (col : list BookSubscription.doc)
  : Http.response (string * string) * list BookSubscription.doc :=
  match Js.present userId, Js.present bookId with
  | Some u, Some b =>
      match BookSubscription.findOne u b col with
      | None => (Http.mk 404 false "Subscription not found" None, col)
      | Some subscription =>
          let subscription := BookSubscription.set_isActive false subscription in
          (Http.mk 200 true "Successfully unsubscribed from book"
                   (Some (b, BookSubscription.bookTitle subscription)),
           BookSubscription.save subscription col)
      end
  | _, _ => (Http.mk 400 false "userId and bookId are required" None, col)
  end.

(** *** The targeting resolver *)

(** The engine itself, consulted for what lies outside [Regex]: for a
    pattern, [None] when the constructor throws, else the test the
    store performs with it. *)
Definition Engine := string -> option (string -> bool).

(** [new RegExp(pattern, 'i')], as the store then applies it.  On a
    pattern of the syntax of [Regex] and a printable subject the test
    is [Regex.search]; elsewhere it is the engine's. *)
Definition RegExp (beyond : Engine) (pattern : string) : option (string -> bool) :=
  match Regex.parse pattern with
  | Regex.Compiled r =>
      Some (fun subject =>
              if Regex.printable subject then Regex.search r subject
              else match beyond pattern with
                   | Some test => test subject
                   | None => false
                   end)
  | Regex.SyntaxError => None
  | Regex.Beyond => beyond pattern
  end.

Definition fromCategory (sub : CategorySubscription.doc) : TargetedSubscriber.t :=
  TargetedSubscriber.mk
    (CategorySubscription.userId sub) (CategorySubscription.userEmail sub)
    (CategorySubscription.userName sub) TargetedSubscriber.category
    (Some (CategorySubscription.categoryId sub))
    (Some (CategorySubscription.categoryName sub)) None None.

Definition fromBook (sub : BookSubscription.doc) : TargetedSubscriber.t :=
  TargetedSubscriber.mk
    (BookSubscription.userId sub) (BookSubscription.userEmail sub)
    (BookSubscription.userName sub) TargetedSubscriber.book
    None None
    (Some (BookSubscription.bookId sub)) (Some (BookSubscription.bookTitle sub)).

(** [existing.subscriptionType = 'both'; existing.bookId = ...;
    existing.bookTitle = ...]. *)
Definition markBoth (existing : TargetedSubscriber.t) (sub : BookSubscription.doc)
  : TargetedSubscriber.t :=
  TargetedSubscriber.mk
    (TargetedSubscriber.userId existing) (TargetedSubscriber.userEmail existing)
    (TargetedSubscriber.userName existing) TargetedSubscriber.both
    (TargetedSubscriber.categoryId existing)
    (TargetedSubscriber.categoryName existing)
    (Some (BookSubscription.bookId sub)) (Some (BookSubscription.bookTitle sub)).

(** The first [find]: active rows whose name the pattern accepts. *)
Definition categorySubscribers (re : string -> bool)
    (cats : list CategorySubscription.doc) : list CategorySubscription.doc :=
  List.filter
    (fun d => re (CategorySubscription.categoryName d)
              && CategorySubscription.isActive d) cats.

(** The second [find]: active rows of the book. *)
Definition bookSubscribers (bookId : string)
    (books : list BookSubscription.doc) : list BookSubscription.doc :=
  List.filter
    (fun d => String.eqb (BookSubscription.bookId d) bookId
              && BookSubscription.isActive d) books.

Definition pass1 (rows : list CategorySubscription.doc)
  : list (string * TargetedSubscriber.t) :=
  fold_left
    (fun subscribers sub =>
       JsMap.set (CategorySubscription.userId sub) (fromCategory sub) subscribers)
    rows [].

Definition pass2 (rows : list BookSubscription.doc)
    (subscribers : list (string * TargetedSubscriber.t))
  : list (string * TargetedSubscriber.t) :=
  fold_left
    (fun subscribers sub =>
       match JsMap.get (BookSubscription.userId sub) subscribers with
       | Some existing =>
           JsMap.set (BookSubscription.userId sub) (markBoth existing sub) subscribers
       | None =>
           JsMap.set (BookSubscription.userId sub) (fromBook sub) subscribers
       end)
    rows subscribers.

Definition getTargetedSubscribers (beyond : Engine)
    (cats : list CategorySubscription.doc) (books : list BookSubscription.doc)
    (categoryName bookId : Js.value) : list TargetedSubscriber.t :=
  match RegExp beyond ("^" +:+ Js.interpolate categoryName +:+ "$") with
  | None => []
  | Some re =>
      let subscribers := pass1 (categorySubscribers re cats) in
      let subscribers :=
        if Js.truthy bookId
        then pass2 (bookSubscribers (Js.interpolate bookId) books) subscribers
        else subscribers in
      JsMap.values subscribers
  end.

End SubscriptionController.

(** ** Notification service: batch creation, e-mail and the handlers

    [controllers/notificationDbController.js],
    [services/emailService.js] and [services/eventHandlers.js]. *)

Module NotificationDbController.

Record NotificationData := mkData {
  type : Notification.Type_;
  title : string;
  message : string;
  relatedBookId : Js.value;
  relatedBookTitle : Js.value;
  relatedCategoryId : Js.value;
  relatedCategoryName : Js.value;
  metadata : option (list (string * Js.value));
  priority : option Notification.Priority
}.

(** The document built for the [i]-th subscriber; [fresh i] stands for
    the clock reading and the UUID prefix drawn for it. *)
Definition notificationFor (fresh : nat -> string) (d : NotificationData)
    (i : nat) (sub : TargetedSubscriber.t) : Notification.doc :=
  Notification.mk
    ("NOTIF-" +:+ fresh i)
    (TargetedSubscriber.userId sub)
    (TargetedSubscriber.userEmail sub)
    (type d) (title d) (message d)
    (Js.or_null (relatedBookId d))
    (Js.or_null (relatedBookTitle d))
    (Js.or_null (relatedCategoryId d))
    (Js.or_null (relatedCategoryName d))
    (default [] (metadata d))
    false
    (default Notification.normal (priority d)).

(** [subscribers.map(...)]: the documents of a batch. *)
Definition documents (fresh : nat -> string)
    (subscribers : list TargetedSubscriber.t) (d : NotificationData)
  : list Notification.doc :=
  imap (notificationFor fresh d) subscribers.

(** [createBatchNotifications]: the documents followed by one
    [Notification.insertMany]; what it returns (nothing when the write
    threw, which the [catch] swallows) and the collection after it. *)
Definition createBatchNotifications (fresh : nat -> string)
    (subscribers : list TargetedSubscriber.t) (d : NotificationData)
    (col : list Notification.doc)
  : list Notification.doc * list Notification.doc :=
  let notifications := documents fresh subscribers d in
  match Notification.insertMany notifications col with
  | (true, col') => (notifications, col')
  | (false, col') => ([], col')
  end.

(** The [n] identifiers drawn for a batch differ from each other and
    from those of the collection. *)
Definition freshIds (fresh : nat -> string) (n : nat) (col : list Notification.doc)
  : Prop :=
  (forall i j, (i < n)%nat -> (j < n)%nat -> fresh i = fresh j -> i = j)
  /\ (forall i x, (i < n)%nat -> In x col ->
                  Notification.notificationId x <> "NOTIF-" +:+ fresh i).

(** Subscribers that have the two strings the [Notification] schema
    requires of them. *)
Definition addressed (subscribers : list TargetedSubscriber.t) : Prop :=
  forall t, In t subscribers ->
            TargetedSubscriber.userId t <> "" /\ TargetedSubscriber.userEmail t <> "".

End NotificationDbController.

Module EmailService.

Record NewBookEmail := mkMail {
  userEmail : string;
  userName : string;
  bookTitle : Js.value;
  bookAuthor : Js.value;
  bookCategory : Js.value;
  coverImageUrl : Js.value;
  subscriptionType : TargetedSubscriber.SubscriptionType
}.

(** The SMTP transport: absent when no credentials are configured,
    else the outcome of [sendMail] for each message. *)
Definition Transporter := option (NewBookEmail -> bool).

(** Every failure ends in [false]; nothing is thrown. *)
Definition sendNewBookNotificationEmail (transporter : Transporter)
    (data : NewBookEmail) : bool :=
  match transporter with
  | None => false
  | Some sendMail =>
      if String.eqb (userEmail data) "" then false else sendMail data
  end.

End EmailService.

Module EventHandlers.

(** [event.data] of the catalog events. *)
Record BookData := mkBookData {
  bookId : Js.value;
  title : Js.value;
  author : Js.value;
  category : Js.value;
  coverImageUrl : Js.value
}.

(** An entry of the in-memory [eventLog]. *)
Inductive AuditEntry :=
| NoSubscribers (data : BookData)
| BookAddedProcessed (data : BookData) (subscribersNotified emailsSent : nat)
| BookUpdatedProcessed (data : BookData) (subscribersNotified : nat).

(** The service's state: its three collections and the event log. *)
Record Service := mkService {
  categorySubscriptions : list CategorySubscription.doc;
  bookSubscriptions : list BookSubscription.doc;
  notifications : list Notification.doc;
  eventLog : list AuditEntry
}.

(** What a handler asked of the outside, in order: a bulk write of
    documents, an e-mail with the outcome of its sending. *)
Inductive Effect :=
| InsertMany (docs : list Notification.doc)
| SendMail (mail : EmailService.NewBookEmail) (sent : bool).

Record Env := mkEnv {
  beyond : SubscriptionController.Engine;
  fresh : nat -> string;
  transporter : EmailService.Transporter
}.

Definition mailFor (data : BookData) (subscriber : TargetedSubscriber.t)
  : EmailService.NewBookEmail :=
  EmailService.mkMail
    (TargetedSubscriber.userEmail subscriber)
    (TargetedSubscriber.userName subscriber)
    (title data) (author data) (category data) (coverImageUrl data)
    (TargetedSubscriber.subscriptionType subscriber).

(** The [for ... of] loop: one attempt per subscriber, whatever the
    earlier attempts returned. *)
Fixpoint sendAll (env : Env) (data : BookData)
    (subscribers : list TargetedSubscriber.t) : nat * list Effect :=
  match subscribers with
  | [] => (0%nat, [])
  | subscriber :: rest =>
      let mail := mailFor data subscriber in
      let emailSent :=
        EmailService.sendNewBookNotificationEmail (transporter env) mail in
      let (emailsSent, effects) := sendAll env data rest in
      ((if emailSent then S emailsSent else emailsSent), SendMail mail emailSent :: effects)
  end.

Definition bookAddedData (data : BookData)
  : NotificationDbController.NotificationData :=
  NotificationDbController.mkData
    Notification.BOOK_ADDED
    ("New Book: " +:+ Js.interpolate (title data))
    ("A new book " +:+ Js.quote +:+ Js.interpolate (title data) +:+ Js.quote +:+ " by "
       +:+ Js.interpolate (author data) +:+ " has been added to the "
       +:+ Js.interpolate (category data) +:+ " category.")
    (bookId data) (title data) None (category data)
    (Some [("author", author data); ("coverImageUrl", coverImageUrl data)])
    (Some Notification.normal).

Definition handleBookAdded (env : Env) (svc : Service) (data : BookData)
  : Service * list Effect :=
  let subscribers :=
    SubscriptionController.getTargetedSubscribers (beyond env)
      (categorySubscriptions svc) (bookSubscriptions svc)
      (category data) (bookId data) in
  match subscribers with
  | [] =>
      (mkService (categorySubscriptions svc) (bookSubscriptions svc)
                 (notifications svc) (eventLog svc ++ [NoSubscribers data]), [])
  | _ :: _ =>
      let (_, notifications') :=
        NotificationDbController.createBatchNotifications (fresh env) subscribers
          (bookAddedData data) (notifications svc) in
      let (emailsSent, mails) := sendAll env data subscribers in
      (mkService (categorySubscriptions svc) (bookSubscriptions svc)
                 notifications'
                 (eventLog svc
                    ++ [BookAddedProcessed data (List.length subscribers) emailsSent]),
       InsertMany
         (NotificationDbController.documents (fresh env) subscribers (bookAddedData data))
         :: mails)
  end.

Definition bookUpdatedData (data : BookData)
  : NotificationDbController.NotificationData :=
  NotificationDbController.mkData
    Notification.BOOK_UPDATED
    ("Book Updated: " +:+ Js.interpolate (title data))
    ("The book " +:+ Js.quote +:+ Js.interpolate (title data) +:+ Js.quote
       +:+ " that you're following has been updated.")
    (bookId data) (title data) None None None
    (Some Notification.low).

Definition handleBookUpdated (env : Env) (svc : Service) (data : BookData)
  : Service * list Effect :=
  let subscribers :=
    SubscriptionController.getTargetedSubscribers (beyond env)
      (categorySubscriptions svc) (bookSubscriptions svc)
      (Some (Js.or_else (category data) "")) (bookId data) in
  let bookSubscribers := List.filter TargetedSubscriber.followsBook subscribers in
  match bookSubscribers with
  | [] => (svc, [])
  | _ :: _ =>
      let (_, notifications') :=
        NotificationDbController.createBatchNotifications (fresh env) bookSubscribers
          (bookUpdatedData data) (notifications svc) in
      (mkService (categorySubscriptions svc) (bookSubscriptions svc)
                 notifications'
                 (eventLog svc
                    ++ [BookUpdatedProcessed data (List.length bookSubscribers)]),
       [InsertMany
          (NotificationDbController.documents (fresh env) bookSubscribers
             (bookUpdatedData data))])
  end.

End EventHandlers.

(** ** Borrow service: the record, the publisher and the controller

    [backend/borrow-service/models/Borrow.js],
    [services/eventPublisher.js] and [controllers/borrowController.js]. *)

Module Borrow.

Inductive Status := BORROWED | RETURNED.

(** A document of the [borrows] collection; [_id] is its ObjectId,
    written as the store prints it, and dates are times in
    milliseconds. *)
Record doc := mk {
  _id : string;
  userId : string;
  bookId : string;
  email : string;
  borrowerName : string;
  borrowDate : Z;
  dueDate : Z;
  status : Status
}.

Definition is_borrowed (d : doc) : bool :=
  match status d with BORROWED => true | RETURNED => false end.

(** [Borrow.findOne({ userId, bookId, status: "BORROWED" })]. *)
Definition findOne (u b : string) (col : list doc) : option doc :=
  List.find
    (fun d => String.eqb (userId d) u && String.eqb (bookId d) b && is_borrowed d)
    col.

End Borrow.

(** Computations of the borrow service: they read and write the
    [borrows] collection and the broker's channels, and may throw. *)
Module Eff.

Record World := mkWorld {
  borrows : list Borrow.doc;
  channels : list (string * string * Z)
}.

Inductive result (A : Type) :=
| Ok (a : A)
| Throw (error : string).

Arguments Ok {A} _.
Arguments Throw {A} _.

Definition M (A : Type) : Type := World -> result A * World.

Definition ret {A} (a : A) : M A := fun w => (Ok a, w).

Definition throw {A} (error : string) : M A := fun w => (Throw error, w).

Definition bind {A B} (c : M A) (k : A -> M B) : M B :=
  fun w =>
    match c w with
    | (Ok a, w') => k a w'
    | (Throw e, w') => (Throw e, w')
    end.

(** [try { c } catch (error) { h(error.message) }]. *)
Definition try_catch {A} (c : M A) (h : string -> M A) : M A :=
  fun w =>
    match c w with
    | (Ok a, w') => (Ok a, w')
    | (Throw e, w') => h e w'
    end.

(** A call into another service: its outcome is given, the world is
    left as it is. *)
Definition call {A} (r : result A) : M A := fun w => (r, w).

Definition get_borrows : M (list Borrow.doc) := fun w => (Ok (borrows w), w).

Definition put_borrows (col : list Borrow.doc) : M unit :=
  fun w => (Ok tt, mkWorld col (channels w)).

Definition deliver (channel payload : string) (timestamp : Z) : M unit :=
  fun w => (Ok tt, mkWorld (borrows w) (channels w ++ [(channel, payload, timestamp)])).

End Eff.

Notation "'let*' x ':=' c 'in' k" := (Eff.bind c (fun x => k))
  (at level 10, x name, c at level 100, k at level 200).

Module EventPublisher.

(** The connection of the client to the broker. *)
Inductive Socket := Open | Closed.

(** The module's two variables. *)
Record Publisher := mkPublisher {
  redisClient : option Socket;
  isConnected : bool
}.

Record BookBorrowedData := mkData {
  borrowId : string;
  userId : string;
  bookId : string;
  email : string;
  borrowerName : string;
  bookTitle : string;
  dueDate : Z;
  borrowDate : Z
}.

(** The broker is unreachable at publish time. *)
Definition unavailable (p : Publisher) : Prop :=
  isConnected p = false \/ redisClient p = None \/ redisClient p = Some Closed.

(** [redisClient.publish(channel, message)]. *)
Definition publish (s : Socket) (channel payload : string) (timestamp : Z)
  : Eff.M unit :=
  match s with
  | Open => Eff.deliver channel payload timestamp
  | Closed => Eff.throw "The client is closed"
  end.

(** The serialised event is identified by the book it is about. *)
Definition publishBookBorrowed (p : Publisher) (now : Z) (data : BookBorrowedData)
  : Eff.M bool :=
  match isConnected p, redisClient p with
  | true, Some client =>
      Eff.try_catch
        (let* _ := publish client "BookBorrowed" (bookId data) now in
         Eff.ret true)
        (fun _ => Eff.ret false)
  | _, _ => Eff.ret false
  end.

End EventPublisher.

Module BorrowController.

Record Body := mkBody {
  userId : Js.value;
  bookId : Js.value;
  email : Js.value;
  borrowerName : Js.value;
  borrowDuration : option Z
}.

(** What a request finds around it: the clock; the two services the
    controller calls over HTTP; the publisher; the ObjectId that
    [new Borrow] draws; the calendar of the server's time zone,
    [setDate t n] being the time that
    [new Date(t).setDate(new Date(t).getDate() + n)] leaves, or [None]
    for an Invalid Date; [String.prototype.toLowerCase] on strings that
    are not pure ASCII; and the cast of a request parameter to an
    ObjectId, [None] when the parameter is malformed. *)
Record Env := mkEnv {
  now : Z;
  verifyEmail : string -> Eff.result unit;
  getBook : string -> Eff.result (option Js.value);
  publisher : EventPublisher.Publisher;
  objectId : string;
  setDate : Z -> Z -> option Z;
  lowerCase : string -> string;
  castObjectId : string -> option string
}.

Definition lower (c : ascii) : ascii :=
  let n := nat_of_ascii c in
  if ((65 <=? n) && (n <=? 90))%nat then ascii_of_nat (n + 32) else c.

Fixpoint lower_ascii (s : string) : string :=
  match s with
  | EmptyString => EmptyString
  | String c s' => String (lower c) (lower_ascii s')
  end.

Fixpoint is_ascii (s : string) : bool :=
  match s with
  | EmptyString => true
  | String c s' => (nat_of_ascii c <? 128)%nat && is_ascii s'
  end.

(** [email.toLowerCase()]: on ASCII the 26 capitals are lowered; any
    other string is lowered by the platform. *)
Definition toLowerCase (env : Env) (s : string) : string :=
  if is_ascii s then lower_ascii s else lowerCase env s.

(** [email.split('@')[0]]. *)
Fixpoint beforeAt (s : string) : string :=
  match s with
  | EmptyString => EmptyString
  | String c s' => if Ascii.eqb c "@" then EmptyString else String c (beforeAt s')
  end.

(** [Math.min(parseInt(borrowDuration) || 14, 14)]; the field holds
    what [parseInt] returns, [None] for [NaN]. *)
Definition duration (d : option Z) : Z :=
  Z.min (match d with Some n => if n =? 0 then 14 else n | None => 14 end) 14.

(** [borrow.save()] of a new record: the unique index on [_id]. *)
Definition insert (borrow : Borrow.doc) (col : list Borrow.doc) : Eff.M unit :=
  if existsb (fun d => String.eqb (Borrow._id d) (Borrow._id borrow)) col
  then Eff.throw "E11000 duplicate key error"
  else Eff.put_borrows (col ++ [borrow]).

Definition borrowBook (env : Env) (body : Body)
  : Eff.M (Http.response Borrow.doc) :=
  Eff.try_catch
    (match Js.present (userId body), Js.present (bookId body),
           Js.present (email body) with
     | Some userId, Some bookId, Some email =>
         let* rejected :=
           Eff.try_catch
             (let* _ := Eff.call (verifyEmail env email) in Eff.ret None)
             (fun error =>
                Eff.ret (Some (if String.eqb error ""
                               then "Email verification failed" else error))) in
         match rejected with
         | Some message => Eff.ret (Http.mk 400 false message None)
         | None =>
             let* col := Eff.get_borrows in
             match Borrow.findOne userId bookId col with
             | Some _ =>
                 Eff.ret (Http.mk 400 false "You already have this book borrowed" None)
             | None =>
                 let borrowDate := now env in
                 match setDate env borrowDate (duration (borrowDuration body)) with
                 | None => Eff.throw "Borrow validation failed: dueDate"
                 | Some dueDate =>
                     let borrow :=
                       Borrow.mk (objectId env) userId bookId (toLowerCase env email)
                         (Js.or_else (borrowerName body) (beforeAt email))
                         borrowDate dueDate Borrow.BORROWED in
                     let* _ := insert borrow col in
                     let* bookTitle :=
                       Eff.try_catch
                         (let* bookData := Eff.call (getBook env bookId) in
                          Eff.ret (match bookData with
                                   | Some title => Js.or_else title "Unknown Book"
                                   | None => "Unknown Book"
                                   end))
                         (fun _ => Eff.ret "Unknown Book") in
                     let* _ :=
                       EventPublisher.publishBookBorrowed (publisher env) (now env)
                         (EventPublisher.mkData (Borrow._id borrow) userId bookId
                            (toLowerCase env email) (Borrow.borrowerName borrow)
                            bookTitle dueDate (Borrow.borrowDate borrow)) in
                     Eff.ret (Http.mk 201 true "Book borrowed successfully"
                                (Some borrow))
                 end
             end
         end
     | _, _, _ =>
         Eff.ret (Http.mk 400 false "userId, bookId, and email are required" None)
     end)
    (fun _ => Eff.ret (Http.mk 500 false "Server error during borrow" None)).

End BorrowController.

(** ** The subscription store as a whole

    The two collections and the requests that change them; a state is
    reachable when requests lead to it from the empty store. *)

Module Store.

Record t := mk {
  categories : list CategorySubscription.doc;
  books : list BookSubscription.doc
}.

Inductive Request :=
| SubscribeToCategory (now : Z) (body : SubscriptionController.CategoryBody)
| UnsubscribeFromCategory (userId categoryId : Js.value)
| SubscribeToBook (now : Z) (body : SubscriptionController.BookBody)
| UnsubscribeFromBook (userId bookId : Js.value).

Definition handle (r : Request) (st : t) : t :=
  match r with
  | SubscribeToCategory now body =>
      mk (snd (SubscriptionController.subscribeToCategory now body (categories st)))
         (books st)
  | UnsubscribeFromCategory u c =>
      mk (snd (SubscriptionController.unsubscribeFromCategory u c (categories st)))
         (books st)
  | SubscribeToBook now body =>
      mk (categories st)
         (snd (SubscriptionController.subscribeToBook now body (books st)))
  | UnsubscribeFromBook u b =>
      mk (categories st)
         (snd (SubscriptionController.unsubscribeFromBook u b (books st)))
  end.

Inductive reachable : t -> Prop :=
| reachable_empty : reachable (mk [] [])
| reachable_step r st : reachable st -> reachable (handle r st).

End Store.

(** ** What the store's interface promises

    [subscribe] is an upsert with reactivation and [unsubscribe] a soft
    delete; both are stated once for the two models. *)

Module Contract.

Section Keyed.
Context {A : Type} (userOf targetOf : A -> string) (isActive : A -> bool).

(** The pair has a row with the given [isActive]. *)
Definition has_row (active : bool) (u t : string) (col : list A) : Prop :=
  exists d, Model.row userOf targetOf u t d col /\ isActive d = active.

Definition no_row (u t : string) (col : list A) : Prop :=
  forall d, ~ Model.row userOf targetOf u t d col.

(** [col'] is [col] with the row [d] replaced by [d'], in place. *)
Definition replaced (d d' : A) (col col' : list A) : Prop :=
  exists l1 l2, col = l1 ++ d :: l2 /\ col' = l1 ++ d' :: l2.

(** [reactivated d d'] and [created d'] say, field by field, what row
    [d'] takes the place of an inactive row [d], and what row is added
    for a pair that has none. *)
Definition subscribe (reactivated : A -> A -> Prop) (created : A -> Prop)
    (u t : string) (col : list A) (status : nat) (col' : list A) : Prop :=
  (status = 409%nat <-> has_row true u t col)
  /\ (status = 200%nat <-> has_row false u t col)
  /\ (status = 201%nat <-> no_row u t col)
  /\ (has_row true u t col -> col' = col)
  /\ (forall d, Model.row userOf targetOf u t d col -> isActive d = false ->
               exists d', reactivated d d' /\ replaced d d' col col')
  /\ (no_row u t col -> exists d', created d' /\ col' = col ++ [d']).

Definition unsubscribe (deactivated : A -> A -> Prop) (u t : string)
    (col : list A) (status : nat) (col' : list A) : Prop :=
  (status = 404%nat <-> no_row u t col)
  /\ (no_row u t col -> col' = col)
  /\ (forall d, Model.row userOf targetOf u t d col ->
               status = 200%nat
               /\ exists d', deactivated d d' /\ replaced d d' col col').

End Keyed.

(** A category row [d'] next to the row [d] it replaces: active again
    as of [now], or inactive, with every other field as it was. *)
Definition categoryReactivated (now : Z) (d d' : CategorySubscription.doc) : Prop :=
  CategorySubscription.isActive d' = true
  /\ CategorySubscription.subscribedAt d' = now
  /\ CategorySubscription.userId d' = CategorySubscription.userId d
  /\ CategorySubscription.userEmail d' = CategorySubscription.userEmail d
  /\ CategorySubscription.userName d' = CategorySubscription.userName d
  /\ CategorySubscription.categoryId d' = CategorySubscription.categoryId d
  /\ CategorySubscription.categoryName d' = CategorySubscription.categoryName d.

Definition categoryDeactivated (d d' : CategorySubscription.doc) : Prop :=
  CategorySubscription.isActive d' = false
  /\ CategorySubscription.subscribedAt d' = CategorySubscription.subscribedAt d
  /\ CategorySubscription.userId d' = CategorySubscription.userId d
  /\ CategorySubscription.userEmail d' = CategorySubscription.userEmail d
  /\ CategorySubscription.userName d' = CategorySubscription.userName d
  /\ CategorySubscription.categoryId d' = CategorySubscription.categoryId d
  /\ CategorySubscription.categoryName d' = CategorySubscription.categoryName d.

(** The category row of a first subscription. *)
Definition categoryCreated (now : Z) (userId userEmail userName categoryId
    categoryName : string) (d' : CategorySubscription.doc) : Prop :=
  CategorySubscription.isActive d' = true
  /\ CategorySubscription.subscribedAt d' = now
  /\ CategorySubscription.userId d' = userId
  /\ CategorySubscription.userEmail d' = userEmail
  /\ CategorySubscription.userName d' = userName
  /\ CategorySubscription.categoryId d' = categoryId
  /\ CategorySubscription.categoryName d' = categoryName.

(** The same for book rows. *)
Definition bookReactivated (now : Z) (d d' : BookSubscription.doc) : Prop :=
  BookSubscription.isActive d' = true
  /\ BookSubscription.subscribedAt d' = now
  /\ BookSubscription.userId d' = BookSubscription.userId d
  /\ BookSubscription.userEmail d' = BookSubscription.userEmail d
  /\ BookSubscription.userName d' = BookSubscription.userName d
  /\ BookSubscription.bookId d' = BookSubscription.bookId d
  /\ BookSubscription.bookTitle d' = BookSubscription.bookTitle d
  /\ BookSubscription.bookCategory d' = BookSubscription.bookCategory d.

Definition bookDeactivated (d d' : BookSubscription.doc) : Prop :=
  BookSubscription.isActive d' = false
  /\ BookSubscription.subscribedAt d' = BookSubscription.subscribedAt d
  /\ BookSubscription.userId d' = BookSubscription.userId d
  /\ BookSubscription.userEmail d' = BookSubscription.userEmail d
  /\ BookSubscription.userName d' = BookSubscription.userName d
  /\ BookSubscription.bookId d' = BookSubscription.bookId d
  /\ BookSubscription.bookTitle d' = BookSubscription.bookTitle d
  /\ BookSubscription.bookCategory d' = BookSubscription.bookCategory d.

Definition bookCreated (now : Z) (userId userEmail userName bookId bookTitle
    bookCategory : string) (d' : BookSubscription.doc) : Prop :=
  BookSubscription.isActive d' = true
  /\ BookSubscription.subscribedAt d' = now
  /\ BookSubscription.userId d' = userId
  /\ BookSubscription.userEmail d' = userEmail
  /\ BookSubscription.userName d' = userName
  /\ BookSubscription.bookId d' = bookId
  /\ BookSubscription.bookTitle d' = bookTitle
  /\ BookSubscription.bookCategory d' = bookCategory.

End Contract.

(** ** Book service: the handlers between their two waits

    A handler waits twice: for [Book.findOne] and for [book.save()].
    What it does after the first wait depends on the document it was
    given and on the collection as it is when the write arrives.
    [services/eventSubscriber.js]. *)

Module ProjectorSteps.

(** [handleBookBorrowed], from the answer of [Book.findOne] on. *)
Definition resumeBorrowed (bookId : string) (found : option Book.doc)
    (books : gmap string Book.doc) : gmap string Book.doc :=
  match found with
  | None => books
  | Some book =>
      if Number.leb (Book.availableCopies book) Number.zero then books
      else
        let book :=
          Book.set_availableCopies
            (Number.sub (Book.availableCopies book) Number.one) book in
        let book :=
          if Number.eqb (Book.availableCopies book) Number.zero
          then Book.set_status Book.unavailable book else book in
        match Book.save books bookId book with
        | Some books' => books'
        | None => books
        end
  end.

(** Two [BookBorrowed] messages for one book, the second handler
    reading before the first one has written. *)
Definition overlappingBorrows (bookId : string) (books : gmap string Book.doc)
  : gmap string Book.doc :=
  let first := Book.findOne books bookId in
  let second := Book.findOne books bookId in
  let books := resumeBorrowed bookId first books in
  resumeBorrowed bookId second books.

(** [initSubscriber]: the two channels and their handlers; a message
    is the [bookId] of its payload. *)
Definition deliver (channel bookId : string) (books : gmap string Book.doc)
  : gmap string Book.doc :=
  if String.eqb channel "BookBorrowed"
  then fst (Projector.handleBookBorrowed books bookId)
  else if String.eqb channel "BookReturned"
  then fst (Projector.handleBookReturned books bookId)
  else books.

End ProjectorSteps.

(** ** Book service: the controller

    [backend/book-service/controllers/bookController.js].  A request
    carries more fields than [Book.doc] keeps (author, pages, language,
    description, cover); they are read where the code tests them and
    dropped where it only stores them. *)

Module BookController.

(** The [publish...] call a handler ends with. *)
Inductive Published :=
| BookDeleted (bookId title : string)
| BookUpdated (bookId title : string).

(** The [data] of the two availability answers. *)
Record Availability := mkAvailability {
  bookId : string;
  title : string;
  availableCopies : Number.t;
  totalCopies : Number.t
}.

Definition availabilityOf (id : string) (book : Book.doc) : Availability :=
  mkAvailability id (Book.title book) (Book.availableCopies book)
    (Book.totalCopies book).

Definition getBookById (id : string) (books : gmap string Book.doc)
  : Http.response Book.doc :=
  match Book.findOne books id with
  | None => Http.mk 404 false "Book not found" None
  | Some book => Http.mk 200 true "" (Some book)
  end.

Definition decreaseAvailableCopies (id : string) (books : gmap string Book.doc)
  : Http.response Availability * gmap string Book.doc :=
  match Book.findOne books id with
  | None => (Http.mk 404 false "Book not found" None, books)
  | Some book =>
      if Number.leb (Book.availableCopies book) Number.zero then
        (Http.mk 400 false "No copies available for borrowing" None, books)
      else
        let book :=
          Book.set_availableCopies
            (Number.sub (Book.availableCopies book) Number.one) book in
        let book :=
          if Number.eqb (Book.availableCopies book) Number.zero
          then Book.set_status Book.unavailable book else book in
        match Book.save books id book with
        | Some books' =>
            (Http.mk 200 true "Book availability decreased"
                     (Some (availabilityOf id book)), books')
        | None => (Http.mk 500 false "Validation failed" None, books)
        end
  end.

Definition increaseAvailableCopies (id : string) (books : gmap string Book.doc)
  : Http.response Availability * gmap string Book.doc :=
  match Book.findOne books id with
  | None => (Http.mk 404 false "Book not found" None, books)
  | Some book =>
      if Number.leb (Book.totalCopies book) (Book.availableCopies book) then
        (Http.mk 400 false "Cannot increase copies beyond total inventory" None, books)
      else
        let book :=
          Book.set_availableCopies
            (Number.add (Book.availableCopies book) Number.one) book in
        let book :=
          if Number.ltb Number.zero (Book.availableCopies book)
          then Book.set_status Book.available book else book in
        match Book.save books id book with
        | Some books' =>
            (Http.mk 200 true "Book availability increased"
                     (Some (availabilityOf id book)), books')
        | None => (Http.mk 500 false "Validation failed" None, books)
        end
  end.

Definition deleteBook (id : string) (books : gmap string Book.doc)
  : Http.response (string * string) * gmap string Book.doc * option Published :=
  match Book.findOne books id with
  | None => (Http.mk 404 false "Book not found" None, books, None)
  | Some book =>
      if Number.ltb (Book.availableCopies book) (Book.totalCopies book) then
        (Http.mk 400 false "Cannot delete book. Some copies are still borrowed." None,
         books, None)
      else
        (Http.mk 200 true "Book deleted successfully" (Some (id, Book.title book)),
         delete id books, Some (BookDeleted id (Book.title book)))
  end.

Record Updates := mkUpdates {
  u_title : Js.value;
  u_author : Js.value;
  u_category : Js.value;
  u_pages : option Z;
  u_description : Js.value;
  u_coverImageUrl : Js.value;
  u_totalCopies : option Number.t
}.

(** [book[field] = updates[field]] for a field that is not [undefined]. *)
Definition assigned (v : Js.value) (old : string) : string :=
  match v with Some s => s | None => old end.

Definition assignedNumber (v : option Number.t) (old : Number.t) : Number.t :=
  match v with Some n => n | None => old end.

(** The [required] validator of a string field that was assigned. *)
Definition filled (v : Js.value) : bool :=
  match v with Some s => negb (String.eqb s "") | None => true end.

(** [updateBook].  The comparison that guards the adjustment of
    [availableCopies] reads [book.totalCopies] after the loop has
    already assigned it. *)
Definition updateBook (id : string) (updates : Updates) (books : gmap string Book.doc)
  : Http.response Book.doc * gmap string Book.doc * option Published :=
  match Book.findOne books id with
  | None => (Http.mk 404 false "Book not found" None, books, None)
  | Some book =>
      let book :=
        Book.mk (assigned (u_title updates) (Book.title book))
          (assigned (u_category updates) (Book.category book))
          (assignedNumber (u_totalCopies updates) (Book.totalCopies book))
          (Book.availableCopies book) (Book.status book) in
      let book :=
        match u_totalCopies updates with
        | Some n =>
            if Number.truthy n && Number.ltb (Book.totalCopies book) n then
              let diff := Number.sub n (Book.totalCopies book) in
              Book.set_availableCopies (Number.add (Book.availableCopies book) diff) book
            else book
        | None => book
        end in
      let book :=
        Book.set_status
          (if Number.ltb Number.zero (Book.availableCopies book)
           then Book.available else Book.unavailable)
          book in
      if Book.validate book
         && negb (String.eqb (Book.title book) "")
         && negb (String.eqb (Book.category book) "")
         && filled (u_author updates) && filled (u_coverImageUrl updates)
      then
        (Http.mk 200 true "Book updated successfully" (Some book),
         <[id := book]> books, Some (BookUpdated id (Book.title book)))
      else (Http.mk 500 false "Validation failed" None, books, None)
  end.

(** Every book of the collection counts integers within its bounds. *)
Definition within_bounds (books : gmap string Book.doc) : Prop :=
  forall k b, books !! k = Some b ->
              exists a t, Projector.counts a t b /\ 0 <= a <= t /\ t <= 2 ^ 53.

End BookController.

(** ** Notification service: the queries of the subscription controller

    The rest of [controllers/subscriptionController.js]. *)

Module SubscriptionQueries.

(** The order of [.sort({ subscribedAt: -1 })]. *)
Definition newerCategory (x y : CategorySubscription.doc) : Prop :=
  CategorySubscription.subscribedAt y <= CategorySubscription.subscribedAt x.

Definition newerBook (x y : BookSubscription.doc) : Prop :=
  BookSubscription.subscribedAt y <= BookSubscription.subscribedAt x.

#[export] Instance newerCategory_dec x y : Decision (newerCategory x y) :=
  Z_le_dec _ _.

#[export] Instance newerBook_dec x y : Decision (newerBook x y) :=
  Z_le_dec _ _.

Record UserSubscriptions := mkUserSubscriptions {
  categories : list CategorySubscription.doc;
  books : list BookSubscription.doc;
  totalCategories : nat;
  totalBooks : nat
}.

Definition getUserSubscriptions (userId : Js.value)
    (cats : list CategorySubscription.doc) (bks : list BookSubscription.doc)
  : Http.response UserSubscriptions :=
  match Js.present userId with
  | None => Http.mk 400 false "userId is required" None
  | Some userId =>
      let categorySubscriptions :=
        merge_sort newerCategory
          (List.filter
             (fun d => String.eqb (CategorySubscription.userId d) userId
                       && CategorySubscription.isActive d) cats) in
      let bookSubscriptions :=
        merge_sort newerBook
          (List.filter
             (fun d => String.eqb (BookSubscription.userId d) userId
                       && BookSubscription.isActive d) bks) in
      Http.mk 200 true ""
        (Some (mkUserSubscriptions categorySubscriptions bookSubscriptions
                 (List.length categorySubscriptions) (List.length bookSubscriptions)))
  end.

(** [{ isSubscribed: !!subscription, subscription: subscription || null }]
    for [findOne({ userId, categoryId, isActive: true })]. *)
Definition checkCategorySubscription (userId categoryId : string)
    (cats : list CategorySubscription.doc) : bool * option CategorySubscription.doc :=
  let subscription :=
    List.find
      (fun d => Model.by_key CategorySubscription.userId CategorySubscription.categoryId
                  userId categoryId d
                && CategorySubscription.isActive d) cats in
  (match subscription with Some _ => true | None => false end, subscription).

Definition checkBookSubscription (userId bookId : string)
    (bks : list BookSubscription.doc) : bool * option BookSubscription.doc :=
  let subscription :=
    List.find
      (fun d => Model.by_key BookSubscription.userId BookSubscription.bookId
                  userId bookId d
                && BookSubscription.isActive d) bks in
  (match subscription with Some _ => true | None => false end, subscription).

(** [getCategorySubscribers]: active rows of the category, found by its
    identifier or by the pattern built from [categoryName || categoryId];
    the [data] comes with its [count]. *)
Definition getCategorySubscribers (beyond : SubscriptionController.Engine)
    (categoryId categoryName : Js.value) (cats : list CategorySubscription.doc)
  : Http.response (nat * list CategorySubscription.doc) :=
  match Js.present categoryId with
  | Some id =>
      match SubscriptionController.RegExp beyond
              ("^" +:+ Js.or_else categoryName id +:+ "$") with
      | None => Http.mk 500 false "Invalid regular expression" None
      | Some re =>
          let subscribers :=
            List.filter
              (fun d => CategorySubscription.isActive d
                        && (String.eqb (CategorySubscription.categoryId d) id
                            || re (CategorySubscription.categoryName d))) cats in
          Http.mk 200 true "" (Some (List.length subscribers, subscribers))
      end
  | None =>
      let subscribers := List.filter CategorySubscription.isActive cats in
      Http.mk 200 true "" (Some (List.length subscribers, subscribers))
  end.

Definition getBookSubscribers (bookId : string) (bks : list BookSubscription.doc)
  : Http.response (nat * list BookSubscription.doc) :=
  let subscribers :=
    List.filter
      (fun d => String.eqb (BookSubscription.bookId d) bookId
                && BookSubscription.isActive d) bks in
  Http.mk 200 true "" (Some (List.length subscribers, subscribers)).

End SubscriptionQueries.

(** ** Notification service: the requests on stored notifications

    The rest of [controllers/notificationDbController.js] and the
    table of [routes/notificationDbRoutes.js].  [Notification.doc] keeps
    [isRead] but not [readAt]: the time of reading is part of the
    answer only. *)

Module NotificationQueries.

Definition owned (notificationId userId : string) (d : Notification.doc) : bool :=
  String.eqb (Notification.notificationId d) notificationId
  && String.eqb (Notification.userId d) userId.

Definition unread (userId : string) (d : Notification.doc) : bool :=
  String.eqb (Notification.userId d) userId && negb (Notification.isRead d).

Definition set_isRead (d : Notification.doc) : Notification.doc :=
  Notification.mk
    (Notification.notificationId d) (Notification.userId d) (Notification.userEmail d)
    (Notification.type d) (Notification.title d) (Notification.message d)
    (Notification.relatedBookId d) (Notification.relatedBookTitle d)
    (Notification.relatedCategoryId d) (Notification.relatedCategoryName d)
    (Notification.metadata d) true (Notification.priority d).

(** [Notification.countDocuments({ userId, isRead: false })]. *)
Definition countUnread (userId : string) (col : list Notification.doc) : nat :=
  List.length (List.filter (unread userId) col).

Definition getUnreadCount (userId : Js.value) (col : list Notification.doc)
  : Http.response nat :=
  match Js.present userId with
  | None => Http.mk 400 false "userId is required" None
  | Some userId => Http.mk 200 true "" (Some (countUnread userId col))
  end.

(** The first document a filter selects is changed where it stands. *)
Fixpoint updateOne (p : Notification.doc -> bool)
    (f : Notification.doc -> Notification.doc) (col : list Notification.doc)
  : list Notification.doc :=
  match col with
  | [] => []
  | d :: col' => if p d then f d :: col' else d :: updateOne p f col'
  end.

(** The first document a filter selects is removed. *)
Fixpoint deleteOne (p : Notification.doc -> bool) (col : list Notification.doc)
  : list Notification.doc :=
  match col with
  | [] => []
  | d :: col' => if p d then col' else d :: deleteOne p col'
  end.

Definition markAsRead (now : Z) (notificationId userId : string)
    (col : list Notification.doc)
  : Http.response (Notification.doc * Z) * list Notification.doc :=
  match List.find (owned notificationId userId) col with
  | None => (Http.mk 404 false "Notification not found" None, col)
  | Some notification =>
      let notification := set_isRead notification in
      (Http.mk 200 true "Notification marked as read" (Some (notification, now)),
       updateOne (owned notificationId userId) (fun _ => notification) col)
  end.

(** [updateMany({ userId, isRead: false }, { $set: { isRead: true, ... } })];
    the answer carries [modifiedCount]. *)
Definition markAllAsRead (now : Z) (userId : Js.value) (col : list Notification.doc)
  : Http.response nat * list Notification.doc :=
  match Js.present userId with
  | None => (Http.mk 400 false "userId is required" None, col)
  | Some userId =>
      (Http.mk 200 true "notifications marked as read" (Some (countUnread userId col)),
       map (fun d => if unread userId d then set_isRead d else d) col)
  end.

Definition deleteNotification (notificationId userId : string)
    (col : list Notification.doc)
  : Http.response string * list Notification.doc :=
  match List.find (owned notificationId userId) col with
  | None => (Http.mk 404 false "Notification not found" None, col)
  | Some _ =>
      (Http.mk 200 true "Notification deleted" (Some notificationId),
       deleteOne (owned notificationId userId) col)
  end.

(** [deleteMany({ userId })]; the answer carries [deletedCount]. *)
Definition deleteAllNotifications (userId : Js.value) (col : list Notification.doc)
  : Http.response nat * list Notification.doc :=
  match Js.present userId with
  | None => (Http.mk 400 false "userId is required" None, col)
  | Some userId =>
      (Http.mk 200 true "notifications deleted"
         (Some (List.length
                  (List.filter (fun d => String.eqb (Notification.userId d) userId) col))),
       List.filter (fun d => negb (String.eqb (Notification.userId d) userId)) col)
  end.

(** *** The routes *)

Inductive Method := GET | PUT | DELETE.

Inductive Segment :=
| Literal (s : string)
| Param (name : string).

Inductive Handler :=
| GetUserNotifications
| GetUnreadCount
| MarkAsRead
| MarkAllAsRead
| DeleteNotification
| DeleteAllNotifications.

Definition method_eqb (a b : Method) : bool :=
  match a, b with
  | GET, GET | PUT, PUT | DELETE, DELETE => true
  | _, _ => false
  end.

(** A path against a route: a literal segment is compared without
    regard to letter case, a parameter takes any non-empty segment. *)
Fixpoint matchPath (route : list Segment) (path : list string)
  : option (list (string * string)) :=
  match route, path with
  | [], [] => Some []
  | Literal s :: route', x :: path' =>
      if Regex.eq_nocase s x then matchPath route' path' else None
  | Param name :: route', x :: path' =>
      if String.eqb x "" then None
      else match matchPath route' path' with
           | Some params => Some ((name, x) :: params)
           | None => None
           end
  | _, _ => None
  end.

(** The router, in the order of its [router.<method>(...)] calls. *)
Definition routes : list (Method * list Segment * Handler) :=
  [ (GET, [Literal "user"; Param "userId"], GetUserNotifications);
    (GET, [Literal "user"; Param "userId"; Literal "unread-count"], GetUnreadCount);
    (PUT, [Param "notificationId"; Literal "read"], MarkAsRead);
    (PUT, [Literal "mark-all-read"], MarkAllAsRead);
    (DELETE, [Param "notificationId"], DeleteNotification);
    (DELETE, [Literal "delete-all"], DeleteAllNotifications) ].

(** The first route of the table that takes the request. *)
Fixpoint dispatch (table : list (Method * list Segment * Handler))
    (method : Method) (path : list string)
  : option (Handler * list (string * string)) :=
  match table with
  | [] => None
  | (m, route, handler) :: table' =>
      if method_eqb m method then
        match matchPath route path with
        | Some params => Some (handler, params)
        | None => dispatch table' method path
        end
      else dispatch table' method path
  end.

Definition param (name : string) (params : list (string * string)) : string :=
  match List.find (fun kv => String.eqb (fst kv) name) params with
  | Some kv => snd kv
  | None => ""
  end.

(** A [DELETE] request with [userId] in its body: the status of the
    answer and the collection it leaves. *)
Definition serveDelete (path : list string) (userId : string)
    (col : list Notification.doc) : nat * list Notification.doc :=
  match dispatch routes DELETE path with
  | Some (DeleteNotification, params) =>
      let r := deleteNotification (param "notificationId" params) userId col in
      (Http.status (fst r), snd r)
  | Some (DeleteAllNotifications, _) =>
      let r := deleteAllNotifications (Some userId) col in
      (Http.status (fst r), snd r)
  | _ => (404%nat, col)
  end.

End NotificationQueries.

(** ** Borrow service: returning a book

    [returnBook] of [controllers/borrowController.js] and
    [publishBookReturned] of [services/eventPublisher.js].
    [Borrow.doc] does not keep [returnDate]: the date is part of the
    answer and of the event only. *)

Module BorrowReturns.

Record BookReturnedData := mkData {
  borrowId : string;
  userId : string;
  bookId : string;
  email : string;
  returnDate : Z
}.

Definition publishBookReturned (p : EventPublisher.Publisher) (now : Z)
    (data : BookReturnedData) : Eff.M bool :=
  match EventPublisher.isConnected p, EventPublisher.redisClient p with
  | true, Some client =>
      Eff.try_catch
        (let* _ := EventPublisher.publish client "BookReturned" (bookId data) now in
         Eff.ret true)
        (fun _ => Eff.ret false)
  | _, _ => Eff.ret false
  end.

(** [Borrow.findById] on an ObjectId. *)
Definition findById (id : string) (col : list Borrow.doc) : option Borrow.doc :=
  List.find (fun d => String.eqb (Borrow._id d) id) col.

(** [borrow.status = "RETURNED"]. *)
Definition set_returned (d : Borrow.doc) : Borrow.doc :=
  Borrow.mk (Borrow._id d) (Borrow.userId d) (Borrow.bookId d) (Borrow.email d)
    (Borrow.borrowerName d) (Borrow.borrowDate d) (Borrow.dueDate d) Borrow.RETURNED.

(** [borrow.save()]: the record is written back under its [_id]. *)
Fixpoint save (d : Borrow.doc) (col : list Borrow.doc) : list Borrow.doc :=
  match col with
  | [] => []
  | x :: col' =>
      if String.eqb (Borrow._id x) (Borrow._id d) then d :: col' else x :: save d col'
  end.

(** [returnBook]; [borrowId] is the parameter of the route, which
    [findById] casts to an ObjectId and throws on when it cannot. *)
Definition returnBook (env : BorrowController.Env) (borrowId : string)
  : Eff.M (Http.response (Borrow.doc * Z)) :=
  Eff.try_catch
    (match BorrowController.castObjectId env borrowId with
     | None => Eff.throw "Cast to ObjectId failed"
     | Some id =>
         let* col := Eff.get_borrows in
         match findById id col with
         | None => Eff.ret (Http.mk 404 false "Borrow record not found" None)
         | Some borrow =>
             match Borrow.status borrow with
             | Borrow.RETURNED =>
                 Eff.ret (Http.mk 400 false "This book has already been returned" None)
             | Borrow.BORROWED =>
                 let borrow := set_returned borrow in
                 let returned := BorrowController.now env in
                 let* _ := Eff.put_borrows (save borrow col) in
                 let* _ :=
                   publishBookReturned (BorrowController.publisher env)
                     (BorrowController.now env)
                     (mkData (Borrow._id borrow) (Borrow.userId borrow)
                        (Borrow.bookId borrow) (Borrow.email borrow) returned) in
                 Eff.ret (Http.mk 200 true "Book returned successfully"
                            (Some (borrow, returned)))
             end
         end
     end)
    (fun _ => Eff.ret (Http.mk 500 false "Server error during return" None)).

(** The pairs of user and book with a record still [BORROWED]. *)
Definition open_pairs (col : list Borrow.doc) : list (string * string) :=
  map (fun d => (Borrow.userId d, Borrow.bookId d)) (List.filter Borrow.is_borrowed col).

(** No user holds two open records of one book: what the duplicate
    check of [borrowBook] is there for. *)
Definition single_open (col : list Borrow.doc) : Prop := NoDup (open_pairs col).

(** The unique index on [_id]. *)
Definition unique_ids (col : list Borrow.doc) : Prop := NoDup (map Borrow._id col).

End BorrowReturns.

(** ** From the borrow service to the catalog

    The messages the borrow service hands to the broker, delivered in
    order to the subscriber of the book service. *)

Module Pipeline.

Definition replay (messages : list (string * string * Z))
    (books : gmap string Book.doc) : gmap string Book.doc :=
  fold_left
    (fun books message =>
       ProjectorSteps.deliver (fst (fst message)) (snd (fst message)) books)
    messages books.

End Pipeline.

(** ** Book service: the live push channel

    The set of open streams of [backend/book-service/app.js]. *)

Module LivePush.

Inductive Frame :=
| Connected
| Event (type : string) (timestamp : Z) (data : BookController.Published).

(** [sseClients], in insertion order, and every frame written so far
    with the stream it was written to. *)
Record Hub := mkHub {
  sseClients : list nat;
  written : list (nat * Frame)
}.

(** [Set.prototype.add]. *)
Definition add (c : nat) (clients : list nat) : list nat :=
  if existsb (Nat.eqb c) clients then clients else clients ++ [c].

(** A request on the stream endpoint: the greeting, then the set. *)
Definition connect (c : nat) (hub : Hub) : Hub :=
  mkHub (add c (sseClients hub)) (written hub ++ [(c, Connected)]).

(** The [close] listener of the request. *)
Definition close (c : nat) (hub : Hub) : Hub :=
  mkHub (List.filter (fun x => negb (Nat.eqb x c)) (sseClients hub)) (written hub).

Definition broadcastNotification (frame : Frame) (hub : Hub) : Hub :=
  mkHub (sseClients hub)
        (written hub ++ map (fun c => (c, frame)) (sseClients hub)).

(** The frames written to one stream, in order. *)
Definition received (c : nat) (hub : Hub) : list Frame :=
  map snd (List.filter (fun w => Nat.eqb (fst w) c) (written hub)).

End LivePush.

(** ** Notification service: from a message to its handler

    [processBookAdded] and [processBookUpdated] of
    [services/eventSubscriber.js].  A payload is an object of string
    fields, alone or under the [data] key of an envelope. *)

Module EventSubscriber.

Definition object := list (string * string).

(** [o.k], the last occurrence of a repeated key winning. *)
Definition get (k : string) (o : object) : Js.value :=
  match List.find (fun kv => String.eqb (fst kv) k) (rev o) with
  | Some kv => Some (snd kv)
  | None => None
  end.

Inductive Message :=
| Envelope (type : string) (timestamp : Js.value) (data : object)
| Bare (fields : object).

(** [parsed.data || parsed]: a bare object whose [data] field is a
    non-empty string hands that string over, which has none of the
    fields read next. *)
Definition payload (m : Message) : object :=
  match m with
  | Envelope _ _ data => data
  | Bare fields => if Js.truthy (get "data" fields) then [] else fields
  end.

Definition bookAdded (data : object) : EventHandlers.BookData :=
  EventHandlers.mkBookData (get "bookId" data) (get "title" data) (get "author" data)
    (get "category" data) (get "coverImageUrl" data).

Definition bookUpdated (data : object) : EventHandlers.BookData :=
  EventHandlers.mkBookData (get "bookId" data) (get "title" data) (get "author" data)
    (get "category" data) None.

(** A message that is not JSON is logged and dropped. *)
Definition processBookAdded (env : EventHandlers.Env) (svc : EventHandlers.Service)
    (message : option Message) : EventHandlers.Service * list EventHandlers.Effect :=
  match message with
  | None => (svc, [])
  | Some parsed => EventHandlers.handleBookAdded env svc (bookAdded (payload parsed))
  end.

Definition processBookUpdated (env : EventHandlers.Env) (svc : EventHandlers.Service)
    (message : option Message) : EventHandlers.Service * list EventHandlers.Effect :=
  match message with
  | None => (svc, [])
  | Some parsed => EventHandlers.handleBookUpdated env svc (bookUpdated (payload parsed))
  end.

End EventSubscriber.

(** * Properties *)

(** ** Doubles *)

Section NumberFacts.
Import Number.

Lemma round_magnitude_small m : m < 2 ^ 53 -> round_magnitude m = m.
Proof.
  intros H. unfold round_magnitude.
  destruct (m <? 2 ^ 53) eqn:E; [reflexivity | apply Z.ltb_ge in E; lia].
Qed.

(** Above [2^53] the magnitude splits into 53 leading bits [q] and a
    rest [r] below [2^s]. *)
Lemma round_magnitude_large m :
  2 ^ 53 <= m ->
  exists s q r (up : bool),
    1 <= s /\ s = Z.log2 m - 52 /\ 2 ^ 52 <= q < 2 ^ 53 /\ 0 <= r < 2 ^ s
    /\ m = q * 2 ^ s + r
    /\ up = ((2 ^ (s - 1) <? r) || ((r =? 2 ^ (s - 1)) && Z.odd q))
    /\ round_magnitude m = (if up then q + 1 else q) * 2 ^ s.
Proof.
  intros H.
  assert (Hpos : 0 < m) by (pose proof (Z.pow_pos_nonneg 2 53); lia).
  destruct (Z.log2_spec m Hpos) as [Hlo Hhi].
  assert (Hl : 53 <= Z.log2 m) by (apply Z.log2_le_pow2; lia).
  set (s := Z.log2 m - 52) in *.
  assert (Hs : 1 <= s) by (unfold s; lia).
  assert (HB : 0 < 2 ^ s) by (apply Z.pow_pos_nonneg; lia).
  assert (E1 : 2 ^ Z.log2 m = 2 ^ 52 * 2 ^ s).
  { rewrite <- Z.pow_add_r by lia. f_equal. unfold s. lia. }
  assert (E2 : 2 ^ Z.succ (Z.log2 m) = 2 ^ 53 * 2 ^ s).
  { rewrite <- Z.pow_add_r by lia. f_equal. unfold s. lia. }
  exists s, (m / 2 ^ s), (m mod 2 ^ s),
    ((2 ^ (s - 1) <? m mod 2 ^ s) || ((m mod 2 ^ s =? 2 ^ (s - 1)) && Z.odd (m / 2 ^ s))).
  split; [exact Hs |]. split; [reflexivity |]. split.
  { split.
    - apply Z.div_le_lower_bound; lia.
    - apply Z.div_lt_upper_bound; lia. }
  split; [apply Z.mod_pos_bound; lia |].
  split; [rewrite Z.mul_comm; apply Z.div_mod; lia |].
  split; [reflexivity |].
  unfold round_magnitude.
  destruct (m <? 2 ^ 53) eqn:E; [apply Z.ltb_lt in E; lia |]. reflexivity.
Qed.

Lemma round_magnitude_nonneg m : 0 <= m -> 0 <= round_magnitude m.
Proof.
  intros H. destruct (Z_lt_le_dec m (2 ^ 53)) as [Hlt | Hge].
  - now rewrite round_magnitude_small.
  - destruct (round_magnitude_large m Hge) as (s & q & r & up & Hs & _ & Hq & _ & _ & _ & ->).
    assert (0 < 2 ^ s) by (apply Z.pow_pos_nonneg; lia).
    assert (0 < 2 ^ 52) by (apply Z.pow_pos_nonneg; lia).
    destruct up; nia.
Qed.

(** A magnitude of at most 53 significant bits is a double. *)
Lemma round_magnitude_exact c e :
  0 <= c <= 2 ^ 53 -> 0 <= e -> round_magnitude (c * 2 ^ e) = c * 2 ^ e.
Proof.
  intros Hc He.
  destruct (Z_lt_le_dec (c * 2 ^ e) (2 ^ 53)) as [Hlt | Hge];
    [now apply round_magnitude_small |].
  assert (He' : 0 < 2 ^ e) by (apply Z.pow_pos_nonneg; lia).
  assert (H53 : 0 < 2 ^ 53) by (apply Z.pow_pos_nonneg; lia).
  assert (Hcpos : 0 < c) by nia.
  unfold round_magnitude.
  destruct (c * 2 ^ e <? 2 ^ 53) eqn:E; [apply Z.ltb_lt in E; lia | clear E].
  rewrite Z.log2_mul_pow2 by lia.
  assert (Hl : 53 <= e + Z.log2 c).
  { rewrite <- Z.log2_mul_pow2 by lia. apply Z.log2_le_pow2; lia. }
  assert (Hlc : Z.log2 c <= 53).
  { destruct (Z.eq_dec c (2 ^ 53)) as [-> | Hne].
    - rewrite Z.log2_pow2; lia.
    - assert (Z.log2 c < 53); [apply Z.log2_lt_pow2; lia | lia]. }
  set (s := e + Z.log2 c - 52).
  assert (Hs : 1 <= s) by (unfold s; lia).
  assert (HB : 0 < 2 ^ s) by (apply Z.pow_pos_nonneg; lia).
  assert (Hh : 0 < 2 ^ (s - 1)) by (apply Z.pow_pos_nonneg; lia).
  assert (Hdiv : exists q, c * 2 ^ e = q * 2 ^ s).
  { destruct (Z.eq_dec c (2 ^ 53)) as [-> | Hne].
    - exists (2 ^ 52). rewrite <- !Z.pow_add_r by lia. f_equal.
      unfold s. rewrite Z.log2_pow2; lia.
    - assert (Z.log2 c < 53) by (apply Z.log2_lt_pow2; lia).
      exists (c * 2 ^ (e - s)). rewrite <- Z.mul_assoc, <- Z.pow_add_r by (unfold s; lia).
      do 2 f_equal. lia. }
  destruct Hdiv as [q Hq]. rewrite Hq.
  rewrite Z.mod_mul, Z.div_mul by lia.
  assert ((2 ^ (s - 1) <? 0) = false) as -> by (apply Z.ltb_ge; lia).
  assert ((0 =? 2 ^ (s - 1)) = false) as -> by (apply Z.eqb_neq; lia).
  reflexivity.
Qed.

Lemma round_magnitude_idempotent m :
  0 <= m -> round_magnitude (round_magnitude m) = round_magnitude m.
Proof.
  intros H. destruct (Z_lt_le_dec m (2 ^ 53)) as [Hlt | Hge].
  - rewrite (round_magnitude_small m Hlt). now apply round_magnitude_small.
  - destruct (round_magnitude_large m Hge) as (s & q & r & up & Hs & _ & Hq & _ & _ & _ & ->).
    assert (H53 : 2 ^ 53 = 2 * 2 ^ 52) by reflexivity.
    assert (H52 : 0 < 2 ^ 52) by (apply Z.pow_pos_nonneg; lia).
    apply round_magnitude_exact; [destruct up; lia | lia].
Qed.

Lemma round_magnitude_mono m1 m2 :
  0 <= m1 <= m2 -> round_magnitude m1 <= round_magnitude m2.
Proof.
  intros [H1 H12].
  assert (H53 : 2 ^ 53 = 2 * 2 ^ 52) by reflexivity.
  assert (H52 : 0 < 2 ^ 52) by (apply Z.pow_pos_nonneg; lia).
  destruct (Z_lt_le_dec m2 (2 ^ 53)) as [Hlt2 | Hge2].
  { rewrite !round_magnitude_small by lia. exact H12. }
  destruct (round_magnitude_large m2 Hge2)
    as (s2 & q2 & r2 & up2 & Hs2 & Es2 & Hq2 & Hr2 & Em2 & Eu2 & ->).
  assert (HB2 : 0 < 2 ^ s2) by (apply Z.pow_pos_nonneg; lia).
  destruct (Z_lt_le_dec m1 (2 ^ 53)) as [Hlt1 | Hge1].
  { rewrite round_magnitude_small by lia.
    assert (2 ^ 1 <= 2 ^ s2) by (apply Z.pow_le_mono_r; lia).
    change (2 ^ 1) with 2 in *. destruct up2; nia. }
  destruct (round_magnitude_large m1 Hge1)
    as (s1 & q1 & r1 & up1 & Hs1 & Es1 & Hq1 & Hr1 & Em1 & Eu1 & ->).
  assert (HB1 : 0 < 2 ^ s1) by (apply Z.pow_pos_nonneg; lia).
  assert (Hs12 : s1 <= s2).
  { subst s1 s2. pose proof (Z.log2_le_mono m1 m2 H12). lia. }
  destruct (Z.eq_dec s1 s2) as [-> | Hne].
  - assert (Hq12 : q1 <= q2) by nia.
    destruct (Z.eq_dec q1 q2) as [-> | Hq].
    + assert (Hr12 : r1 <= r2) by nia.
      assert (Hup : up1 = true -> up2 = true).
      { subst up1 up2. rewrite !orb_true_iff, !andb_true_iff, !Z.ltb_lt, !Z.eqb_eq.
        intros [Hh | [Hh Ho]]; [left; lia |].
        destruct (Z.eq_dec r2 (2 ^ (s2 - 1))); [right; tauto | left; lia]. }
      destruct up1; [rewrite Hup by reflexivity; lia |].
      destruct up2; nia.
    + destruct up1, up2; nia.
  - assert (2 ^ (s1 + 1) <= 2 ^ s2) by (apply Z.pow_le_mono_r; lia).
    rewrite Z.pow_add_r in * by lia. change (2 ^ 1) with 2 in *.
    assert ((if up1 then q1 + 1 else q1) * 2 ^ s1 <= 2 ^ 53 * 2 ^ s1)
      by (destruct up1; nia).
    assert (2 ^ 52 * 2 ^ s2 <= (if up2 then q2 + 1 else q2) * 2 ^ s2)
      by (destruct up2; nia).
    nia.
Qed.

(** The double nearest to an integer is an integer. *)
Lemma round_magnitude_integer n :
  0 <= n -> exists n', 0 <= n' /\ round_magnitude (n * scale) = n' * scale.
Proof.
  intros Hn. destruct (Z_le_gt_dec n (2 ^ 53)) as [Hle | Hgt].
  - exists n. split; [exact Hn |]. apply round_magnitude_exact; lia.
  - assert (Hsc : 0 < scale) by (apply Z.pow_pos_nonneg; lia).
    assert (H53 : 0 < 2 ^ 53) by (apply Z.pow_pos_nonneg; lia).
    assert (Hge : 2 ^ 53 <= n * scale) by nia.
    destruct (round_magnitude_large _ Hge)
      as (s & q & r & up & Hs & Es & Hq & Hr & Em & Eu & ->).
    unfold scale in Es. rewrite Z.log2_mul_pow2 in Es by lia.
    assert (53 <= Z.log2 n) by (apply Z.log2_le_pow2; lia).
    exists ((if up then q + 1 else q) * 2 ^ (s - 1074)).
    assert (0 < 2 ^ (s - 1074)) by (apply Z.pow_pos_nonneg; lia).
    assert (0 < 2 ^ 52) by (apply Z.pow_pos_nonneg; lia).
    split; [destruct up; nia |].
    unfold scale. rewrite <- Z.mul_assoc, <- Z.pow_add_r by lia.
    do 2 f_equal. lia.
Qed.

Lemma scale_pos : 0 < scale.
Proof. apply Z.pow_pos_nonneg; lia. Qed.

Lemma round_nonneg k :
  0 <= k ->
  round k = if 2 ^ 2098 <=? round_magnitude k then Infinity false
            else Finite (round_magnitude k).
Proof.
  intros Hk. unfold round. rewrite Z.abs_eq by lia.
  assert ((k <? 0) = false) as -> by (apply Z.ltb_ge; lia).
  destruct (Z.eq_dec k 0) as [-> | Hne]; [reflexivity |].
  rewrite Z.sgn_pos by lia. now rewrite Z.mul_1_l.
Qed.

(** The integers up to [2^53] are doubles. *)
Lemma of_Z_safe n : safe n -> of_Z n = Finite (n * scale).
Proof.
  intros [H0 H1]. unfold of_Z. pose proof scale_pos as Hs.
  rewrite round_nonneg by nia.
  unfold scale at 1 2. rewrite round_magnitude_exact by lia.
  assert ((2 ^ 2098 <=? n * 2 ^ 1074) = false) as ->; [| reflexivity].
  apply Z.leb_gt.
  assert (E : 2 ^ 2098 = 2 ^ 1024 * 2 ^ 1074) by (rewrite <- Z.pow_add_r by lia; reflexivity).
  assert (L : 2 ^ 53 < 2 ^ 1024) by (apply Z.pow_lt_mono_r; lia).
  fold scale in *. nia.
Qed.

Lemma of_Z_inj a b : safe a -> safe b -> of_Z a = of_Z b -> a = b.
Proof.
  intros Ha Hb. rewrite !of_Z_safe by assumption. intros [= E].
  pose proof scale_pos. nia.
Qed.

Lemma leb_of_Z a b : safe a -> safe b -> leb (of_Z a) (of_Z b) = (a <=? b).
Proof.
  intros Ha Hb. rewrite !of_Z_safe by assumption. simpl. pose proof scale_pos.
  destruct (a <=? b) eqn:E; [apply Z.leb_le in E; apply Z.leb_le | apply Z.leb_gt in E; apply Z.leb_gt]; nia.
Qed.

Lemma ltb_of_Z a b : safe a -> safe b -> ltb (of_Z a) (of_Z b) = (a <? b).
Proof.
  intros Ha Hb. rewrite !of_Z_safe by assumption. simpl. pose proof scale_pos.
  destruct (a <? b) eqn:E; [apply Z.ltb_lt in E; apply Z.ltb_lt | apply Z.ltb_ge in E; apply Z.ltb_ge]; nia.
Qed.

Lemma eqb_of_Z a b : safe a -> safe b -> eqb (of_Z a) (of_Z b) = (a =? b).
Proof.
  intros Ha Hb. rewrite !of_Z_safe by assumption. simpl. pose proof scale_pos.
  destruct (a =? b) eqn:E; [apply Z.eqb_eq in E; apply Z.eqb_eq | apply Z.eqb_neq in E; apply Z.eqb_neq]; nia.
Qed.

Lemma zero_of_Z : zero = of_Z 0.
Proof. reflexivity. Qed.

Lemma one_of_Z : one = of_Z 1.
Proof. rewrite of_Z_safe; [reflexivity | unfold safe; lia]. Qed.

Lemma safe_0 : safe 0.
Proof. unfold safe. lia. Qed.

Lemma safe_1 : safe 1.
Proof. unfold safe. lia. Qed.

(** Counting up and down by one is exact up to [2^53]. *)
Lemma add_one n : safe n -> safe (n + 1) -> add (of_Z n) one = of_Z (n + 1).
Proof.
  intros Hn Hn'. rewrite (of_Z_safe n Hn). unfold add, one, of_Z.
  f_equal. lia.
Qed.

Lemma sub_one n : safe n -> safe (n - 1) -> sub (of_Z n) one = of_Z (n - 1).
Proof.
  intros Hn Hn'. rewrite (of_Z_safe n Hn). unfold sub, add, opp, one, of_Z.
  f_equal. lia.
Qed.

Lemma add_of_Z a b : safe a -> safe b -> add (of_Z a) (of_Z b) = of_Z (a + b).
Proof.
  intros Ha Hb. rewrite (of_Z_safe a Ha), (of_Z_safe b Hb). unfold add, of_Z.
  f_equal. lia.
Qed.

Lemma sub_of_Z a b : safe a -> safe b -> sub (of_Z a) (of_Z b) = of_Z (a - b).
Proof.
  intros Ha Hb. rewrite (of_Z_safe a Ha), (of_Z_safe b Hb). unfold sub, add, opp, of_Z.
  f_equal. lia.
Qed.

Lemma truthy_of_Z n : safe n -> truthy (of_Z n) = negb (n =? 0).
Proof.
  intros Hn. rewrite of_Z_safe by assumption. simpl. pose proof scale_pos. f_equal.
  destruct (n =? 0) eqn:E; [apply Z.eqb_eq in E; apply Z.eqb_eq | apply Z.eqb_neq in E; apply Z.eqb_neq]; nia.
Qed.

(** An integer that is not negative, as a number of units. *)
Lemma integer_nonneg x :
  is_integer x = true -> leb zero x = true ->
  exists n, 0 <= n /\ x = Finite (n * scale)
            /\ round_magnitude (n * scale) = n * scale /\ n * scale < 2 ^ 2098.
Proof.
  destruct x as [k | |]; simpl; try discriminate.
  rewrite andb_true_iff, Z.eqb_eq, Z.leb_le. intros [Hd Hm] Hk.
  pose proof scale_pos as Hs.
  exists (k / scale).
  assert (E : k = k / scale * scale).
  { rewrite Z.mul_comm. apply Z.div_exact; lia. }
  split; [apply Z.div_pos; lia |]. rewrite <- E. split; [reflexivity |].
  rewrite round_nonneg in Hd by assumption.
  destruct (2 ^ 2098 <=? round_magnitude k) eqn:Hb; [discriminate |].
  apply Z.eqb_eq in Hd. apply Z.leb_gt in Hb. lia.
Qed.

Lemma nonneg_integer n :
  0 <= n -> round_magnitude (n * scale) = n * scale -> n * scale < 2 ^ 2098 ->
  is_integer (Finite (n * scale)) = true.
Proof.
  intros Hn Hr Hb. pose proof scale_pos as Hs. simpl.
  rewrite round_nonneg by nia. rewrite Hr.
  assert ((2 ^ 2098 <=? n * scale) = false) as -> by (apply Z.leb_gt; lia).
  rewrite Z.eqb_refl, Z.mod_mul by lia. reflexivity.
Qed.

Lemma of_Z_integer n : safe n -> is_integer (of_Z n) = true.
Proof.
  intros Hn. pose proof (of_Z_safe n Hn) as E. rewrite E.
  destruct Hn as [H0 H1]. pose proof scale_pos as Hs.
  assert (Hr : round_magnitude (n * scale) = n * scale)
    by (unfold scale; apply round_magnitude_exact; lia).
  apply nonneg_integer; [exact H0 | exact Hr |].
  unfold of_Z in E. rewrite round_nonneg in E by nia. rewrite Hr in E.
  destruct (2 ^ 2098 <=? n * scale) eqn:Hb; [discriminate |].
  now apply Z.leb_gt in Hb.
Qed.

(** One more than an integer below another integer, and one less than
    a positive integer: the result is an integer between 0 and the
    other. *)
Lemma integer_succ n t :
  0 <= n < t -> round_magnitude (t * scale) = t * scale -> t * scale < 2 ^ 2098 ->
  exists n', 0 <= n' <= t
             /\ round (n * scale + scale) = Finite (n' * scale)
             /\ round_magnitude (n' * scale) = n' * scale.
Proof.
  intros Hn Ht Hb. pose proof scale_pos as Hs.
  destruct (round_magnitude_integer (n + 1)) as (n' & Hn' & E); [lia |].
  assert (Hle : round_magnitude ((n + 1) * scale) <= round_magnitude (t * scale))
    by (apply round_magnitude_mono; nia).
  exists n'. replace (n * scale + scale) with ((n + 1) * scale) by lia.
  rewrite round_nonneg by nia. rewrite E in *. rewrite Ht in Hle.
  assert ((2 ^ 2098 <=? n' * scale) = false) as -> by (apply Z.leb_gt; lia).
  split; [nia |]. split; [reflexivity |].
  rewrite <- E. apply round_magnitude_idempotent. nia.
Qed.

Lemma integer_pred n :
  0 < n -> round_magnitude (n * scale) = n * scale -> n * scale < 2 ^ 2098 ->
  exists n', 0 <= n' <= n
             /\ round (n * scale + - scale) = Finite (n' * scale)
             /\ round_magnitude (n' * scale) = n' * scale.
Proof.
  intros Hn Ht Hb. pose proof scale_pos as Hs.
  destruct (round_magnitude_integer (n - 1)) as (n' & Hn' & E); [lia |].
  assert (Hle : round_magnitude ((n - 1) * scale) <= round_magnitude (n * scale))
    by (apply round_magnitude_mono; nia).
  exists n'. replace (n * scale + - scale) with ((n - 1) * scale) by lia.
  rewrite round_nonneg by nia. rewrite E in *. rewrite Ht in Hle.
  assert ((2 ^ 2098 <=? n' * scale) = false) as -> by (apply Z.leb_gt; lia).
  split; [nia |]. split; [reflexivity |].
  rewrite <- E. apply round_magnitude_idempotent. nia.
Qed.

End NumberFacts.

(** ** The availability projector *)

Section ProjectorFacts.

Import Projector.

Implicit Types (books : gmap string Book.doc) (b : Book.doc) (e : Event).

Lemma insert_same books bookId b :
  books !! bookId = Some b -> <[bookId := b]> books = books.
Proof. apply insert_id. Qed.

Lemma handleBookBorrowed_found books bookId b :
  books !! bookId = Some b ->
  fst (handleBookBorrowed books bookId) = <[bookId := borrowed b]> books.
Proof.
  intros Hb. unfold handleBookBorrowed, Book.findOne, borrowed, Book.save. rewrite Hb.
  destruct (Number.leb (Book.availableCopies b) Number.zero) eqn:Hle;
    cbn [fst]; [now rewrite insert_same |].
  cbn zeta.
  destruct (Number.eqb (Number.sub (Book.availableCopies b) Number.one) Number.zero)
    eqn:Hz; cbn [Book.set_availableCopies Book.availableCopies].
  - rewrite Hz. cbn -[Number.sub Number.leb Number.zero Number.one].
    destruct (Book.validate _); cbn [fst]; [reflexivity | now rewrite insert_same].
  - rewrite Hz. cbn -[Number.sub Number.leb Number.zero Number.one].
    destruct (Book.validate _); cbn [fst]; [reflexivity | now rewrite insert_same].
Qed.

Lemma handleBookReturned_found books bookId b :
  books !! bookId = Some b ->
  fst (handleBookReturned books bookId) = <[bookId := returned b]> books.
Proof.
  intros Hb. unfold handleBookReturned, Book.findOne, returned, Book.save. rewrite Hb.
  cbn zeta.
  destruct (Number.ltb (Book.availableCopies b) (Book.totalCopies b)) eqn:Hlt;
    cbn [Book.set_availableCopies Book.availableCopies].
  - destruct (Number.ltb Number.zero (Number.add (Book.availableCopies b) Number.one));
      cbn -[Number.add Number.leb Number.zero Number.one];
      destruct (Book.validate _); cbn [fst];
      reflexivity || now rewrite insert_same.
  - destruct (Number.ltb Number.zero (Book.availableCopies b));
      cbn -[Number.add Number.leb Number.zero Number.one];
      destruct b; cbn -[Number.add Number.leb Number.zero Number.one];
      destruct (Book.validate _); cbn [fst];
      reflexivity || now rewrite insert_same.
Qed.

Lemma handle_not_found books bookId :
  books !! bookId = None ->
  fst (handleBookBorrowed books bookId) = books
  /\ fst (handleBookReturned books bookId) = books.
Proof.
  intros Hb. unfold handleBookBorrowed, handleBookReturned, Book.findOne.
  now rewrite Hb.
Qed.

Lemma handleBookBorrowed_other books k bookId :
  k <> bookId -> fst (handleBookBorrowed books k) !! bookId = books !! bookId.
Proof.
  intros Hne. destruct (books !! k) as [b |] eqn:Hk.
  - rewrite (handleBookBorrowed_found _ _ _ Hk). now apply lookup_insert_ne.
  - now rewrite (proj1 (handle_not_found _ _ Hk)).
Qed.

Lemma handleBookReturned_other books k bookId :
  k <> bookId -> fst (handleBookReturned books k) !! bookId = books !! bookId.
Proof.
  intros Hne. destruct (books !! k) as [b |] eqn:Hk.
  - rewrite (handleBookReturned_found _ _ _ Hk). now apply lookup_insert_ne.
  - now rewrite (proj2 (handle_not_found _ _ Hk)).
Qed.

Lemma borrowed_total b : Book.totalCopies (borrowed b) = Book.totalCopies b.
Proof. unfold borrowed. repeat case_match; reflexivity. Qed.

Lemma returned_total b : Book.totalCopies (returned b) = Book.totalCopies b.
Proof. unfold returned. cbn zeta. repeat case_match; reflexivity. Qed.

(** *** Integer counters *)

Lemma leb_zero_trans x y :
  Number.leb Number.zero x = true -> Number.leb x y = true ->
  Number.leb Number.zero y = true.
Proof.
  destruct x as [a | [] |], y as [c | [] |]; simpl; try discriminate; try reflexivity.
  rewrite !Z.leb_le. lia.
Qed.

Lemma bounded_valid b : bounded b -> Book.validate b = true.
Proof.
  intros [H0 H1]. unfold Book.validate.
  now rewrite (leb_zero_trans _ _ H0 H1), H0.
Qed.

(** The two counters of a bounded book of integers, in units. *)
Lemma bounded_integers b :
  bounded b ->
  Number.is_integer (Book.availableCopies b) = true ->
  Number.is_integer (Book.totalCopies b) = true ->
  exists n t,
    0 <= n <= t
    /\ Book.availableCopies b = Number.Finite (n * Number.scale)
    /\ Book.totalCopies b = Number.Finite (t * Number.scale)
    /\ Number.round_magnitude (n * Number.scale) = n * Number.scale
    /\ Number.round_magnitude (t * Number.scale) = t * Number.scale
    /\ t * Number.scale < 2 ^ 2098.
Proof.
  intros [H0 H1] Ha Ht.
  destruct (integer_nonneg _ Ha H0) as (n & Hn & En & Rn & Bn).
  destruct (integer_nonneg _ Ht (leb_zero_trans _ _ H0 H1)) as (t & Ht0 & Et & Rt & Bt).
  exists n, t. rewrite En, Et in H1. simpl in H1. apply Z.leb_le in H1.
  pose proof scale_pos. repeat split; try assumption; nia.
Qed.

Lemma borrowed_keeps_bounds b :
  bounded b ->
  Number.is_integer (Book.availableCopies b) = true ->
  Number.is_integer (Book.totalCopies b) = true ->
  bounded (borrowed b) /\ Number.is_integer (Book.availableCopies (borrowed b)) = true.
Proof.
  intros Hbd Ha Ht.
  destruct (bounded_integers b Hbd Ha Ht) as (n & t & Hnt & En & Et & Rn & Rt & Bt).
  pose proof scale_pos as Hs.
  unfold borrowed. rewrite En.
  change (Number.leb (Number.Finite (n * Number.scale)) Number.zero)
    with (n * Number.scale <=? 0).
  destruct (n * Number.scale <=? 0) eqn:Hle; [now split |].
  apply Z.leb_gt in Hle.
  change (Number.sub (Number.Finite (n * Number.scale)) Number.one)
    with (Number.round (n * Number.scale + - Number.scale)).
  destruct (integer_pred n) as (n' & Hn' & E & R); [nia | exact Rn | nia |].
  rewrite E. cbn zeta.
  assert (Hv : forall s, Book.validate
                 (Book.mk (Book.title b) (Book.category b) (Book.totalCopies b)
                    (Number.Finite (n' * Number.scale)) s) = true).
  { intros s. unfold Book.validate. cbn [Book.totalCopies Book.availableCopies].
    rewrite Et. simpl. apply andb_true_iff. rewrite !Z.leb_le. nia. }
  rewrite Hv. split.
  - split; cbn [Book.totalCopies Book.availableCopies]; [| rewrite Et]; simpl;
      apply Z.leb_le; nia.
  - cbn [Book.availableCopies]. apply nonneg_integer; [lia | exact R | nia].
Qed.

Lemma returned_keeps_bounds b :
  bounded b ->
  Number.is_integer (Book.availableCopies b) = true ->
  Number.is_integer (Book.totalCopies b) = true ->
  bounded (returned b) /\ Number.is_integer (Book.availableCopies (returned b)) = true.
Proof.
  intros Hbd Ha Ht.
  destruct (bounded_integers b Hbd Ha Ht) as (n & t & Hnt & En & Et & Rn & Rt & Bt).
  pose proof scale_pos as Hs.
  unfold returned. rewrite En, Et.
  change (Number.ltb (Number.Finite (n * Number.scale)) (Number.Finite (t * Number.scale)))
    with (n * Number.scale <? t * Number.scale).
  assert (Hv : forall k s, 0 <= k ->
            Book.validate
              (Book.mk (Book.title b) (Book.category b)
                 (Number.Finite (t * Number.scale))
                 (Number.Finite (k * Number.scale)) s) = true).
  { intros k s Hk. unfold Book.validate. simpl. apply andb_true_iff.
    rewrite !Z.leb_le. nia. }
  destruct (n * Number.scale <? t * Number.scale) eqn:Hlt.
  - apply Z.ltb_lt in Hlt.
    change (Number.add (Number.Finite (n * Number.scale)) Number.one)
      with (Number.round (n * Number.scale + Number.scale)).
    destruct (integer_succ n t) as (n' & Hn' & E & R); [nia | exact Rt | exact Bt |].
    rewrite E. cbn zeta. rewrite Hv by lia. split.
    + split; simpl; apply Z.leb_le; nia.
    + cbn [Book.availableCopies]. apply nonneg_integer; [lia | exact R | nia].
  - cbn zeta. rewrite Hv by lia. split.
    + split; simpl; apply Z.leb_le; nia.
    + cbn [Book.availableCopies]. rewrite <- En. exact Ha.
Qed.

Lemma handle_keeps_bounds books e bookId b :
  books !! bookId = Some b -> bounded b ->
  Number.is_integer (Book.availableCopies b) = true ->
  Number.is_integer (Book.totalCopies b) = true ->
  exists b', handle books e !! bookId = Some b'
             /\ Book.totalCopies b' = Book.totalCopies b /\ bounded b'
             /\ Number.is_integer (Book.availableCopies b') = true.
Proof.
  intros Hb Hbd Ha Ht.
  destruct e as [k | k]; simpl; destruct (decide (k = bookId)) as [-> | Hne].
  - rewrite (handleBookBorrowed_found _ _ _ Hb), lookup_insert_eq.
    exists (borrowed b). split; [reflexivity |]. split; [apply borrowed_total |].
    now apply borrowed_keeps_bounds.
  - rewrite handleBookBorrowed_other by assumption. eauto.
  - rewrite (handleBookReturned_found _ _ _ Hb), lookup_insert_eq.
    exists (returned b). split; [reflexivity |]. split; [apply returned_total |].
    now apply returned_keeps_bounds.
  - rewrite handleBookReturned_other by assumption. eauto.
Qed.

(** The schema does not ask for integers: with 2 copies available of a
    total of 2.5, a state within the bounds, [BookReturned] stores 3
    available copies, above the total. *)
Lemma fraction_breaks_bounds :
  let half_of_five := Number.Finite (5 * 2 ^ 1073) in
  let b := Book.mk "Cosmos" "Science" half_of_five (Number.of_Z 2) Book.available in
  let books : gmap string Book.doc := {[ "X" := b ]} in
  Number.is_double half_of_five = true
  /\ Number.add half_of_five half_of_five = Number.of_Z 5
  /\ Book.validate b = true
  /\ bounded b
  /\ exists b', handle books (BookReturned "X") !! "X" = Some b'
                /\ Book.availableCopies b' = Number.of_Z 3
                /\ Book.totalCopies b' = half_of_five
                /\ Number.leb (Book.availableCopies b') (Book.totalCopies b') = false
                /\ ~ bounded b'.
Proof.
  intros half_of_five b books.
  split; [vm_compute; reflexivity |]. split; [vm_compute; reflexivity |].
  split; [vm_compute; reflexivity |]. split; [split; vm_compute; reflexivity |].
  exists (Book.mk "Cosmos" "Science" half_of_five (Number.of_Z 3) Book.available).
  split; [vm_compute; reflexivity |]. split; [reflexivity |]. split; [reflexivity |].
  split; [vm_compute; reflexivity |].
  intros [_ H]. vm_compute in H. discriminate.
Qed.

(** C2, amended.  A book whose two counters are integers with
    [0 <= availableCopies <= totalCopies] is still in the collection,
    with the same [totalCopies], an integer [availableCopies] and
    within these bounds, after every message of any sequence of
    [BookBorrowed] and [BookReturned] messages handled one after the
    other. *)
Theorem availability_bounds books bookId b es :
  books !! bookId = Some b -> bounded b ->
  Number.is_integer (Book.availableCopies b) = true ->
  Number.is_integer (Book.totalCopies b) = true ->
  Forall (fun books' =>
            exists b', books' !! bookId = Some b'
                       /\ Book.totalCopies b' = Book.totalCopies b
                       /\ Number.is_integer (Book.availableCopies b') = true
                       /\ Number.leb Number.zero (Book.availableCopies b') = true
                       /\ Number.leb (Book.availableCopies b') (Book.totalCopies b') = true)
         (run books es).
Proof.
  revert books b. induction es as [| e es IH]; intros books b Hb Hbd Ha Ht; simpl.
  - constructor.
  - destruct (handle_keeps_bounds books e bookId b Hb Hbd Ha Ht)
      as (b' & Hb' & Et & Hbd' & Ha').
    constructor.
    + exists b'. destruct Hbd'. auto.
    + assert (Ht' : Number.is_integer (Book.totalCopies b') = true) by now rewrite Et.
      eapply Forall_impl; [exact (IH _ _ Hb' Hbd' Ha' Ht') |].
      intros books' (b'' & ? & ? & ?). exists b''. split; [assumption |].
      split; [congruence | assumption].
Qed.

Lemma availability_bounds_witness :
  let b := Book.make "Cosmos" "Science" 3 1 Book.available in
  let books : gmap string Book.doc := {[ "X" := b ]} in
  let es := [BookBorrowed "X"; BookBorrowed "X"; BookReturned "Y"; BookReturned "X"] in
  books !! "X" = Some b /\ bounded b
  /\ Forall (fun books' =>
               exists b', books' !! "X" = Some b'
                          /\ Book.totalCopies b' = Book.totalCopies b
                          /\ Number.is_integer (Book.availableCopies b') = true
                          /\ Number.leb Number.zero (Book.availableCopies b') = true
                          /\ Number.leb (Book.availableCopies b') (Book.totalCopies b')
                             = true)
            (run books es).
Proof.
  intros b books es.
  assert (Hb : books !! "X" = Some b) by (vm_compute; reflexivity).
  assert (Hbd : bounded b) by (split; vm_compute; reflexivity).
  split; [exact Hb |]. split; [exact Hbd |].
  apply (availability_bounds books "X" b es Hb Hbd); vm_compute; reflexivity.
Defined.

(** *** Counters that count *)

Lemma borrowed_counts a t b :
  counts a t b -> Number.safe a -> Number.safe t ->
  borrowed b =
    if a <=? 0 then b
    else Book.mk (Book.title b) (Book.category b) (Number.of_Z t) (Number.of_Z (a - 1))
           (if a - 1 =? 0 then Book.unavailable else Book.status b).
Proof.
  intros [Ea Et] Ha Ht. unfold borrowed. rewrite Ea, Et, zero_of_Z.
  rewrite leb_of_Z by (assumption || apply safe_0).
  destruct (a <=? 0) eqn:Hle; [reflexivity |]. apply Z.leb_gt in Hle.
  assert (Ha' : Number.safe (a - 1)) by (unfold Number.safe in *; lia).
  rewrite sub_one by assumption. cbn zeta.
  rewrite eqb_of_Z by (assumption || apply safe_0).
  unfold Book.validate. cbn [Book.totalCopies Book.availableCopies].
  rewrite zero_of_Z, !leb_of_Z by (assumption || apply safe_0).
  assert ((0 <=? t) = true) as -> by (apply Z.leb_le; unfold Number.safe in *; lia).
  assert ((0 <=? a - 1) = true) as -> by (apply Z.leb_le; lia).
  reflexivity.
Qed.

Lemma returned_counts a t b :
  counts a t b -> Number.safe a -> Number.safe t ->
  returned b =
    let a' := if a <? t then a + 1 else a in
    Book.mk (Book.title b) (Book.category b) (Number.of_Z t) (Number.of_Z a')
      (if 0 <? a' then Book.available else Book.status b).
Proof.
  intros [Ea Et] Ha Ht. unfold returned. rewrite Ea, Et.
  rewrite ltb_of_Z by assumption.
  assert (Ha' : Number.safe (if a <? t then a + 1 else a)).
  { destruct (a <? t) eqn:Hlt; [apply Z.ltb_lt in Hlt; unfold Number.safe in *; lia
                              | assumption]. }
  assert (En : (if a <? t then Number.add (Number.of_Z a) Number.one else Number.of_Z a)
               = Number.of_Z (if a <? t then a + 1 else a)).
  { destruct (a <? t) eqn:Hlt; [| reflexivity].
    apply add_one; assumption. }
  rewrite En. cbn zeta. set (a' := if a <? t then a + 1 else a) in *.
  unfold Book.validate. cbn [Book.totalCopies Book.availableCopies].
  rewrite zero_of_Z, ltb_of_Z, !leb_of_Z by (assumption || apply safe_0).
  assert ((0 <=? t) = true) as -> by (apply Z.leb_le; unfold Number.safe in *; lia).
  assert ((0 <=? a') = true) as -> by (apply Z.leb_le; unfold Number.safe in *; lia).
  reflexivity.
Qed.

Lemma counts_make title category t a s : counts a t (Book.make title category t a s).
Proof. split; reflexivity. Qed.

(** Where the postconditions stop.  The [min] reading of
    [BookReturned] fails above the total: with 5 available copies of a
    total of 2, the count stays at 5.  Half a copy of 3 is not lent:
    the write of [-0.5] is refused.  And at [2^53] available copies of
    [2^53 + 2], the sum with 1 is [2^53] again, not [2^53 + 1]. *)
Lemma returned_above_total_not_min :
  (let b := Book.make "Cosmos" "Science" 2 5 Book.available in
   let books : gmap string Book.doc := {[ "X" := b ]} in
   Book.validate b = true
   /\ exists b', fst (handleBookReturned books "X") !! "X" = Some b'
                 /\ Book.availableCopies b' = Number.of_Z 5
                 /\ Book.availableCopies b' <> Number.of_Z (Z.min (5 + 1) 2))
  /\ (let half := Number.Finite (2 ^ 1073) in
      let b := Book.mk "Cosmos" "Science" (Number.of_Z 3) half Book.available in
      let books : gmap string Book.doc := {[ "X" := b ]} in
      Number.add half half = Number.one
      /\ Book.validate b = true /\ bounded b
      /\ Number.eqb (Book.availableCopies b) Number.zero = false
      /\ fst (handleBookBorrowed books "X") = books)
  /\ (let b := Book.make "Cosmos" "Science" (2 ^ 53 + 2) (2 ^ 53) Book.available in
      let books : gmap string Book.doc := {[ "X" := b ]} in
      counts (2 ^ 53) (2 ^ 53 + 2) b
      /\ Number.is_integer (Book.availableCopies b) = true
      /\ Number.is_integer (Book.totalCopies b) = true
      /\ bounded b
      /\ Number.ltb (Book.availableCopies b) (Book.totalCopies b) = true
      /\ fst (handleBookReturned books "X") = books
      /\ Book.availableCopies b = Number.Finite (2 ^ 53 * Number.scale)
      /\ Book.availableCopies b
         <> Number.Finite (Z.min (2 ^ 53 + 1) (2 ^ 53 + 2) * Number.scale)).
Proof.
  split; [| split].
  - intros b books. split; [vm_compute; reflexivity |].
    exists b. split; [vm_compute; reflexivity |]. split; [reflexivity |].
    intros H. apply of_Z_inj in H; [lia | unfold Number.safe; lia ..].
  - intros half b books. repeat split; vm_compute; reflexivity.
  - intros b books. repeat split; try (vm_compute; reflexivity).
    intros H. vm_compute in H. injection H as H. discriminate H.
Qed.

(** C3, amended.  For a book whose counters are integers up to [2^53].
    [BookBorrowed]: a missing book, or one with no available copy,
    leaves the collection as it is; otherwise [availableCopies] goes
    down by exactly 1 and [status] becomes [unavailable] exactly when
    the new count is 0.  [BookReturned]: [availableCopies] goes up by 1
    when it is below [totalCopies] and stays as it is otherwise, which
    is [min (availableCopies + 1) totalCopies] whenever
    [availableCopies <= totalCopies]; [status] becomes [available]
    whenever the new count is positive.  With 1 copy available of 3, a
    borrow gives 0 and [unavailable], and the return that follows gives
    1 and [available]. *)
Theorem projector_postconditions books bookId :
  (books !! bookId = None -> fst (handleBookBorrowed books bookId) = books)
  /\ (forall b a t,
        books !! bookId = Some b -> counts a t b ->
        Number.safe a -> Number.safe t ->
        (a = 0 -> fst (handleBookBorrowed books bookId) = books)
        /\ (0 < a ->
            exists b',
              fst (handleBookBorrowed books bookId) = <[bookId := b']> books
              /\ counts (a - 1) t b'
              /\ Book.status b' =
                   (if a - 1 =? 0 then Book.unavailable else Book.status b))
        /\ (exists b',
              fst (handleBookReturned books bookId) = <[bookId := b']> books
              /\ counts (if a <? t then a + 1 else a) t b'
              /\ (a <= t -> counts (Z.min (a + 1) t) t b')
              /\ Book.status b' =
                   (if 0 <? (if a <? t then a + 1 else a)
                    then Book.available else Book.status b))
        /\ (a = 1 -> t = 3 ->
            exists b1 b2,
              fst (handleBookBorrowed books bookId) !! bookId = Some b1
              /\ counts 0 3 b1 /\ Book.status b1 = Book.unavailable
              /\ fst (handleBookReturned (fst (handleBookBorrowed books bookId)) bookId)
                   !! bookId = Some b2
              /\ counts 1 3 b2 /\ Book.status b2 = Book.available)).
Proof.
  split; [intros Hb; apply (handle_not_found _ _ Hb) |].
  intros b a t Hb Hc Ha Ht.
  pose proof (handleBookBorrowed_found _ _ _ Hb) as HB.
  pose proof (handleBookReturned_found _ _ _ Hb) as HR.
  pose proof (borrowed_counts a t b Hc Ha Ht) as EB.
  pose proof (returned_counts a t b Hc Ha Ht) as ER. cbn zeta in ER.
  split; [| split; [| split]].
  - intros ->. rewrite HB, EB. simpl. now apply insert_same.
  - intros Hpos. exists (borrowed b). split; [exact HB |]. rewrite EB.
    destruct (a <=? 0) eqn:Hle; [apply Z.leb_le in Hle; lia |].
    repeat split.
  - exists (returned b). split; [exact HR |]. rewrite ER.
    split; [split; reflexivity |]. split; [| reflexivity].
    intros Hle.
    replace (Z.min (a + 1) t) with (if a <? t then a + 1 else a);
      [split; reflexivity |].
    destruct (a <? t) eqn:Hlt; [apply Z.ltb_lt in Hlt | apply Z.ltb_ge in Hlt]; lia.
  - intros -> ->. exists (borrowed b), (returned (borrowed b)).
    rewrite HB, lookup_insert_eq.
    rewrite (handleBookReturned_found _ _ (borrowed b)), lookup_insert_eq
      by apply lookup_insert_eq.
    assert (Hc1 : counts 0 3 (borrowed b)) by (rewrite EB; split; reflexivity).
    rewrite (returned_counts 0 3 _ Hc1 safe_0 Ht). rewrite EB.
    repeat split.
Qed.

Lemma projector_postconditions_witness :
  let b := Book.make "Cosmos" "Science" 3 1 Book.available in
  let books : gmap string Book.doc := {[ "X" := b ]} in
  books !! "X" = Some b /\ counts 1 3 b
  /\ exists b1 b2,
       fst (handleBookBorrowed books "X") !! "X" = Some b1
       /\ counts 0 3 b1 /\ Book.status b1 = Book.unavailable
       /\ fst (handleBookReturned (fst (handleBookBorrowed books "X")) "X")
            !! "X" = Some b2
       /\ counts 1 3 b2 /\ Book.status b2 = Book.available.
Proof.
  intros b books.
  assert (Hb : books !! "X" = Some b) by (vm_compute; reflexivity).
  assert (Hc : counts 1 3 b) by apply counts_make.
  assert (H1 : Number.safe 1) by (unfold Number.safe; lia).
  assert (H3 : Number.safe 3) by (unfold Number.safe; lia).
  split; [exact Hb |]. split; [exact Hc |].
  destruct (projector_postconditions books "X") as [_ H].
  destruct (H b 1 3 Hb Hc H1 H3) as (_ & _ & _ & HC).
  apply HC; reflexivity.
Defined.

End ProjectorFacts.

(** ** Documents found by key *)

Section ModelFacts.

Context {A : Type} (userOf targetOf : A -> string).

Local Abbreviation by_key := (Model.by_key userOf targetOf).
Local Abbreviation findOne := (Model.findOne userOf targetOf).
Local Abbreviation save := (Model.save userOf targetOf).
Local Abbreviation keys := (Model.keys userOf targetOf).
Local Abbreviation unique := (Model.unique userOf targetOf).
Local Abbreviation row := (Model.row userOf targetOf).

Lemma by_key_spec u t d : by_key u t d = true <-> userOf d = u /\ targetOf d = t.
Proof.
  unfold Model.by_key. rewrite andb_true_iff, !String.eqb_eq. reflexivity.
Qed.

Lemma by_key_false u t d : by_key u t d = false <-> ~ (userOf d = u /\ targetOf d = t).
Proof.
  rewrite <- by_key_spec. destruct (by_key u t d); split; intros; congruence.
Qed.

(** [findOne] returns the first document under the key, and splits
    the collection around it. *)
Lemma findOne_Some u t col d :
  findOne u t col = Some d ->
  exists l1 l2, col = l1 ++ d :: l2 /\ userOf d = u /\ targetOf d = t
                /\ forall x, In x l1 -> by_key u t x = false.
Proof.
  unfold Model.findOne. induction col as [| x col IH]; simpl; [discriminate |].
  destruct (by_key u t x) eqn:Hx.
  - intros [= ->]. apply by_key_spec in Hx as [? ?].
    exists [], col. repeat split; auto. intros ? [].
  - intros H. destruct (IH H) as (l1 & l2 & -> & ? & ? & Hl1).
    exists (x :: l1), l2. repeat split; auto.
    intros y [<- | Hy]; auto.
Qed.

Lemma findOne_None u t col :
  findOne u t col = None <-> forall d, ~ row u t d col.
Proof.
  unfold Model.findOne, Model.row. split.
  - intros H d (Hin & Hk). eapply find_none in H; [| exact Hin].
    apply by_key_false in H. tauto.
  - intros H. destruct (List.find (by_key u t) col) as [d |] eqn:Hf; [| reflexivity].
    apply find_some in Hf as [Hin Hk]. apply by_key_spec in Hk.
    exfalso. apply (H d). tauto.
Qed.

Lemma findOne_row u t col d : findOne u t col = Some d -> row u t d col.
Proof.
  intros H. destruct (findOne_Some _ _ _ _ H) as (l1 & l2 & -> & ? & ? & _).
  unfold Model.row. rewrite in_app_iff. simpl. tauto.
Qed.

Lemma keys_injective col x y :
  unique col -> In x col -> In y col ->
  userOf x = userOf y -> targetOf x = targetOf y -> x = y.
Proof.
  unfold Model.unique, Model.keys.
  induction col as [| z col IH]; simpl; [tauto |].
  intros Hnd Hx Hy Hu Ht. apply NoDup_cons in Hnd as [Hz Hnd].
  assert (Hin : forall w, In w col -> (userOf w, targetOf w) ∈ map (fun d => (userOf d, targetOf d)) col).
  { intros w Hw. apply list_elem_of_In, in_map_iff. eauto. }
  destruct Hx as [<- | Hx], Hy as [<- | Hy]; auto.
  - exfalso. apply Hz. rewrite Hu, Ht. auto.
  - exfalso. apply Hz. rewrite <- Hu, <- Ht. auto.
Qed.

(** Under the unique index, [findOne] returns the row of the pair. *)
Lemma unique_row_found u t col d :
  unique col -> row u t d col -> findOne u t col = Some d.
Proof.
  intros Hnd (Hin & Hu & Ht).
  destruct (findOne u t col) as [d0 |] eqn:Hf.
  - destruct (findOne_row _ _ _ _ Hf) as (Hin0 & Hu0 & Ht0).
    f_equal. eapply keys_injective; eauto; congruence.
  - exfalso. eapply findOne_None; [exact Hf |]. split; eauto.
Qed.

(** [save] replaces the found document where it stands. *)
Lemma save_split l1 d l2 d' :
  (forall x, In x l1 -> by_key (userOf d') (targetOf d') x = false) ->
  userOf d = userOf d' -> targetOf d = targetOf d' ->
  save d' (l1 ++ d :: l2) = l1 ++ d' :: l2.
Proof.
  intros Hl1 Hu Ht. induction l1 as [| x l1 IH]; simpl.
  - assert (by_key (userOf d') (targetOf d') d = true) as -> by (apply by_key_spec; auto).
    reflexivity.
  - rewrite (Hl1 x) by (simpl; auto). f_equal. apply IH.
    intros y Hy. apply Hl1. simpl. auto.
Qed.

Lemma keys_replace l1 d l2 d' :
  userOf d = userOf d' -> targetOf d = targetOf d' ->
  keys (l1 ++ d' :: l2) = keys (l1 ++ d :: l2).
Proof.
  intros Hu Ht. unfold Model.keys. rewrite !map_app. simpl. now rewrite Hu, Ht.
Qed.

Lemma keys_save d col : keys (save d col) = keys col.
Proof.
  unfold Model.keys. induction col as [| x col IH]; simpl; [reflexivity |].
  destruct (by_key (userOf d) (targetOf d) x) eqn:Hx; simpl.
  - apply by_key_spec in Hx as [-> ->]. reflexivity.
  - now rewrite IH.
Qed.

Lemma unique_snoc col d :
  unique col -> (forall x, ~ row (userOf d) (targetOf d) x col) -> unique (col ++ [d]).
Proof.
  unfold Model.unique, Model.keys, Model.row. intros Hnd Hno.
  rewrite map_app. simpl. apply NoDup_app. split; [exact Hnd |]. split.
  - intros k Hk Hk'. apply list_elem_of_In in Hk, Hk'. simpl in Hk'.
    destruct Hk' as [<- | []]. apply in_map_iff in Hk as (x & Hx & Hin).
    apply (Hno x). inversion Hx. auto.
  - apply NoDup_singleton.
Qed.

Lemma filter_none u t col :
  (forall d, ~ row u t d col) -> List.filter (by_key u t) col = [].
Proof.
  intros Hno. induction col as [| x col IH]; simpl; [reflexivity |].
  destruct (by_key u t x) eqn:Hx.
  - apply by_key_spec in Hx. exfalso. apply (Hno x). unfold Model.row. simpl. tauto.
  - apply IH. intros d (Hin & Hk). apply (Hno d). unfold Model.row. simpl. tauto.
Qed.

Context (isActive : A -> bool).

Local Abbreviation has_row := (Contract.has_row userOf targetOf isActive).
Local Abbreviation no_row := (Contract.no_row userOf targetOf).

Lemma row_cases u t col :
  unique col ->
  match findOne u t col with
  | Some d =>
      row u t d col
      /\ (forall b, has_row b u t col <-> isActive d = b) /\ ~ no_row u t col
  | None => no_row u t col /\ forall b, ~ has_row b u t col
  end.
Proof.
  intros Hnd. destruct (findOne u t col) as [d |] eqn:Hf.
  - pose proof (findOne_row _ _ _ _ Hf) as Hr. split; [exact Hr |]. split.
    + intros b. split.
      * intros (d0 & Hr0 & Ha). pose proof (unique_row_found _ _ _ _ Hnd Hr0).
        congruence.
      * intros Ha. exists d. auto.
    + intros Hno. exact (Hno d Hr).
  - pose proof (proj1 (findOne_None _ _ _) Hf) as Hno. split; [exact Hno |].
    intros b (d & Hr & _). exact (Hno d Hr).
Qed.

Lemma replaced_by_save u t col d d' :
  findOne u t col = Some d -> userOf d' = userOf d -> targetOf d' = targetOf d ->
  Contract.replaced d d' col (save d' col).
Proof.
  intros Hf Hu Ht. destruct (findOne_Some _ _ _ _ Hf) as (l1 & l2 & -> & <- & <- & Hl1).
  exists l1, l2. split; [reflexivity |]. apply save_split; auto.
  intros x Hx. rewrite Hu, Ht. auto.
Qed.

(** The three branches of a [subscribe] handler meet its contract. *)
Lemma subscribe_meets_contract (reactivated : A -> A -> Prop) (created : A -> Prop)
    reactivate fresh u t col status col' :
  unique col ->
  (forall d, userOf (reactivate d) = userOf d /\ targetOf (reactivate d) = targetOf d) ->
  (forall d, reactivated d (reactivate d)) -> created fresh ->
  match findOne u t col with
  | Some d =>
      if isActive d then status = 409%nat /\ col' = col
      else status = 200%nat /\ col' = save (reactivate d) col
  | None => status = 201%nat /\ col' = col ++ [fresh]
  end ->
  Contract.subscribe userOf targetOf isActive reactivated created u t col status col'.
Proof.
  intros Hnd Hre HR HC Hbranch. pose proof (row_cases u t col Hnd) as Hc.
  destruct (findOne u t col) as [d |] eqn:Hf.
  - destruct Hc as (Hr & Hhas & Hno).
    destruct (isActive d) eqn:Ha; destruct Hbranch as [-> ->]; unfold Contract.subscribe.
    + repeat split; try tauto; try discriminate;
        try (intros H; apply Hhas in H; discriminate).
      * intros _. now apply Hhas.
      * intros d0 Hr0 Ha0.
        pose proof (unique_row_found _ _ _ _ Hnd Hr0). congruence.
    + repeat split; try tauto; try discriminate;
        try (intros H; apply Hhas in H; discriminate).
      * intros _. now apply Hhas.
      * intros d0 Hr0 Ha0.
        pose proof (unique_row_found _ _ _ _ Hnd Hr0) as Hd. rewrite Hf in Hd.
        injection Hd as <-. exists (reactivate d). split; [apply HR |].
        apply (replaced_by_save u t); auto; apply Hre.
  - destruct Hc as (Hno & Hhas). destruct Hbranch as [-> ->].
    unfold Contract.subscribe.
    repeat split; try tauto; try discriminate; try (intros H; now apply Hhas in H).
    + intros d Hr. exfalso. exact (Hno d Hr).
    + intros _. exists fresh. auto.
Qed.

(** The two branches of an [unsubscribe] handler meet its contract. *)
Lemma unsubscribe_meets_contract (deactivated : A -> A -> Prop) deactivate
    u t col status col' :
  unique col ->
  (forall d, userOf (deactivate d) = userOf d /\ targetOf (deactivate d) = targetOf d) ->
  (forall d, deactivated d (deactivate d)) ->
  match findOne u t col with
  | Some d => status = 200%nat /\ col' = save (deactivate d) col
  | None => status = 404%nat /\ col' = col
  end ->
  Contract.unsubscribe userOf targetOf deactivated u t col status col'.
Proof.
  intros Hnd Hde HD Hbranch. pose proof (row_cases u t col Hnd) as Hc.
  destruct (findOne u t col) as [d |] eqn:Hf.
  - destruct Hc as (Hr & Hhas & Hno). destruct Hbranch as [-> ->].
    unfold Contract.unsubscribe. split; [| split].
    + split; [discriminate | tauto].
    + tauto.
    + intros d0 Hr0. split; [reflexivity |].
      pose proof (unique_row_found _ _ _ _ Hnd Hr0) as Hd. rewrite Hf in Hd.
      injection Hd as <-. exists (deactivate d). split; [apply HD |].
      apply (replaced_by_save u t); auto; apply Hde.
  - destruct Hc as (Hno & Hhas). destruct Hbranch as [-> ->].
    unfold Contract.unsubscribe. split; [| split].
    + tauto.
    + tauto.
    + intros d Hr. exfalso. exact (Hno d Hr).
Qed.

End ModelFacts.

Lemma replaced_keeps {A : Type} (d d' x : A) col col' :
  Contract.replaced d d' col col' -> In x col -> x = d \/ In x col'.
Proof.
  intros (l1 & l2 & -> & ->). rewrite !in_app_iff. simpl. intuition auto.
Qed.

Lemma replaced_same {A : Type} (d : A) col col' : Contract.replaced d d col col' -> col' = col.
Proof. intros (l1 & l2 & -> & ->). reflexivity. Qed.

Section SoftDeleteFacts.

Context {A : Type} (userOf targetOf : A -> string).

Local Abbreviation by_key := (Model.by_key userOf targetOf).
Local Abbreviation findOne := (Model.findOne userOf targetOf).
Local Abbreviation save := (Model.save userOf targetOf).
Local Abbreviation row := (Model.row userOf targetOf).

Lemma findOne_snoc u t col d :
  (forall x, ~ row u t x col) -> userOf d = u -> targetOf d = t ->
  findOne u t (col ++ [d]) = Some d.
Proof.
  intros Hno Hu Ht. unfold Model.findOne.
  induction col as [| x col IH]; simpl.
  - assert (by_key u t d = true) as -> by (apply by_key_spec; auto). reflexivity.
  - assert (by_key u t x = false) as ->.
    { apply by_key_false. intros Hk. apply (Hno x). unfold Model.row. simpl. tauto. }
    apply IH. intros y (Hin & Hk). apply (Hno y). unfold Model.row. simpl. tauto.
Qed.

Lemma save_snoc col d d' :
  (forall x, ~ row (userOf d') (targetOf d') x col) ->
  userOf d = userOf d' -> targetOf d = targetOf d' ->
  save d' (col ++ [d]) = col ++ [d'].
Proof.
  intros Hno Hu Ht. apply save_split; auto.
  intros x Hx. apply by_key_false. intros Hk. apply (Hno x). unfold Model.row. tauto.
Qed.

Lemma filter_snoc u t col d :
  (forall x, ~ row u t x col) -> userOf d = u -> targetOf d = t ->
  List.filter (by_key u t) (col ++ [d]) = [d].
Proof.
  intros Hno Hu Ht. rewrite List.filter_app, (filter_none _ _ _ _ _ Hno). simpl.
  assert (by_key u t d = true) as -> by (apply by_key_spec; auto). reflexivity.
Qed.

End SoftDeleteFacts.

(** ** The subscription controller *)

Section SubscriptionFacts.

Import SubscriptionController.

Ltac unfold_models :=
  unfold CategorySubscription.findOne, CategorySubscription.save,
    CategorySubscription.keys, CategorySubscription.row,
    CategorySubscription.create,
    BookSubscription.findOne, BookSubscription.save,
    BookSubscription.keys, BookSubscription.row, BookSubscription.create in *.

Lemma subscribeToCategory_contract now body col u e c cn :
  Model.unique CategorySubscription.userId CategorySubscription.categoryId col ->
  Js.present (cb_userId body) = Some u ->
  Js.present (cb_userEmail body) = Some e ->
  Js.present (cb_categoryId body) = Some c ->
  Js.present (cb_categoryName body) = Some cn ->
  Contract.subscribe
    CategorySubscription.userId CategorySubscription.categoryId
    CategorySubscription.isActive
    (Contract.categoryReactivated now)
    (Contract.categoryCreated now u e (Js.or_else (cb_userName body) "") c cn)
    u c col
    (Http.status (fst (subscribeToCategory now body col)))
    (snd (subscribeToCategory now body col)).
Proof.
  intros Hnd Hu He Hc Hcn.
  apply (subscribe_meets_contract _ _ _ _ _
           (fun d => CategorySubscription.set_subscribedAt now
                       (CategorySubscription.set_isActive true d))
           (CategorySubscription.mk u e (Js.or_else (cb_userName body) "") c cn true now));
    [exact Hnd | auto | intros d; repeat split | repeat split |].
  unfold subscribeToCategory. rewrite Hu, He, Hc, Hcn. unfold_models.
  destruct (Model.findOne _ _ u c col) as [d |]; [destruct (_ d) |]; simpl; auto.
Qed.

Lemma unsubscribeFromCategory_contract userId categoryId col u c :
  Model.unique CategorySubscription.userId CategorySubscription.categoryId col ->
  Js.present userId = Some u -> Js.present categoryId = Some c ->
  Contract.unsubscribe
    CategorySubscription.userId CategorySubscription.categoryId
    Contract.categoryDeactivated u c col
    (Http.status (fst (unsubscribeFromCategory userId categoryId col)))
    (snd (unsubscribeFromCategory userId categoryId col)).
Proof.
  intros Hnd Hu Hc.
  apply (unsubscribe_meets_contract _ _ CategorySubscription.isActive _
           (CategorySubscription.set_isActive false));
    [exact Hnd | auto | intros d; repeat split |].
  unfold unsubscribeFromCategory. rewrite Hu, Hc. unfold_models.
  destruct (Model.findOne _ _ u c col) as [d |]; simpl; auto.
Qed.

Lemma subscribeToBook_contract now body col u e b bt :
  Model.unique BookSubscription.userId BookSubscription.bookId col ->
  Js.present (bb_userId body) = Some u ->
  Js.present (bb_userEmail body) = Some e ->
  Js.present (bb_bookId body) = Some b ->
  Js.present (bb_bookTitle body) = Some bt ->
  Contract.subscribe
    BookSubscription.userId BookSubscription.bookId BookSubscription.isActive
    (Contract.bookReactivated now)
    (Contract.bookCreated now u e (Js.or_else (bb_userName body) "") b bt
       (Js.or_else (bb_bookCategory body) ""))
    u b col
    (Http.status (fst (subscribeToBook now body col)))
    (snd (subscribeToBook now body col)).
Proof.
  intros Hnd Hu He Hb Hbt.
  apply (subscribe_meets_contract _ _ _ _ _
           (fun d => BookSubscription.set_subscribedAt now
                       (BookSubscription.set_isActive true d))
           (BookSubscription.mk u e (Js.or_else (bb_userName body) "") b bt
              (Js.or_else (bb_bookCategory body) "") true now));
    [exact Hnd | auto | intros d; repeat split | repeat split |].
  unfold subscribeToBook. rewrite Hu, He, Hb, Hbt. unfold_models.
  destruct (Model.findOne _ _ u b col) as [d |]; [destruct (_ d) |]; simpl; auto.
Qed.

Lemma unsubscribeFromBook_contract userId bookId col u b :
  Model.unique BookSubscription.userId BookSubscription.bookId col ->
  Js.present userId = Some u -> Js.present bookId = Some b ->
  Contract.unsubscribe
    BookSubscription.userId BookSubscription.bookId
    Contract.bookDeactivated u b col
    (Http.status (fst (unsubscribeFromBook userId bookId col)))
    (snd (unsubscribeFromBook userId bookId col)).
Proof.
  intros Hnd Hu Hb.
  apply (unsubscribe_meets_contract _ _ BookSubscription.isActive _
           (BookSubscription.set_isActive false));
    [exact Hnd | auto | intros d; repeat split |].
  unfold unsubscribeFromBook. rewrite Hu, Hb. unfold_models.
  destruct (Model.findOne _ _ u b col) as [d |]; simpl; auto.
Qed.

(** C5.  Under the unique index on the pair, and for a request whose
    required fields are present: [subscribe] answers 409 exactly when
    the pair has an active row (and changes nothing); answers 200
    exactly when it has an inactive row, which it replaces in place by
    a row whose [isActive] is true, whose [subscribedAt] is the current
    time and whose other fields are the old row's; and answers 201
    exactly when it has no row, and appends a row that is active,
    subscribed at the current time and made of the fields of the
    request.  [unsubscribe] answers 404 exactly when the pair has no
    row (and changes nothing), and otherwise answers 200 and replaces
    the row in place by a row whose [isActive] is false and whose other
    fields, [subscribedAt] included, are the old row's.  The same holds
    of the category and of the book handlers. *)
Theorem subscribe_unsubscribe_contract :
  (forall now body col u e c cn,
      Model.unique CategorySubscription.userId CategorySubscription.categoryId col ->
      Js.present (cb_userId body) = Some u ->
      Js.present (cb_userEmail body) = Some e ->
      Js.present (cb_categoryId body) = Some c ->
      Js.present (cb_categoryName body) = Some cn ->
      Contract.subscribe
        CategorySubscription.userId CategorySubscription.categoryId
        CategorySubscription.isActive
        (fun d d' =>
           CategorySubscription.isActive d' = true
           /\ CategorySubscription.subscribedAt d' = now
           /\ CategorySubscription.userId d' = CategorySubscription.userId d
           /\ CategorySubscription.userEmail d' = CategorySubscription.userEmail d
           /\ CategorySubscription.userName d' = CategorySubscription.userName d
           /\ CategorySubscription.categoryId d' = CategorySubscription.categoryId d
           /\ CategorySubscription.categoryName d' = CategorySubscription.categoryName d)
        (fun d' =>
           CategorySubscription.isActive d' = true
           /\ CategorySubscription.subscribedAt d' = now
           /\ CategorySubscription.userId d' = u
           /\ CategorySubscription.userEmail d' = e
           /\ CategorySubscription.userName d' = Js.or_else (cb_userName body) ""
           /\ CategorySubscription.categoryId d' = c
           /\ CategorySubscription.categoryName d' = cn)
        u c col
        (Http.status (fst (subscribeToCategory now body col)))
        (snd (subscribeToCategory now body col)))
  /\ (forall userId categoryId col u c,
        Model.unique CategorySubscription.userId CategorySubscription.categoryId col ->
        Js.present userId = Some u -> Js.present categoryId = Some c ->
        Contract.unsubscribe
          CategorySubscription.userId CategorySubscription.categoryId
          (fun d d' =>
             CategorySubscription.isActive d' = false
             /\ CategorySubscription.subscribedAt d' = CategorySubscription.subscribedAt d
             /\ CategorySubscription.userId d' = CategorySubscription.userId d
             /\ CategorySubscription.userEmail d' = CategorySubscription.userEmail d
             /\ CategorySubscription.userName d' = CategorySubscription.userName d
             /\ CategorySubscription.categoryId d' = CategorySubscription.categoryId d
             /\ CategorySubscription.categoryName d'
                = CategorySubscription.categoryName d)
          u c col
          (Http.status (fst (unsubscribeFromCategory userId categoryId col)))
          (snd (unsubscribeFromCategory userId categoryId col)))
  /\ (forall now body col u e b bt,
        Model.unique BookSubscription.userId BookSubscription.bookId col ->
        Js.present (bb_userId body) = Some u ->
        Js.present (bb_userEmail body) = Some e ->
        Js.present (bb_bookId body) = Some b ->
        Js.present (bb_bookTitle body) = Some bt ->
        Contract.subscribe
          BookSubscription.userId BookSubscription.bookId BookSubscription.isActive
          (fun d d' =>
             BookSubscription.isActive d' = true
             /\ BookSubscription.subscribedAt d' = now
             /\ BookSubscription.userId d' = BookSubscription.userId d
             /\ BookSubscription.userEmail d' = BookSubscription.userEmail d
             /\ BookSubscription.userName d' = BookSubscription.userName d
             /\ BookSubscription.bookId d' = BookSubscription.bookId d
             /\ BookSubscription.bookTitle d' = BookSubscription.bookTitle d
             /\ BookSubscription.bookCategory d' = BookSubscription.bookCategory d)
          (fun d' =>
             BookSubscription.isActive d' = true
             /\ BookSubscription.subscribedAt d' = now
             /\ BookSubscription.userId d' = u
             /\ BookSubscription.userEmail d' = e
             /\ BookSubscription.userName d' = Js.or_else (bb_userName body) ""
             /\ BookSubscription.bookId d' = b
             /\ BookSubscription.bookTitle d' = bt
             /\ BookSubscription.bookCategory d' = Js.or_else (bb_bookCategory body) "")
          u b col
          (Http.status (fst (subscribeToBook now body col)))
          (snd (subscribeToBook now body col)))
  /\ (forall userId bookId col u b,
        Model.unique BookSubscription.userId BookSubscription.bookId col ->
        Js.present userId = Some u -> Js.present bookId = Some b ->
        Contract.unsubscribe
          BookSubscription.userId BookSubscription.bookId
          (fun d d' =>
             BookSubscription.isActive d' = false
             /\ BookSubscription.subscribedAt d' = BookSubscription.subscribedAt d
             /\ BookSubscription.userId d' = BookSubscription.userId d
             /\ BookSubscription.userEmail d' = BookSubscription.userEmail d
             /\ BookSubscription.userName d' = BookSubscription.userName d
             /\ BookSubscription.bookId d' = BookSubscription.bookId d
             /\ BookSubscription.bookTitle d' = BookSubscription.bookTitle d
             /\ BookSubscription.bookCategory d' = BookSubscription.bookCategory d)
          u b col
          (Http.status (fst (unsubscribeFromBook userId bookId col)))
          (snd (unsubscribeFromBook userId bookId col))).
Proof.
  split; [exact subscribeToCategory_contract |].
  split; [exact unsubscribeFromCategory_contract |].
  split; [exact subscribeToBook_contract | exact unsubscribeFromBook_contract].
Qed.

Lemma subscribe_unsubscribe_contract_witness :
  let d := CategorySubscription.mk "u1" "u1@lib.org" "Ann" "c1" "Science" false 5 in
  let body := mkCategoryBody (Some "u1") (Some "u1@lib.org") None
                (Some "c1") (Some "Science") in
  Model.unique CategorySubscription.userId CategorySubscription.categoryId [d]
  /\ Js.present (cb_userId body) = Some "u1"
  /\ Http.status (fst (subscribeToCategory 9 body [d])) = 200%nat
  /\ exists d',
       snd (subscribeToCategory 9 body [d]) = [d']
       /\ CategorySubscription.isActive d' = true
       /\ CategorySubscription.subscribedAt d' = 9
       /\ CategorySubscription.userName d' = "Ann".
Proof.
  intros d body.
  assert (Hnd : Model.unique CategorySubscription.userId
                  CategorySubscription.categoryId [d]) by apply NoDup_singleton.
  split; [exact Hnd |]. split; [reflexivity |]. split; [reflexivity |].
  destruct (proj1 subscribe_unsubscribe_contract 9 body [d] "u1" "u1@lib.org" "c1"
              "Science" Hnd eq_refl eq_refl eq_refl eq_refl)
    as (_ & _ & _ & _ & Hre & _).
  destruct (Hre d) as (d' & (Ha & Ht & _ & _ & Hn & _) & (l1 & l2 & E1 & E2)).
  - split; [now left | split; reflexivity].
  - reflexivity.
  - exists d'. destruct l1 as [| x l1].
    + injection E1 as <-. rewrite E2. repeat split; assumption.
    + destruct l1; discriminate E1.
Defined.

(** C9.  [unsubscribe] on a pair whose row is already inactive answers
    200 with [success], not 404, and the row is still there, inactive;
    under the unique index the collection is left exactly as it was.
    The same holds of the category and of the book handler. *)
Theorem unsubscribe_inactive_succeeds :
  (forall userId categoryId col u c d,
      Js.present userId = Some u -> Js.present categoryId = Some c ->
      CategorySubscription.row u c d col ->
      CategorySubscription.isActive d = false ->
      let r := unsubscribeFromCategory userId categoryId col in
      Http.status (fst r) = 200%nat /\ Http.success (fst r) = true
      /\ CategorySubscription.row u c d (snd r)
      /\ (Model.unique CategorySubscription.userId CategorySubscription.categoryId col ->
          snd r = col))
  /\ (forall userId bookId col u b d,
        Js.present userId = Some u -> Js.present bookId = Some b ->
        BookSubscription.row u b d col ->
        BookSubscription.isActive d = false ->
        let r := unsubscribeFromBook userId bookId col in
        Http.status (fst r) = 200%nat /\ Http.success (fst r) = true
        /\ BookSubscription.row u b d (snd r)
        /\ (Model.unique BookSubscription.userId BookSubscription.bookId col ->
            snd r = col)).
Proof.
  split.
  - intros userId categoryId col u c d Hu Hc Hr Ha.
    unfold unsubscribeFromCategory. rewrite Hu, Hc. unfold_models.
    destruct (Model.findOne _ _ u c col) as [d0 |] eqn:Hf.
    + simpl. split; [reflexivity |]. split; [reflexivity |].
      pose proof (replaced_by_save _ _ u c col d0
                    (CategorySubscription.set_isActive false d0) Hf eq_refl eq_refl)
        as Hrep.
      split.
      * destruct Hr as (Hin & Hk). split; [| exact Hk].
        destruct (replaced_keeps _ _ _ _ _ Hrep Hin) as [-> | Hin']; [| exact Hin'].
        destruct Hrep as (l1 & l2 & _ & ->). apply in_app_iff. right. left.
        destruct d0. simpl in Ha. subst. reflexivity.
      * intros Hnd. pose proof (unique_row_found _ _ _ _ _ _ Hnd Hr) as Hd.
        rewrite Hf in Hd. injection Hd as ->.
        assert (Hsame : CategorySubscription.set_isActive false d = d)
          by (destruct d; simpl in Ha; subst; reflexivity).
        rewrite Hsame in *. apply (replaced_same d). exact Hrep.
    + exfalso. exact (proj1 (findOne_None _ _ _ _ _) Hf d Hr).
  - intros userId bookId col u b d Hu Hb Hr Ha.
    unfold unsubscribeFromBook. rewrite Hu, Hb. unfold_models.
    destruct (Model.findOne _ _ u b col) as [d0 |] eqn:Hf.
    + simpl. split; [reflexivity |]. split; [reflexivity |].
      pose proof (replaced_by_save _ _ u b col d0
                    (BookSubscription.set_isActive false d0) Hf eq_refl eq_refl)
        as Hrep.
      split.
      * destruct Hr as (Hin & Hk). split; [| exact Hk].
        destruct (replaced_keeps _ _ _ _ _ Hrep Hin) as [-> | Hin']; [| exact Hin'].
        destruct Hrep as (l1 & l2 & _ & ->). apply in_app_iff. right. left.
        destruct d0. simpl in Ha. subst. reflexivity.
      * intros Hnd. pose proof (unique_row_found _ _ _ _ _ _ Hnd Hr) as Hd.
        rewrite Hf in Hd. injection Hd as ->.
        assert (Hsame : BookSubscription.set_isActive false d = d)
          by (destruct d; simpl in Ha; subst; reflexivity).
        rewrite Hsame in *. apply (replaced_same d). exact Hrep.
    + exfalso. exact (proj1 (findOne_None _ _ _ _ _) Hf d Hr).
Qed.

Lemma unsubscribe_inactive_succeeds_witness :
  let d := BookSubscription.mk "u1" "u1@lib.org" "Ann" "b7" "Cosmos" "Science" false 5 in
  let r := unsubscribeFromBook (Some "u1") (Some "b7") [d] in
  BookSubscription.row "u1" "b7" d [d] /\ BookSubscription.isActive d = false
  /\ Http.status (fst r) = 200%nat /\ Http.success (fst r) = true
  /\ BookSubscription.row "u1" "b7" d (snd r)
  /\ (Model.unique BookSubscription.userId BookSubscription.bookId [d] -> snd r = [d]).
Proof.
  intros d r.
  assert (Hr : BookSubscription.row "u1" "b7" d [d])
    by (repeat split; simpl; auto).
  split; [exact Hr |]. split; [reflexivity |].
  exact (proj2 unsubscribe_inactive_succeeds (Some "u1") (Some "b7") [d] "u1" "b7" d
           eq_refl eq_refl Hr eq_refl).
Defined.

(** Every handler keeps the keys already there, in order, and the
    unique index. *)
Ltac handler_cases :=
  repeat match goal with
         | |- context [match Js.present ?v with _ => _ end] =>
             destruct (Js.present v)
         end;
  try (simpl; split; [exists []; now rewrite app_nil_r | tauto]).

Ltac found_cases Hf :=
  simpl; split;
  [ exists []; rewrite app_nil_r; try reflexivity; apply keys_save
  | intros Hnd; unfold Model.unique; try exact Hnd;
    rewrite keys_save; exact Hnd ].

Lemma subscribeToCategory_keeps now body col :
  (exists xs, CategorySubscription.keys (snd (subscribeToCategory now body col))
              = CategorySubscription.keys col ++ xs)
  /\ (Model.unique CategorySubscription.userId CategorySubscription.categoryId col ->
      Model.unique CategorySubscription.userId CategorySubscription.categoryId
        (snd (subscribeToCategory now body col))).
Proof.
  unfold subscribeToCategory. handler_cases. unfold_models.
  destruct (Model.findOne _ _ _ _ col) as [d |] eqn:Hf; [destruct (_ d) |].
  - found_cases Hf.
  - found_cases Hf.
  - simpl. split.
    + eexists. unfold Model.keys. rewrite map_app. reflexivity.
    + intros Hnd. apply unique_snoc; [exact Hnd |].
      exact (proj1 (findOne_None _ _ _ _ _) Hf).
Qed.

Lemma unsubscribeFromCategory_keeps userId categoryId col :
  (exists xs, CategorySubscription.keys
                (snd (unsubscribeFromCategory userId categoryId col))
              = CategorySubscription.keys col ++ xs)
  /\ (Model.unique CategorySubscription.userId CategorySubscription.categoryId col ->
      Model.unique CategorySubscription.userId CategorySubscription.categoryId
        (snd (unsubscribeFromCategory userId categoryId col))).
Proof.
  unfold unsubscribeFromCategory. handler_cases. unfold_models.
  destruct (Model.findOne _ _ _ _ col) as [d |] eqn:Hf.
  - found_cases Hf.
  - found_cases Hf.
Qed.

Lemma subscribeToBook_keeps now body col :
  (exists xs, BookSubscription.keys (snd (subscribeToBook now body col))
              = BookSubscription.keys col ++ xs)
  /\ (Model.unique BookSubscription.userId BookSubscription.bookId col ->
      Model.unique BookSubscription.userId BookSubscription.bookId
        (snd (subscribeToBook now body col))).
Proof.
  unfold subscribeToBook. handler_cases. unfold_models.
  destruct (Model.findOne _ _ _ _ col) as [d |] eqn:Hf; [destruct (_ d) |].
  - found_cases Hf.
  - found_cases Hf.
  - simpl. split.
    + eexists. unfold Model.keys. rewrite map_app. reflexivity.
    + intros Hnd. apply unique_snoc; [exact Hnd |].
      exact (proj1 (findOne_None _ _ _ _ _) Hf).
Qed.

Lemma unsubscribeFromBook_keeps userId bookId col :
  (exists xs, BookSubscription.keys (snd (unsubscribeFromBook userId bookId col))
              = BookSubscription.keys col ++ xs)
  /\ (Model.unique BookSubscription.userId BookSubscription.bookId col ->
      Model.unique BookSubscription.userId BookSubscription.bookId
        (snd (unsubscribeFromBook userId bookId col))).
Proof.
  unfold unsubscribeFromBook. handler_cases. unfold_models.
  destruct (Model.findOne _ _ _ _ col) as [d |] eqn:Hf.
  - found_cases Hf.
  - found_cases Hf.
Qed.

(** C6.  From a collection with no row for the pair, subscribe,
    unsubscribe and subscribe again leave exactly one row for the pair,
    active and with [subscribedAt] the time of the second subscribe,
    and the collection has grown by one row only.  In every reachable
    store no two rows of a collection share their pair, and a request
    never removes a row: the pairs already there stay, in order. *)
Theorem resubscribe_round_trip :
  (forall t1 t2 body1 body2 col u c e1 cn1 e2 cn2,
      Js.present (cb_userId body1) = Some u ->
      Js.present (cb_userEmail body1) = Some e1 ->
      Js.present (cb_categoryId body1) = Some c ->
      Js.present (cb_categoryName body1) = Some cn1 ->
      Js.present (cb_userId body2) = Some u ->
      Js.present (cb_userEmail body2) = Some e2 ->
      Js.present (cb_categoryId body2) = Some c ->
      Js.present (cb_categoryName body2) = Some cn2 ->
      (forall d, ~ CategorySubscription.row u c d col) ->
      let col1 := snd (subscribeToCategory t1 body1 col) in
      let col2 :=
        snd (unsubscribeFromCategory (cb_userId body1) (cb_categoryId body1) col1) in
      let col3 := snd (subscribeToCategory t2 body2 col2) in
      exists d,
        List.filter
          (Model.by_key CategorySubscription.userId CategorySubscription.categoryId u c)
          col3 = [d]
        /\ CategorySubscription.isActive d = true
        /\ CategorySubscription.subscribedAt d = t2
        /\ List.length col3 = S (List.length col))
  /\ (forall st,
        Store.reachable st ->
        NoDup (CategorySubscription.keys (Store.categories st))
        /\ NoDup (BookSubscription.keys (Store.books st)))
  /\ (forall r st,
        exists xs ys,
          CategorySubscription.keys (Store.categories (Store.handle r st))
          = CategorySubscription.keys (Store.categories st) ++ xs
          /\ BookSubscription.keys (Store.books (Store.handle r st))
             = BookSubscription.keys (Store.books st) ++ ys).
Proof.
  split; [| split].
  - intros t1 t2 body1 body2 col u c e1 cn1 e2 cn2 Hu1 He1 Hc1 Hcn1 Hu2 He2 Hc2 Hcn2 Hno.
    set (d1 := CategorySubscription.mk u e1 (Js.or_else (cb_userName body1) "")
                 c cn1 true t1).
    set (d2 := CategorySubscription.set_isActive false d1).
    set (d3 := CategorySubscription.set_subscribedAt t2
                 (CategorySubscription.set_isActive true d2)).
    assert (H1 : snd (subscribeToCategory t1 body1 col) = col ++ [d1]).
    { unfold subscribeToCategory. rewrite Hu1, He1, Hc1, Hcn1. unfold_models.
      now rewrite (proj2 (findOne_None _ _ _ _ _) Hno). }
    assert (H2 : snd (unsubscribeFromCategory (cb_userId body1) (cb_categoryId body1)
                        (col ++ [d1])) = col ++ [d2]).
    { unfold unsubscribeFromCategory. rewrite Hu1, Hc1. unfold_models.
      rewrite (findOne_snoc _ _ u c col d1 Hno eq_refl eq_refl). simpl.
      now apply save_snoc. }
    assert (H3 : snd (subscribeToCategory t2 body2 (col ++ [d2])) = col ++ [d3]).
    { unfold subscribeToCategory. rewrite Hu2, He2, Hc2, Hcn2. unfold_models.
      rewrite (findOne_snoc _ _ u c col d2 Hno eq_refl eq_refl). simpl.
      now apply save_snoc. }
    intros col1 col2 col3. subst col1 col2 col3. rewrite H1, H2, H3.
    exists d3. split; [apply (filter_snoc _ _ u c col _ Hno); reflexivity |].
    split; [reflexivity |]. split; [reflexivity |].
    rewrite length_app. simpl. lia.
  - intros st Hst. induction Hst as [| r st Hst [IHc IHb]].
    + split; constructor.
    + destruct r; simpl; split; auto.
      * now apply subscribeToCategory_keeps.
      * now apply unsubscribeFromCategory_keeps.
      * now apply subscribeToBook_keeps.
      * now apply unsubscribeFromBook_keeps.
  - intros r st. destruct r; simpl.
    + destruct (subscribeToCategory_keeps now body (Store.categories st)) as [[xs H] _].
      exists xs, []. now rewrite app_nil_r.
    + destruct (unsubscribeFromCategory_keeps userId categoryId (Store.categories st))
        as [[xs H] _].
      exists xs, []. now rewrite app_nil_r.
    + destruct (subscribeToBook_keeps now body (Store.books st)) as [[ys H] _].
      exists [], ys. now rewrite app_nil_r.
    + destruct (unsubscribeFromBook_keeps userId bookId (Store.books st)) as [[ys H] _].
      exists [], ys. now rewrite app_nil_r.
Qed.

Lemma resubscribe_round_trip_witness :
  let other := CategorySubscription.mk "u2" "u2@lib.org" "Bob" "c1" "Science" true 0 in
  let body := mkCategoryBody (Some "u1") (Some "u1@lib.org") (Some "Ann")
                (Some "c1") (Some "Science") in
  let col1 := snd (subscribeToCategory 1 body [other]) in
  let col2 := snd (unsubscribeFromCategory (Some "u1") (Some "c1") col1) in
  let col3 := snd (subscribeToCategory 7 body col2) in
  (forall d, ~ CategorySubscription.row "u1" "c1" d [other])
  /\ exists d,
       List.filter
         (Model.by_key CategorySubscription.userId CategorySubscription.categoryId
            "u1" "c1") col3 = [d]
       /\ CategorySubscription.isActive d = true
       /\ CategorySubscription.subscribedAt d = 7
       /\ List.length col3 = 2%nat.
Proof.
  intros other body col1 col2 col3.
  assert (Hno : forall d, ~ CategorySubscription.row "u1" "c1" d [other]).
  { intros d (Hin & Hu & _). destruct Hin as [<- | []]. discriminate Hu. }
  split; [exact Hno |].
  exact (proj1 resubscribe_round_trip 1 7 body body [other] "u1" "c1"
           "u1@lib.org" "Science" "u1@lib.org" "Science"
           eq_refl eq_refl eq_refl eq_refl eq_refl eq_refl eq_refl eq_refl Hno).
Defined.

End SubscriptionFacts.

(** ** The insertion-ordered map *)

Section JsMapFacts.

Context {V : Type}.

Implicit Types (m : list (string * V)) (k : string) (v : V).

Lemma get_set_eq k v m : JsMap.get k (JsMap.set k v m) = Some v.
Proof.
  induction m as [| [k' v'] m IH]; simpl.
  - now rewrite String.eqb_refl.
  - destruct (String.eqb k' k) eqn:Hk; simpl.
    + now rewrite String.eqb_refl.
    + now rewrite Hk.
Qed.

Lemma get_set_ne k k' v m : k <> k' -> JsMap.get k' (JsMap.set k v m) = JsMap.get k' m.
Proof.
  intros Hne. induction m as [| [k0 v0] m IH]; simpl.
  - apply String.eqb_neq in Hne. now rewrite Hne.
  - destruct (String.eqb k0 k) eqn:Hk; simpl.
    + apply String.eqb_eq in Hk as ->. apply String.eqb_neq in Hne. now rewrite Hne.
    + now rewrite IH.
Qed.

Lemma get_keys k m : JsMap.get k m = None <-> ~ In k (JsMap.keys m).
Proof.
  induction m as [| [k' v'] m IH]; simpl; [tauto |].
  destruct (String.eqb k' k) eqn:Hk.
  - apply String.eqb_eq in Hk. split; [discriminate | tauto].
  - apply String.eqb_neq in Hk. tauto.
Qed.

Lemma keys_set k v m :
  JsMap.keys (JsMap.set k v m)
  = match JsMap.get k m with
    | Some _ => JsMap.keys m
    | None => JsMap.keys m ++ [k]
    end.
Proof.
  induction m as [| [k' v'] m IH]; simpl; [reflexivity |].
  destruct (String.eqb k' k) eqn:Hk; simpl.
  - apply String.eqb_eq in Hk as ->. reflexivity.
  - rewrite IH. now destruct (JsMap.get k m).
Qed.

Lemma NoDup_set k v m : NoDup (JsMap.keys m) -> NoDup (JsMap.keys (JsMap.set k v m)).
Proof.
  intros Hnd. rewrite keys_set. destruct (JsMap.get k m) eqn:Hg; [exact Hnd |].
  apply get_keys in Hg. apply NoDup_app. split; [exact Hnd |]. split.
  - intros x Hx Hx'. apply list_elem_of_In in Hx, Hx'. simpl in Hx'.
    destruct Hx' as [<- | []]. auto.
  - apply NoDup_singleton.
Qed.

Lemma get_In k v m : JsMap.get k m = Some v -> In (k, v) m.
Proof.
  induction m as [| [k' v'] m IH]; simpl; [discriminate |].
  destruct (String.eqb k' k) eqn:Hk.
  - apply String.eqb_eq in Hk as ->. intros [= ->]. auto.
  - auto.
Qed.

Lemma In_get k v m : NoDup (JsMap.keys m) -> In (k, v) m -> JsMap.get k m = Some v.
Proof.
  induction m as [| [k' v'] m IH]; simpl; [tauto |].
  intros Hnd Hin. apply NoDup_cons in Hnd as [Hk' Hnd].
  destruct Hin as [[= -> ->] | Hin].
  - now rewrite String.eqb_refl.
  - destruct (String.eqb k' k) eqn:Hk; [| auto].
    apply String.eqb_eq in Hk as ->. exfalso. apply Hk'.
    apply list_elem_of_In. unfold JsMap.keys. apply in_map_iff. now exists (k, v).
Qed.

End JsMapFacts.

(** ** The targeting resolver *)

Section ResolverFacts.

Import SubscriptionController.

Implicit Types (m : list (string * TargetedSubscriber.t)) (u : string).

Lemma pass1_snoc rows sub :
  pass1 (rows ++ [sub])
  = JsMap.set (CategorySubscription.userId sub) (fromCategory sub) (pass1 rows).
Proof. unfold pass1. now rewrite fold_left_app. Qed.

Lemma pass2_snoc rows sub m :
  pass2 (rows ++ [sub]) m
  = match JsMap.get (BookSubscription.userId sub) (pass2 rows m) with
    | Some existing =>
        JsMap.set (BookSubscription.userId sub) (markBoth existing sub) (pass2 rows m)
    | None =>
        JsMap.set (BookSubscription.userId sub) (fromBook sub) (pass2 rows m)
    end.
Proof. unfold pass2. now rewrite fold_left_app. Qed.

(** After the first pass: one entry per user of the rows, of type
    [category], built from one of the user's rows. *)
Lemma pass1_spec rows :
  NoDup (JsMap.keys (pass1 rows))
  /\ (forall u v, JsMap.get u (pass1 rows) = Some v ->
                 exists sub, In sub rows /\ CategorySubscription.userId sub = u
                             /\ v = fromCategory sub)
  /\ (forall sub, In sub rows ->
                 exists v, JsMap.get (CategorySubscription.userId sub) (pass1 rows) = Some v).
Proof.
  induction rows as [| sub rows (Hnd & Hget & Hin)] using rev_ind.
  - split; [constructor |]. split; [discriminate | intros ? []].
  - rewrite pass1_snoc. split; [now apply NoDup_set |]. split.
    + intros u v. destruct (String.eqb_spec (CategorySubscription.userId sub) u) as [<- | Hne].
      * rewrite get_set_eq. intros [= <-]. exists sub.
        rewrite in_app_iff. simpl. auto.
      * rewrite get_set_ne by assumption. intros Hv.
        destruct (Hget u v Hv) as (sub' & ? & ? & ?). exists sub'.
        rewrite in_app_iff. auto.
    + intros sub' Hsub'.
      destruct (String.eqb_spec (CategorySubscription.userId sub)
                  (CategorySubscription.userId sub')) as [<- | Hne].
      * rewrite get_set_eq. eauto.
      * rewrite get_set_ne by assumption. apply in_app_iff in Hsub' as [H | [-> | []]].
        -- auto.
        -- congruence.
Qed.

(** After the second pass: the users of the book rows have an entry
    that follows the book and carries the fields of one of their rows,
    of type [both] when the first pass had found them; the other
    entries are as the first pass left them. *)
Lemma pass2_spec rows m :
  NoDup (JsMap.keys m) ->
  NoDup (JsMap.keys (pass2 rows m))
  /\ (forall u v,
        JsMap.get u (pass2 rows m) = Some v ->
        (JsMap.get u m = Some v
         /\ forall sub, In sub rows -> BookSubscription.userId sub <> u)
        \/ (exists sub, In sub rows /\ BookSubscription.userId sub = u
                        /\ TargetedSubscriber.followsBook v = true
                        /\ TargetedSubscriber.bookId v = Some (BookSubscription.bookId sub)
                        /\ TargetedSubscriber.bookTitle v
                           = Some (BookSubscription.bookTitle sub)
                        /\ (TargetedSubscriber.userId v = u
                            \/ exists e, JsMap.get u m = Some e
                                         /\ TargetedSubscriber.userId v
                                            = TargetedSubscriber.userId e)
                        /\ (JsMap.get u m <> None ->
                            TargetedSubscriber.subscriptionType v
                            = TargetedSubscriber.both)))
  /\ (forall u, JsMap.get u m <> None -> JsMap.get u (pass2 rows m) <> None).
Proof.
  intros Hm. induction rows as [| sub rows (Hnd & Hget & Hkeep)] using rev_ind.
  - simpl. split; [exact Hm |]. split; [| auto].
    intros u v Hv. left. split; [exact Hv | intros ? []].
  - rewrite pass2_snoc. set (k := BookSubscription.userId sub).
    assert (Hcase :
             exists w,
               (match JsMap.get k (pass2 rows m) with
                | Some existing => JsMap.set k (markBoth existing sub) (pass2 rows m)
                | None => JsMap.set k (fromBook sub) (pass2 rows m)
                end) = JsMap.set k w (pass2 rows m)
               /\ TargetedSubscriber.followsBook w = true
               /\ TargetedSubscriber.bookId w = Some (BookSubscription.bookId sub)
               /\ TargetedSubscriber.bookTitle w = Some (BookSubscription.bookTitle sub)
               /\ (TargetedSubscriber.userId w = k
                   \/ exists e, JsMap.get k m = Some e
                                /\ TargetedSubscriber.userId w = TargetedSubscriber.userId e)
               /\ (JsMap.get k m <> None ->
                   TargetedSubscriber.subscriptionType w = TargetedSubscriber.both)).
    { destruct (JsMap.get k (pass2 rows m)) as [existing |] eqn:He.
      - exists (markBoth existing sub). repeat split.
        destruct (Hget k existing He) as [[Hm' _] | (s' & _ & _ & _ & _ & _ & Hid & _)].
        + right. exists existing. auto.
        + simpl. exact Hid.
      - exists (fromBook sub). repeat split; auto.
        intros Hk. exfalso. exact (Hkeep k Hk He). }
    destruct Hcase as (w & -> & Hw1 & Hw2 & Hw3 & Hw4 & Hw5).
    split; [now apply NoDup_set |]. split.
    + intros u v. destruct (String.eqb_spec k u) as [<- | Hne].
      * rewrite get_set_eq. intros [= <-]. right. exists sub.
        rewrite in_app_iff. simpl. auto 10.
      * rewrite get_set_ne by assumption. intros Hv.
        destruct (Hget u v Hv) as [[Hm' Hno] | (s' & Hin & Hrest)].
        -- left. split; [exact Hm' |]. intros s' Hs'.
           apply in_app_iff in Hs' as [Hs' | [<- | []]]; auto.
        -- right. exists s'. rewrite in_app_iff. auto.
    + intros u Hu. destruct (String.eqb_spec k u) as [<- | Hne].
      * now rewrite get_set_eq.
      * rewrite get_set_ne by assumption. auto.
Qed.

(** The map the resolver ends with, once the pattern has compiled. *)
Lemma resolver_values beyond cats books categoryName bookId re :
  RegExp beyond ("^" +:+ Js.interpolate categoryName +:+ "$") = Some re ->
  getTargetedSubscribers beyond cats books categoryName bookId
  = JsMap.values
      (if Js.truthy bookId
       then pass2 (bookSubscribers (Js.interpolate bookId) books)
              (pass1 (categorySubscribers re cats))
       else pass1 (categorySubscribers re cats)).
Proof.
  intros Hre. unfold getTargetedSubscribers. rewrite Hre.
  now destruct (Js.truthy bookId).
Qed.

Lemma resolver_map_wf re cats books bookId :
  let m := if Js.truthy bookId
           then pass2 (bookSubscribers (Js.interpolate bookId) books)
                  (pass1 (categorySubscribers re cats))
           else pass1 (categorySubscribers re cats) in
  NoDup (JsMap.keys m)
  /\ forall u v, JsMap.get u m = Some v -> TargetedSubscriber.userId v = u.
Proof.
  destruct (pass1_spec (categorySubscribers re cats)) as (Hnd1 & Hget1 & _).
  assert (Hk1 : forall u v, JsMap.get u (pass1 (categorySubscribers re cats)) = Some v ->
                            TargetedSubscriber.userId v = u).
  { intros u v Hv. destruct (Hget1 u v Hv) as (sub & _ & <- & ->). reflexivity. }
  destruct (Js.truthy bookId); simpl; [| auto].
  destruct (pass2_spec (bookSubscribers (Js.interpolate bookId) books) _ Hnd1)
    as (Hnd2 & Hget2 & _).
  split; [exact Hnd2 |]. intros u v Hv.
  destruct (Hget2 u v Hv) as [[Hm _] | (sub & _ & _ & _ & _ & _ & Hid & _)]; [auto |].
  destruct Hid as [Hid | (e & He & ->)]; auto.
Qed.

Lemma values_keyed m :
  (forall u v, JsMap.get u m = Some v -> TargetedSubscriber.userId v = u) ->
  NoDup (JsMap.keys m) ->
  map TargetedSubscriber.userId (JsMap.values m) = JsMap.keys m.
Proof.
  intros Hk Hnd. unfold JsMap.values, JsMap.keys. rewrite map_map.
  apply map_ext_in. intros [k v] Hin. simpl. apply Hk. now apply In_get.
Qed.

(** No [userId] appears twice in the resolver's output. *)
Lemma resolver_NoDup beyond cats books categoryName bookId :
  NoDup (map TargetedSubscriber.userId
           (getTargetedSubscribers beyond cats books categoryName bookId)).
Proof.
  destruct (RegExp beyond ("^" +:+ Js.interpolate categoryName +:+ "$")) as [re |] eqn:Hre.
  - rewrite (resolver_values _ _ _ _ _ _ Hre).
    destruct (resolver_map_wf re cats books bookId) as (Hnd & Hk).
    now rewrite values_keyed.
  - unfold getTargetedSubscribers. rewrite Hre. constructor.
Qed.

Lemma in_values m v :
  NoDup (JsMap.keys m) ->
  In v (JsMap.values m) <-> exists u, JsMap.get u m = Some v.
Proof.
  intros Hnd. unfold JsMap.values. rewrite in_map_iff. split.
  - intros ([k v'] & <- & Hin). exists k. now apply In_get.
  - intros (u & Hu). exists (u, v). split; [reflexivity | now apply get_In].
Qed.

Lemma in_bookSubscribers bookId books sub :
  In sub (bookSubscribers bookId books)
  <-> In sub books /\ BookSubscription.bookId sub = bookId
      /\ BookSubscription.isActive sub = true.
Proof.
  unfold bookSubscribers. rewrite filter_In, andb_true_iff, String.eqb_eq. tauto.
Qed.

Lemma in_categorySubscribers re cats sub :
  In sub (categorySubscribers re cats)
  <-> In sub cats /\ re (CategorySubscription.categoryName sub) = true
      /\ CategorySubscription.isActive sub = true.
Proof.
  unfold categorySubscribers. rewrite filter_In, andb_true_iff. tauto.
Qed.

(** An entry that follows the book comes from an active row of the
    book for that user. *)
Lemma follower_has_row beyond cats books categoryName bookId t :
  In t (getTargetedSubscribers beyond cats books categoryName bookId) ->
  TargetedSubscriber.followsBook t = true ->
  Js.truthy bookId = true
  /\ exists sub, In sub books
                 /\ BookSubscription.userId sub = TargetedSubscriber.userId t
                 /\ BookSubscription.bookId sub = Js.interpolate bookId
                 /\ BookSubscription.isActive sub = true.
Proof.
  intros Hin Hf.
  destruct (RegExp beyond ("^" +:+ Js.interpolate categoryName +:+ "$")) as [re |] eqn:Hre.
  2:{ unfold getTargetedSubscribers in Hin. rewrite Hre in Hin. destruct Hin. }
  rewrite (resolver_values _ _ _ _ _ _ Hre) in Hin.
  destruct (resolver_map_wf re cats books bookId) as (Hnd & Hk).
  apply (in_values _ _ Hnd) in Hin as (u & Hu). pose proof (Hk u t Hu) as Hid.
  destruct (pass1_spec (categorySubscribers re cats)) as (Hnd1 & Hget1 & _).
  destruct (Js.truthy bookId).
  - split; [reflexivity |].
    destruct (pass2_spec (bookSubscribers (Js.interpolate bookId) books) _ Hnd1)
      as (_ & Hget2 & _).
    destruct (Hget2 u t Hu) as [[Hm _] | (sub & Hsub & Hsu & _)].
    + destruct (Hget1 u t Hm) as (c & _ & _ & ->). discriminate Hf.
    + apply in_bookSubscribers in Hsub as (? & ? & ?). exists sub.
      repeat split; auto. congruence.
  - destruct (Hget1 u t Hu) as (c & _ & _ & ->). discriminate Hf.
Qed.

End ResolverFacts.

(** ** The notification fan-out *)

Section FanOutFacts.

Import SubscriptionController NotificationDbController EventHandlers.


Lemma in_created fresh d subscribers n :
  In n (imap (notificationFor fresh d) subscribers) ->
  exists t, In t subscribers
            /\ Notification.userId n = TargetedSubscriber.userId t
            /\ Notification.userEmail n = TargetedSubscriber.userEmail t.
Proof.
  intros Hin. apply list_elem_of_In, elem_of_lookup_imap in Hin as (i & t & -> & Ht).
  exists t. split; [| split; reflexivity].
  apply list_elem_of_In, list_elem_of_lookup. eauto.
Qed.

(** *** The bulk write *)

(** Whatever happens, what the write leaves is the collection followed
    by the first documents of the batch. *)
Lemma insertOrdered_prefix docs col :
  exists k, snd (Notification.insertOrdered docs col) = col ++ take k docs.
Proof.
  revert col. induction docs as [| d docs IH]; intros col; simpl.
  - exists 0%nat. now rewrite app_nil_r.
  - destruct (Notification.taken col d).
    + exists 0%nat. now rewrite app_nil_r.
    + destruct (IH (col ++ [d])) as [k Hk]. exists (S k).
      rewrite Hk, <- app_assoc. reflexivity.
Qed.

Lemma insertMany_prefix docs col :
  exists k, snd (Notification.insertMany docs col) = col ++ take k docs.
Proof.
  unfold Notification.insertMany. destruct (forallb Notification.validate docs).
  - apply insertOrdered_prefix.
  - exists 0%nat. now rewrite app_nil_r.
Qed.

Lemma createBatchNotifications_prefix fresh subscribers d col :
  exists k, snd (createBatchNotifications fresh subscribers d col)
            = col ++ take k (documents fresh subscribers d).
Proof.
  unfold createBatchNotifications.
  destruct (insertMany_prefix (documents fresh subscribers d) col) as [k Hk].
  exists k. destruct (Notification.insertMany _ col) as [[] col']; exact Hk.
Qed.

Lemma taken_false col d :
  Notification.taken col d = false <->
  forall x, In x col -> Notification.notificationId x <> Notification.notificationId d.
Proof.
  unfold Notification.taken. induction col as [| y col IH]; simpl.
  - split; [intros _ x [] | reflexivity].
  - rewrite orb_false_iff, IH. split.
    + intros [Hy Hc] x [<- | Hx]; [now apply String.eqb_neq | now apply Hc].
    + intros H. split; [apply String.eqb_neq; apply H; auto | intros x Hx; apply H; auto].
Qed.

(** Identifiers that differ from each other and from those in use are
    all written. *)
Lemma insertOrdered_fresh docs col :
  NoDup (map Notification.notificationId docs) ->
  (forall d x, In d docs -> In x col ->
               Notification.notificationId x <> Notification.notificationId d) ->
  Notification.insertOrdered docs col = (true, col ++ docs).
Proof.
  revert col. induction docs as [| d docs IH]; intros col Hnd Hnew; simpl.
  - now rewrite app_nil_r.
  - apply NoDup_cons in Hnd as [Hd Hnd].
    assert (Notification.taken col d = false) as ->.
    { apply taken_false. intros x Hx. apply (Hnew d x); simpl; auto. }
    rewrite IH, <- app_assoc; [reflexivity | exact Hnd |].
    intros d' x Hd' Hx. apply in_app_iff in Hx as [Hx | [<- | []]].
    + apply (Hnew d' x); simpl; auto.
    + intros E. apply Hd. rewrite list_elem_of_In, E. now apply in_map.
Qed.

Lemma documents_ids fresh d subscribers :
  map Notification.notificationId (documents fresh subscribers d)
  = map (fun i => "NOTIF-" +:+ fresh i) (seq 0 (List.length subscribers)).
Proof.
  unfold documents. revert fresh.
  induction subscribers as [| t subscribers IH]; intros fresh; [reflexivity |].
  rewrite imap_cons. cbn [map List.length seq notificationFor Notification.notificationId].
  f_equal. etrans; [exact (IH (fresh ∘ S)) |].
  now rewrite <- seq_shift, map_map.
Qed.

Lemma prefixed_inj a b : "NOTIF-" +:+ a = "NOTIF-" +:+ b -> a = b.
Proof. intros H. now injection H. Qed.

Lemma documents_written fresh d subscribers col :
  freshIds fresh (List.length subscribers) col ->
  Notification.insertOrdered (documents fresh subscribers d) col
  = (true, col ++ documents fresh subscribers d).
Proof.
  intros [Hinj Hnew]. apply insertOrdered_fresh.
  - rewrite documents_ids. apply NoDup_ListNoDup, Finite.Injective_map_NoDup_in.
    + intros i j Hi Hj E. apply in_seq in Hi, Hj.
      apply Hinj; [lia | lia | now apply prefixed_inj].
    + apply seq_NoDup.
  - intros x y Hx Hy.
    assert (Hid : In (Notification.notificationId x)
                     (map Notification.notificationId (documents fresh subscribers d)))
      by now apply in_map.
    rewrite documents_ids in Hid. apply in_map_iff in Hid as (i & <- & Hi).
    apply in_seq in Hi. apply Hnew; [lia | exact Hy].
Qed.

Lemma nonempty_app a s t : String.eqb (String a s +:+ t) "" = false.
Proof. reflexivity. Qed.

Lemma documents_valid fresh (d : NotificationData) subscribers :
  addressed subscribers ->
  String.eqb (NotificationDbController.title d) "" = false ->
  String.eqb (NotificationDbController.message d) "" = false ->
  forallb Notification.validate (documents fresh subscribers d) = true.
Proof.
  intros Hsub Ht Hm. apply forallb_forall. intros n Hn.
  apply list_elem_of_In, elem_of_lookup_imap in Hn as (i & t & -> & Hi).
  assert (Hin : In t subscribers)
    by (apply list_elem_of_In, list_elem_of_lookup; eauto).
  destruct (Hsub t Hin) as [Hu He].
  unfold Notification.validate, notificationFor.
  cbn [Notification.notificationId Notification.userId Notification.userEmail
       Notification.title Notification.message].
  rewrite Ht, Hm. apply String.eqb_neq in Hu, He. rewrite Hu, He.
  reflexivity.
Qed.

(** A batch for addressed subscribers, under fresh identifiers, is
    written whole. *)
Lemma createBatchNotifications_written fresh subscribers (d : NotificationData) col :
  addressed subscribers -> freshIds fresh (List.length subscribers) col ->
  String.eqb (NotificationDbController.title d) "" = false ->
  String.eqb (NotificationDbController.message d) "" = false ->
  createBatchNotifications fresh subscribers d col
  = (documents fresh subscribers d, col ++ documents fresh subscribers d).
Proof.
  intros Hsub Hfresh Ht Hm. unfold createBatchNotifications, Notification.insertMany.
  rewrite (documents_valid _ _ _ Hsub Ht Hm), (documents_written _ _ _ _ Hfresh).
  reflexivity.
Qed.

(** An identifier drawn twice stops the write at its second use: the
    first document stays in the collection and the call returns
    nothing. *)
Example batch_with_repeated_identifier :
  let ann := TargetedSubscriber.mk "u1" "ann@lib.org" "Ann" TargetedSubscriber.category
               (Some "c1") (Some "Science") None None in
  let bob := TargetedSubscriber.mk "u2" "bob@lib.org" "Bob" TargetedSubscriber.category
               (Some "c1") (Some "Science") None None in
  let d := mkData Notification.BOOK_ADDED "New Book: Cosmos" "A new book" None None None
             None None None in
  let r := createBatchNotifications (fun _ => "1700000000000-9f1c2a3b") [ann; bob] d [] in
  fst r = [] /\ map Notification.userId (snd r) = ["u1"].
Proof. split; reflexivity. Qed.

Lemma bookAddedData_filled data :
  String.eqb (NotificationDbController.title (bookAddedData data)) "" = false
  /\ String.eqb (NotificationDbController.message (bookAddedData data)) "" = false.
Proof. split; reflexivity. Qed.

Lemma bookUpdatedData_filled data :
  String.eqb (NotificationDbController.title (bookUpdatedData data)) "" = false
  /\ String.eqb (NotificationDbController.message (bookUpdatedData data)) "" = false.
Proof. split; reflexivity. Qed.


(** [handleBookAdded] on a resolver answer that is not empty. *)
Lemma handleBookAdded_run env svc data targets :
  getTargetedSubscribers (beyond env) (categorySubscriptions svc)
    (bookSubscriptions svc) (category data) (bookId data) = targets ->
  (1 <= List.length targets)%nat ->
  handleBookAdded env svc data
  = (mkService (categorySubscriptions svc) (bookSubscriptions svc)
       (snd (createBatchNotifications (fresh env) targets (bookAddedData data)
               (notifications svc)))
       (eventLog svc
          ++ [BookAddedProcessed data (List.length targets)
                (fst (sendAll env data targets))]),
     InsertMany (documents (fresh env) targets (bookAddedData data))
       :: snd (sendAll env data targets)).
Proof.
  intros Htargets Hlen. unfold handleBookAdded. rewrite Htargets.
  destruct targets as [| t targets']; [simpl in Hlen; lia |].
  destruct (createBatchNotifications _ _ _ _) as [created col'].
  now destruct (sendAll env data (t :: targets')).
Qed.



(** [handleBookUpdated] when somebody follows the book. *)
Lemma handleBookUpdated_run env svc data followers :
  List.filter TargetedSubscriber.followsBook
    (getTargetedSubscribers (beyond env) (categorySubscriptions svc)
       (bookSubscriptions svc) (Some (Js.or_else (category data) "")) (bookId data))
  = followers ->
  notifications (fst (handleBookUpdated env svc data))
  = snd (createBatchNotifications (fresh env) followers (bookUpdatedData data)
           (notifications svc)).
Proof.
  intros Hf. unfold handleBookUpdated. rewrite Hf.
  destruct followers as [| t ts].
  - unfold createBatchNotifications. reflexivity.
  - now destruct (createBatchNotifications _ _ _ _).
Qed.

(** C10.  For a [BOOK_UPDATED] event the handler builds one
    notification per resolved target of type [book] or [both], and
    nothing else, and what it appends to the collection is a first part
    of them: all of them when these targets have a [userId] and a
    [userEmail] and the identifiers drawn are new.  Every notification
    built is addressed to such a target; a user without an active
    subscription to the book gets none, whatever the user's category
    subscriptions; and when no target follows the book the service is
    left as it was and nothing is written. *)
Theorem book_updated_only_followers env svc data :
  let targets :=
    getTargetedSubscribers (beyond env) (categorySubscriptions svc)
      (bookSubscriptions svc) (Some (Js.or_else (category data) "")) (bookId data) in
  let r := handleBookUpdated env svc data in
  let followers := List.filter TargetedSubscriber.followsBook targets in
  let created := imap (notificationFor (fresh env) (bookUpdatedData data)) followers in
  ((exists k, notifications (fst r) = notifications svc ++ take k created)
   /\ (forall n, In n (notifications (fst r)) ->
                 In n (notifications svc) \/ In n created)
   /\ (addressed followers ->
       freshIds (fresh env) (List.length followers) (notifications svc) ->
       notifications (fst r) = notifications svc ++ created))
  /\ (forall n, In n created ->
                exists t, In t targets
                          /\ (TargetedSubscriber.subscriptionType t = TargetedSubscriber.book
                              \/ TargetedSubscriber.subscriptionType t
                                 = TargetedSubscriber.both)
                          /\ Notification.userId n = TargetedSubscriber.userId t
                          /\ Notification.userEmail n = TargetedSubscriber.userEmail t)
  /\ (forall u,
         (forall sub, In sub (bookSubscriptions svc) ->
                      BookSubscription.userId sub = u ->
                      BookSubscription.bookId sub = Js.interpolate (bookId data) ->
                      BookSubscription.isActive sub = false) ->
         forall n, In n created -> Notification.userId n <> u)
  /\ ((forall t, In t targets ->
                 TargetedSubscriber.subscriptionType t = TargetedSubscriber.category) ->
      fst r = svc /\ snd r = [] /\ created = [])
  /\ ((forall sub, In sub (bookSubscriptions svc) ->
                   BookSubscription.bookId sub = Js.interpolate (bookId data) ->
                   BookSubscription.isActive sub = false) ->
      fst r = svc /\ snd r = [] /\ created = []).
Proof.
  intros targets r followers created.
  assert (Hfollow : forall t, TargetedSubscriber.followsBook t = true <->
                              TargetedSubscriber.subscriptionType t = TargetedSubscriber.book
                              \/ TargetedSubscriber.subscriptionType t
                                 = TargetedSubscriber.both).
  { intros t. unfold TargetedSubscriber.followsBook.
    destruct (TargetedSubscriber.subscriptionType t); split; intros H;
      try reflexivity; try discriminate; auto; destruct H; discriminate. }
  assert (Hcreated : forall n, In n created ->
                               exists t, In t targets
                                         /\ TargetedSubscriber.followsBook t = true
                                         /\ Notification.userId n = TargetedSubscriber.userId t
                                         /\ Notification.userEmail n
                                            = TargetedSubscriber.userEmail t).
  { intros n Hn. apply in_created in Hn as (t & Ht & ? & ?).
    apply filter_In in Ht as [? ?]. eauto. }
  assert (Hquiet : (forall t, In t targets ->
                               TargetedSubscriber.subscriptionType t
                               = TargetedSubscriber.category) ->
                    fst r = svc /\ snd r = [] /\ created = []).
  { intros Hall.
    assert (Hnone : followers = []).
    { subst followers. clear -Hall. induction targets as [| t ts IH]; simpl; [reflexivity |].
      unfold TargetedSubscriber.followsBook at 1.
      rewrite (Hall t) by (simpl; auto). apply IH. intros t' Ht'. apply Hall.
      simpl. auto. }
    subst r created. rewrite Hnone. unfold handleBookUpdated. fold targets.
    fold followers. now rewrite Hnone. }
  assert (Hrun : notifications (fst r)
                 = snd (createBatchNotifications (fresh env) followers
                          (bookUpdatedData data) (notifications svc)))
    by (apply handleBookUpdated_run; reflexivity).
  assert (Hprefix : exists k, notifications (fst r) = notifications svc ++ take k created).
  { rewrite Hrun. apply createBatchNotifications_prefix. }
  split; [| split; [| split; [| split] ] ].
  - split; [exact Hprefix |]. split.
    + destruct Hprefix as [k ->]. intros n Hn.
      apply in_app_iff in Hn as [Hn | Hn]; [now left | right].
      apply list_elem_of_In. eapply subseteq_take. apply list_elem_of_In. exact Hn.
    + intros Hsub Hfresh. rewrite Hrun.
      rewrite (createBatchNotifications_written _ _ _ _ Hsub Hfresh);
        [reflexivity | apply bookUpdatedData_filled ..].
  - intros n Hn. destruct (Hcreated n Hn) as (t & ? & Hf & ? & ?).
    exists t. rewrite <- Hfollow. auto.
  - intros u Hu n Hn Hnu. destruct (Hcreated n Hn) as (t & Ht & Hf & Hid & _).
    destruct (follower_has_row _ _ _ _ _ _ Ht Hf) as (_ & sub & Hsub & Hsu & Hsb & Ha).
    rewrite (Hu sub Hsub) in Ha; [discriminate | congruence | exact Hsb].
  - exact Hquiet.
  - intros Hnone. apply Hquiet. intros t Ht.
    destruct (TargetedSubscriber.subscriptionType t) eqn:Hty; [reflexivity | |];
      (assert (Hf : TargetedSubscriber.followsBook t = true)
         by (unfold TargetedSubscriber.followsBook; now rewrite Hty));
      destruct (follower_has_row _ _ _ _ _ _ Ht Hf) as (_ & sub & Hsub & _ & Hsb & Ha);
      rewrite (Hnone sub Hsub Hsb) in Ha; discriminate.
Qed.

Lemma book_updated_only_followers_witness :
  let ann := CategorySubscription.mk "u1" "ann@lib.org" "Ann" "c1" "Science" true 0 in
  let bob := BookSubscription.mk "u2" "bob@lib.org" "Bob" "b1" "Cosmos" "Science" true 0 in
  let svc := mkService [ann] [bob] [] [] in
  let data := mkBookData (Some "b1") (Some "Cosmos") (Some "Carl Sagan")
                (Some "Science") None in
  let env := mkEnv (fun _ => None) (fun _ => "1700000000000-9f1c2a3b") None in
  let created :=
    imap (notificationFor (fresh env) (bookUpdatedData data))
      (List.filter TargetedSubscriber.followsBook
         (getTargetedSubscribers (beyond env) (categorySubscriptions svc)
            (bookSubscriptions svc) (Some (Js.or_else (category data) ""))
            (bookId data))) in
  map Notification.userId created = ["u2"]
  /\ map Notification.userId (notifications (fst (handleBookUpdated env svc data)))
     = ["u2"]
  /\ forall n, In n created -> Notification.userId n <> "u1".
Proof.
  intros ann bob svc data env created. split; [vm_compute; reflexivity |].
  split; [vm_compute; reflexivity |].
  destruct (book_updated_only_followers env svc data) as (_ & _ & H & _ & _).
  apply (H "u1"). intros sub [<- | []] Hu. discriminate Hu.
Defined.

End FanOutFacts.

(** ** The borrow service under a broker outage *)

Section PublisherFacts.

Import EventPublisher BorrowController.

Lemma publish_unavailable p t data w :
  unavailable p -> publishBookBorrowed p t data w = (Eff.Ok false, w).
Proof.
  unfold unavailable, publishBookBorrowed.
  destruct p as [[[|] |] [|]]; simpl; intros [H | [H | H]];
    try discriminate; reflexivity.
Qed.

(** A record whose [_id] is not in use is appended. *)
Lemma insert_fresh borrow col w :
  (forall d, In d col -> Borrow._id d <> Borrow._id borrow) ->
  insert borrow col w = (Eff.Ok tt, Eff.mkWorld (col ++ [borrow]) (Eff.channels w)).
Proof.
  intros Hnew. unfold insert.
  assert (existsb (fun d => String.eqb (Borrow._id d) (Borrow._id borrow)) col = false)
    as ->; [| reflexivity].
  induction col as [| d col IH]; simpl; [reflexivity |].
  rewrite IH by (intros d' Hd'; apply Hnew; simpl; auto).
  rewrite orb_false_r. apply String.eqb_neq, Hnew. simpl. auto.
Qed.

Lemma insert_taken borrow col w :
  (exists d, In d col /\ Borrow._id d = Borrow._id borrow) ->
  insert borrow col w = (Eff.Throw "E11000 duplicate key error", w).
Proof.
  intros (d & Hd & E). unfold insert.
  assert (existsb (fun d => String.eqb (Borrow._id d) (Borrow._id borrow)) col = true)
    as ->; [| reflexivity].
  apply existsb_exists. exists d. split; [exact Hd | now apply String.eqb_eq].
Qed.

(** C8.  With the broker unreachable at publish time (the flag down,
    no client, or a client whose connection is closed),
    [publishBookBorrowed] returns [false] without throwing and hands
    nothing to any channel; and a borrow request that passes
    validation, e-mail verification and the duplicate check, and whose
    record is created (its due date is a date and its [_id] is not in
    use), still ends with the record appended to the collection and the
    201 response, whatever the book service answers, and with every
    channel as it was. *)
Theorem borrow_survives_broker_outage env body w u b e due :
  Js.present (userId body) = Some u ->
  Js.present (bookId body) = Some b ->
  Js.present (email body) = Some e ->
  verifyEmail env e = Eff.Ok tt ->
  Borrow.findOne u b (Eff.borrows w) = None ->
  setDate env (now env) (duration (borrowDuration body)) = Some due ->
  (forall d, In d (Eff.borrows w) -> Borrow._id d <> objectId env) ->
  unavailable (publisher env) ->
  (forall data w', publishBookBorrowed (publisher env) (now env) data w'
                   = (Eff.Ok false, w'))
  /\ exists borrow,
       borrowBook env body w
       = (Eff.Ok (Http.mk 201 true "Book borrowed successfully" (Some borrow)),
          Eff.mkWorld (Eff.borrows w ++ [borrow]) (Eff.channels w))
       /\ Borrow.userId borrow = u /\ Borrow.bookId borrow = b
       /\ Borrow.status borrow = Borrow.BORROWED
       /\ Borrow._id borrow = objectId env
       /\ Borrow.dueDate borrow = due.
Proof.
  intros Hu Hb He Hverify Hfree Hdue Hnew Hdown.
  split; [intros data w'; now apply publish_unavailable |].
  eexists. split.
  - unfold borrowBook, Eff.try_catch at 1. unfold Eff.bind at 1.
    rewrite Hu, Hb, He. unfold Eff.try_catch at 1, Eff.bind at 1, Eff.call.
    rewrite Hverify. unfold Eff.ret at 1. unfold Eff.bind at 1, Eff.get_borrows.
    rewrite Hfree, Hdue. unfold Eff.bind at 1.
    rewrite insert_fresh by exact Hnew.
    unfold Eff.bind, Eff.try_catch, Eff.call, Eff.ret.
    destruct (getBook env b) as [[title |] | err];
      rewrite (publish_unavailable _ _ _ _ Hdown); reflexivity.
  - repeat split.
Qed.

Lemma borrow_survives_broker_outage_witness :
  let env := mkEnv 1700000000000 (fun _ => Eff.Ok tt)
               (fun _ => Eff.Throw "Book Service is unavailable")
               (mkPublisher None false)
               "65a1f0c2e4b0a1b2c3d4e5f6"
               (fun t n => Some (t + n * 86400000)) (fun s => s) Some in
  let body := mkBody (Some "u1") (Some "b1") (Some "Ann@Lib.org") None (Some 7) in
  let w := Eff.mkWorld [] [] in
  unavailable (publisher env)
  /\ exists borrow,
       borrowBook env body w
       = (Eff.Ok (Http.mk 201 true "Book borrowed successfully" (Some borrow)),
          Eff.mkWorld [borrow] [])
       /\ Borrow.email borrow = "ann@lib.org"
       /\ Borrow.dueDate borrow = 1700604800000.
Proof.
  intros env body w.
  assert (Hdown : unavailable (publisher env)) by (left; reflexivity).
  split; [exact Hdown |].
  destruct (borrow_survives_broker_outage env body w "u1" "b1" "Ann@Lib.org"
              1700604800000 eq_refl eq_refl eq_refl eq_refl eq_refl eq_refl
              (fun d (H : In d []) => match H with end) Hdown)
    as (_ & borrow & Hrun & _).
  exists borrow. split; [exact Hrun |].
  vm_compute in Hrun. injection Hrun as <-. split; reflexivity.
Defined.

End PublisherFacts.

(** ** The resolver on category names that are patterns *)

Section PatternFacts.

Import SubscriptionController.

Lemma filter_by_user (l : list TargetedSubscriber.t) t :
  NoDup (map TargetedSubscriber.userId l) -> In t l ->
  List.filter
    (fun x => String.eqb (TargetedSubscriber.userId x) (TargetedSubscriber.userId t)) l
  = [t].
Proof.
  induction l as [| x l IH]; simpl; [tauto |].
  intros Hnd Hin. apply NoDup_cons in Hnd as [Hx Hnd].
  assert (Hother : forall y, In y l ->
                             TargetedSubscriber.userId y <> TargetedSubscriber.userId x).
  { intros y Hy Heq. apply Hx. rewrite <- Heq. apply list_elem_of_In, in_map. exact Hy. }
  destruct Hin as [-> | Hin].
  - rewrite String.eqb_refl. f_equal.
    clear -Hother. induction l as [| y l IH]; simpl; [reflexivity |].
    destruct (String.eqb_spec (TargetedSubscriber.userId y) (TargetedSubscriber.userId t))
      as [Heq | _].
    + exfalso. apply (Hother y); simpl; auto.
    + apply IH. intros z Hz. apply Hother. simpl. auto.
  - destruct (String.eqb_spec (TargetedSubscriber.userId x) (TargetedSubscriber.userId t))
      as [Heq | _].
    + exfalso. apply (Hother t Hin). congruence.
    + now apply IH.
Qed.

(** The deduplication itself: once the pattern has compiled and the
    first [find] has returned a row of the user, the output has exactly
    one entry for the user; it is of type [both], with the book's
    fields, when the user has an active row for the book, and of type
    [category] when the user has none. *)
Lemma resolver_dedup beyond cats books categoryName bookId re csub :
  RegExp beyond ("^" +:+ Js.interpolate categoryName +:+ "$") = Some re ->
  In csub cats -> CategorySubscription.isActive csub = true ->
  re (CategorySubscription.categoryName csub) = true ->
  let u := CategorySubscription.userId csub in
  let output := getTargetedSubscribers beyond cats books categoryName bookId in
  let entries :=
    List.filter (fun x => String.eqb (TargetedSubscriber.userId x) u) output in
  (forall bsub,
      Js.truthy bookId = true -> In bsub books ->
      BookSubscription.userId bsub = u ->
      BookSubscription.bookId bsub = Js.interpolate bookId ->
      BookSubscription.isActive bsub = true ->
      exists t row,
        entries = [t]
        /\ TargetedSubscriber.subscriptionType t = TargetedSubscriber.both
        /\ TargetedSubscriber.bookId t = Some (Js.interpolate bookId)
        /\ In row books /\ BookSubscription.userId row = u
        /\ BookSubscription.bookId row = Js.interpolate bookId
        /\ TargetedSubscriber.bookTitle t = Some (BookSubscription.bookTitle row))
  /\ ((forall bsub,
          In bsub books -> BookSubscription.userId bsub = u ->
          BookSubscription.bookId bsub = Js.interpolate bookId ->
          BookSubscription.isActive bsub = false) ->
      exists t,
        entries = [t]
        /\ TargetedSubscriber.subscriptionType t = TargetedSubscriber.category).
Proof.
  intros Hre Hin Hact Hmatch u output entries.
  assert (Hc : In csub (categorySubscribers re cats))
    by (apply in_categorySubscribers; auto).
  destruct (pass1_spec (categorySubscribers re cats)) as (Hnd1 & Hget1 & Hin1).
  destruct (Hin1 csub Hc) as (v1 & Hv1). fold u in Hv1.
  destruct (pass2_spec (bookSubscribers (Js.interpolate bookId) books) _ Hnd1)
    as (Hnd2 & Hget2 & Hkeep2).
  destruct (resolver_map_wf re cats books bookId) as (Hnd & Hk).
  pose proof (resolver_NoDup beyond cats books categoryName bookId) as Hnodup.
  assert (Hentry : forall t,
             JsMap.get u
               (if Js.truthy bookId
                then pass2 (bookSubscribers (Js.interpolate bookId) books)
                       (pass1 (categorySubscribers re cats))
                else pass1 (categorySubscribers re cats)) = Some t ->
             entries = [t]).
  { intros t Ht. subst entries output. rewrite <- (Hk u t Ht).
    apply filter_by_user; [exact Hnodup |].
    rewrite (resolver_values _ _ _ _ _ _ Hre). apply (in_values _ _ Hnd). eauto. }
  split.
  - intros bsub Htruthy Hb Hbu Hbb Hba. rewrite Htruthy in Hentry.
    assert (Hsome : JsMap.get u (pass2 (bookSubscribers (Js.interpolate bookId) books)
                                   (pass1 (categorySubscribers re cats))) <> None)
      by (apply Hkeep2; congruence).
    destruct (JsMap.get u _) as [t |] eqn:Ht in Hsome; [| congruence].
    destruct (Hget2 u t Ht) as [[_ Hno] | (row & Hrow & Hru & _ & Hbid & Htitle & _ & Hboth)].
    + exfalso. apply (Hno bsub); [apply in_bookSubscribers; auto | exact Hbu].
    + apply in_bookSubscribers in Hrow as (Hrow & Hrb & _).
      exists t, row. split; [now apply Hentry |].
      split; [apply Hboth; congruence |].
      split; [congruence |]. auto.
  - intros Hnone. destruct (Js.truthy bookId).
    + assert (Hsome : JsMap.get u (pass2 (bookSubscribers (Js.interpolate bookId) books)
                                     (pass1 (categorySubscribers re cats))) <> None)
        by (apply Hkeep2; congruence).
      destruct (JsMap.get u _) as [t |] eqn:Ht in Hsome; [| congruence].
      exists t. split; [now apply Hentry |].
      destruct (Hget2 u t Ht) as [[Hm _] | (row & Hrow & Hru & _)].
      * destruct (Hget1 u t Hm) as (c & _ & _ & ->). reflexivity.
      * apply in_bookSubscribers in Hrow as (Hrow & Hrb & Hra).
        rewrite (Hnone row Hrow Hru Hrb) in Hra. discriminate.
    + exists v1. split; [now apply Hentry |].
      destruct (Hget1 u v1 Hv1) as (c & _ & _ & ->). reflexivity.
Qed.

(** C1 at a failing input.  A user holds an active subscription to the
    category named [C++] and an active subscription to the book [b1];
    the pattern built from the name does not compile, so the resolver
    returns no entry at all, for [b1] and for any other book: the user
    has neither the [both] entry nor the [category] entry. *)
Theorem resolver_loses_pattern_category (beyond : Engine) :
  let cats := [CategorySubscription.mk "u1" "ann@lib.org" "Ann" "c1" "C++" true 0] in
  let books := [BookSubscription.mk "u1" "ann@lib.org" "Ann" "b1"
                  "The C++ Programming Language" "C++" true 0] in
  Regex.parse "^C++$" = Regex.SyntaxError
  /\ getTargetedSubscribers beyond cats books (Some "C++") (Some "b1") = []
  /\ getTargetedSubscribers beyond cats books (Some "C++") (Some "b2") = [].
Proof. repeat split. Qed.

(** C7 at failing inputs.  The query [Sci.Fi] selects the subscriber of
    the category [Sci-Fi], a name that differs from it by more than
    letter case; the query [Science (Physics)] misses the subscriber of
    the category of that very name; and the query [C++] compiles to no
    pattern, so that the subscriber of [C++] is missed too. *)
Theorem resolver_matches_by_pattern (beyond : Engine) :
  let dash := CategorySubscription.mk "u1" "ann@lib.org" "Ann" "c1" "Sci-Fi" true 0 in
  let paren := CategorySubscription.mk "u2" "bob@lib.org" "Bob" "c2"
                 "Science (Physics)" true 0 in
  let plus := CategorySubscription.mk "u3" "eve@lib.org" "Eve" "c3" "C++" true 0 in
  let cats := [dash; paren; plus] in
  (getTargetedSubscribers beyond cats [] (Some "Sci.Fi") None = [fromCategory dash]
   /\ Regex.eq_nocase "Sci.Fi" "Sci-Fi" = false)
  /\ (getTargetedSubscribers beyond cats [] (Some "Science (Physics)") None = []
      /\ Regex.eq_nocase "Science (Physics)" "Science (Physics)" = true)
  /\ (getTargetedSubscribers beyond cats [] (Some "C++") None = []
      /\ Regex.eq_nocase "C++" "C++" = true).
Proof. repeat split; vm_compute; reflexivity. Qed.

End PatternFacts.

(** ** Patterns read from plain names *)

Section RegexFacts.

Import Regex.

Lemma void_dead r :
  void r = true ->
  forall bol, (forall eol, nullable bol eol r = false)
              /\ forall c, void (deriv bol c r) = true.
Proof.
  induction r as [| | a | | | | r1 IH1 r2 IH2 | r1 IH1 r2 IH2 | r IH]; simpl;
    try discriminate; intros Hv bol.
  - auto.
  - destruct (IH1 Hv bol) as [Hn Hd]. split.
    + intros eol. now rewrite Hn.
    + intros c. simpl. rewrite Hd, Hn. reflexivity.
  - apply andb_true_iff in Hv as [Hv1 Hv2].
    destruct (IH1 Hv1 bol) as [Hn1 Hd1], (IH2 Hv2 bol) as [Hn2 Hd2]. split.
    + intros eol. now rewrite Hn1, Hn2.
    + intros c. simpl. now rewrite Hd1, Hd2.
Qed.

Lemma match_void s : forall bol r, void r = true -> match_here bol r s = false.
Proof.
  induction s as [| c s IH]; intros bol r Hv; simpl;
    destruct (void_dead r Hv bol) as [Hn Hd].
  - apply Hn.
  - rewrite Hn. simpl. apply IH, Hd.
Qed.

Lemma match_alt s :
  forall bol r1 r2,
    match_here bol (Alt r1 r2) s = match_here bol r1 s || match_here bol r2 s.
Proof.
  induction s as [| c s IH]; intros bol r1 r2; simpl; [reflexivity |].
  rewrite IH. destruct (nullable bol false r1), (nullable bol false r2),
    (match_here false (deriv bol c r1) s); reflexivity.
Qed.

Lemma match_seq_eps bol r s : match_here bol (Seq Eps r) s = match_here bol r s.
Proof.
  destruct s as [| c s]; simpl; [reflexivity |].
  now rewrite match_alt, (match_void s false (Seq Fail r) eq_refl).
Qed.

(** The end of the subject, and nothing after it. *)
Lemma match_end bol s :
  match_here bol (Seq Eol Eps) s = match s with EmptyString => true | _ => false end.
Proof.
  destruct s as [| c s]; simpl; [reflexivity |].
  rewrite match_alt, !match_void; reflexivity.
Qed.

(** A literal pattern closed by [$] accepts exactly the subjects equal
    to the name up to letter case. *)
Lemma match_literal name :
  forall bol s, match_here bol (literal name (Seq Eol Eps)) s = eq_nocase name s.
Proof.
  induction name as [| a name IH]; intros bol s.
  - simpl literal. rewrite match_end. now destruct s.
  - destruct s as [| c s]; simpl; [reflexivity |].
    rewrite match_alt, (match_void s false Fail eq_refl), orb_false_r.
    destruct (same_char a c); simpl.
    + rewrite match_seq_eps. apply IH.
    + apply match_void. reflexivity.
Qed.

Lemma search_anchored r s : search (Seq Bol r) s = match_here true r s.
Proof.
  unfold search.
  assert (Hlater : forall s', match_later (Seq Bol r) s' = false).
  { induction s' as [| c s' IH]; simpl; [reflexivity |]. rewrite IH, orb_false_r.
    destruct s' as [| c' s']; simpl; [reflexivity |].
    apply match_void. reflexivity. }
  rewrite Hlater, orb_false_r.
  destruct s as [| c s]; simpl; [reflexivity |].
  rewrite match_alt, (match_void s false (Seq Fail r) eq_refl). reflexivity.
Qed.

Lemma plain_char c :
  is_syntax c = false ->
  forall p cur stack, scan (String c p) cur stack = scan p (push_atom (Chr c) cur) stack.
Proof.
  unfold is_syntax. intros H p cur stack.
  repeat (apply orb_false_iff in H as [H ?]). simpl.
  repeat match goal with
         | Hc : ?t = false |- context [if ?t then _ else _] => rewrite Hc
         end.
  reflexivity.
Qed.

Lemma scan_plain name :
  plain name = true ->
  forall rest a ts q0 stack,
    exists q1,
      scan (name +:+ rest) (mkFrame a ts q0) stack
      = scan rest (mkFrame a (pushed name ts) q1) stack.
Proof.
  induction name as [| c name IH]; intros Hp rest a ts q0 stack.
  - now exists q0.
  - simpl in Hp. apply andb_true_iff in Hp as [Hc Hp]. apply negb_true_iff in Hc.
    change (String c name +:+ rest) with (String c (name +:+ rest)).
    rewrite (plain_char c Hc). unfold push_atom. simpl pushed.
    apply (IH Hp).
Qed.

Lemma fold_pushed name :
  forall ts k,
    fold_left (fun acc t => Seq t acc) (pushed name ts) k
    = fold_left (fun acc t => Seq t acc) ts (literal name k).
Proof.
  induction name as [| c name IH]; simpl; intros ts k; [reflexivity |].
  now rewrite IH.
Qed.

(** The pattern built from a plain name is the anchored literal. *)
Lemma parse_plain name :
  plain name = true ->
  parse ("^" +:+ name +:+ "$") = Compiled (Seq Bol (literal name (Seq Eol Eps))).
Proof.
  intros Hp. unfold parse.
  assert (Hhead : forall p cur stack,
             scan (String "^" p) cur stack = scan p (push_assertion Bol cur) stack)
    by reflexivity.
  assert (Htail : forall cur, scan "$" cur [] = Compiled (close (push_assertion Eol cur)))
    by reflexivity.
  change ("^" +:+ name +:+ "$") with (String "^" (name +:+ "$")).
  rewrite Hhead. unfold push_assertion at 1, start. simpl alts. simpl terms.
  destruct (scan_plain name Hp "$" [] [Bol] NoAtom []) as (q1 & ->).
  rewrite Htail. unfold close, seq_of, push_assertion. simpl alts. simpl terms.
  simpl fold_left at 1. cbn [fold_left]. now rewrite fold_pushed.
Qed.

(** On subjects of printable ASCII characters, the pattern built from
    a plain name tests equality up to letter case. *)
Lemma plain_pattern_exact beyond name :
  plain name = true ->
  exists re,
    SubscriptionController.RegExp beyond ("^" +:+ name +:+ "$") = Some re
    /\ forall s, printable s = true -> re s = eq_nocase name s.
Proof.
  intros Hp. unfold SubscriptionController.RegExp. rewrite (parse_plain name Hp).
  eexists. split; [reflexivity |]. intros s Hs. cbv beta. rewrite Hs.
  now rewrite search_anchored, match_literal.
Qed.

(** On a plain name, and stored names of printable ASCII characters,
    the first pass is the case-insensitive exact match: a user is in
    its output exactly when the user has an active row whose
    [categoryName] equals the name up to letter case. *)
Lemma resolver_exact_on_plain_names beyond cats name u :
  plain name = true ->
  (forall sub, In sub cats -> printable (CategorySubscription.categoryName sub) = true) ->
  (exists t,
      In t (SubscriptionController.getTargetedSubscribers beyond cats [] (Some name) None)
      /\ TargetedSubscriber.userId t = u)
  <-> (exists sub,
          In sub cats /\ CategorySubscription.userId sub = u
          /\ CategorySubscription.isActive sub = true
          /\ eq_nocase name (CategorySubscription.categoryName sub) = true).
Proof.
  intros Hp Hcats. destruct (plain_pattern_exact beyond name Hp) as (re & Hre & Hexact).
  rewrite (resolver_values beyond cats [] (Some name) None re Hre). simpl.
  destruct (pass1_spec (SubscriptionController.categorySubscribers re cats))
    as (Hnd & Hget & Hin).
  split.
  - intros (t & Ht & Hu). apply (in_values _ _ Hnd) in Ht as (k & Hk).
    destruct (Hget k t Hk) as (sub & Hsub & Hsu & ->).
    apply in_categorySubscribers in Hsub as (Hsub & Hm & ?).
    exists sub. rewrite <- Hexact by now apply Hcats. auto.
  - intros (sub & Hsub & Hu & Ha & Hm).
    assert (Hc : In sub (SubscriptionController.categorySubscribers re cats)).
    { apply in_categorySubscribers. rewrite Hexact by now apply Hcats. auto. }
    destruct (Hin sub Hc) as (t & Ht). exists t. split.
    + apply (in_values _ _ Hnd). eauto.
    + destruct (Hget _ t Ht) as (sub' & _ & Hsu' & ->). simpl. congruence.
Qed.

(** A subject with a character outside printable ASCII is left to the
    engine, whatever the pattern. *)
Example subject_beyond_ascii (beyond : SubscriptionController.Engine) test :
  beyond "^economie$" = Some test ->
  exists re,
    SubscriptionController.RegExp beyond "^economie$" = Some re
    /\ re "Economie" = true
    /\ re (String (ascii_of_nat 201) "conomie")
       = test (String (ascii_of_nat 201) "conomie").
Proof.
  intros Hb. unfold SubscriptionController.RegExp.
  destruct (parse "^economie$") as [r | |] eqn:Hp;
    [| vm_compute in Hp; discriminate Hp | vm_compute in Hp; discriminate Hp].
  eexists. split; [reflexivity |]. split.
  - vm_compute in Hp. injection Hp as <-. vm_compute. reflexivity.
  - cbv beta. change (printable (String (ascii_of_nat 201) "conomie")) with false.
    cbv iota. now rewrite Hb.
Qed.

(** The reader and the matcher on small patterns. *)
Example parse_errors :
  parse "^C++$" = SyntaxError /\ parse "^(a$" = SyntaxError
  /\ parse "^a)$" = SyntaxError /\ parse "^a???$" = SyntaxError
  /\ parse "^*$" = SyntaxError /\ parse "^(?:a)$" = Beyond
  /\ parse "^a\d$" = Beyond.
Proof. repeat split. Qed.

Example search_alternation :
  exists r, parse "^a|b$" = Compiled r
            /\ search r "abc" = true /\ search r "xxb" = true /\ search r "xa" = false.
Proof. eexists. split; [reflexivity |]. repeat split. Qed.

Example search_dot :
  exists r, parse "^Sci.Fi$" = Compiled r
            /\ search r "sci-fi" = true /\ search r "Sci.Fi" = true
            /\ search r "aSci.Fi" = false /\ search r "Sci.Fi2" = false.
Proof. eexists. split; [reflexivity |]. repeat split. Qed.

End RegexFacts.

(** ** The projector: frame, round trip and overlapping handlers *)

Section ProjectorMore.

Import Projector ProjectorSteps.

Implicit Types (books : gmap string Book.doc) (b : Book.doc).

Lemma handleBookBorrowed_dom books k :
  dom (fst (handleBookBorrowed books k)) = dom books.
Proof.
  destruct (books !! k) as [b |] eqn:Hb.
  - rewrite (handleBookBorrowed_found _ _ _ Hb). apply dom_insert_lookup_L. eauto.
  - now rewrite (proj1 (handle_not_found _ _ Hb)).
Qed.

Lemma handleBookReturned_dom books k :
  dom (fst (handleBookReturned books k)) = dom books.
Proof.
  destruct (books !! k) as [b |] eqn:Hb.
  - rewrite (handleBookReturned_found _ _ _ Hb). apply dom_insert_lookup_L. eauto.
  - now rewrite (proj2 (handle_not_found _ _ Hb)).
Qed.

(** X1.  A message changes at most the document of its own book: the
    documents of the other books are left as they are, and no book is
    added to or removed from the collection. *)
Theorem event_touches_only_its_book books e k :
  (match e with BookBorrowed id | BookReturned id => id end) <> k ->
  handle books e !! k = books !! k /\ dom (handle books e) = dom books.
Proof.
  intros Hne. destruct e as [id | id]; simpl.
  - split; [now apply handleBookBorrowed_other | apply handleBookBorrowed_dom].
  - split; [now apply handleBookReturned_other | apply handleBookReturned_dom].
Qed.

Lemma event_touches_only_its_book_witness :
  let books : gmap string Book.doc :=
    {[ "X" := Book.make "Cosmos" "Science" 3 1 Book.available ]} in
  "Y" <> "X"
  /\ handle books (BookBorrowed "Y") !! "X" = books !! "X"
  /\ dom (handle books (BookBorrowed "Y")) = dom books.
Proof.
  intros books. assert (H : "Y" <> "X") by discriminate.
  split; [exact H |].
  exact (event_touches_only_its_book books (BookBorrowed "Y") "X" H).
Defined.

Lemma safe_between t n : Number.safe t -> 0 <= n <= t -> Number.safe n.
Proof. unfold Number.safe. lia. Qed.

Lemma borrowed_then_returned books id b a t :
  books !! id = Some b -> counts a t b -> Number.safe t -> 0 < a <= t ->
  handle (handle books (BookBorrowed id)) (BookReturned id)
  = <[id := Book.set_status Book.available b]> books.
Proof.
  intros Hb Hc Ht Ha.
  assert (Hsa : Number.safe a) by (apply (safe_between t); [assumption | lia]).
  simpl. rewrite (handleBookBorrowed_found _ _ _ Hb).
  rewrite (handleBookReturned_found _ _ (borrowed b)) by apply lookup_insert_eq.
  rewrite insert_insert_eq. f_equal.
  pose proof (borrowed_counts a t b Hc Hsa Ht) as EB.
  assert ((a <=? 0) = false) as E0 by (apply Z.leb_gt; lia). rewrite E0 in EB.
  assert (Hc1 : counts (a - 1) t (borrowed b)) by (rewrite EB; split; reflexivity).
  assert (Ha1 : Number.safe (a - 1)) by (apply (safe_between t); [assumption | lia]).
  rewrite (returned_counts (a - 1) t _ Hc1 Ha1 Ht).
  cbn zeta.
  assert ((a - 1 <? t) = true) as -> by (apply Z.ltb_lt; lia).
  assert ((0 <? a - 1 + 1) = true) as -> by (apply Z.ltb_lt; lia).
  replace (a - 1 + 1) with a by lia. rewrite EB. destruct Hc as [Ea Et].
  unfold Book.set_status. cbn [Book.title Book.category]. now rewrite Ea, Et.
Qed.

(** X2.  [BookReturned] undoes [BookBorrowed]: for a book whose
    counters are integers up to [2^53], with a copy available and
    within its bounds, handling the two messages in this order leaves
    the count as it was and the status [available]; the rest of the
    collection is untouched. *)
Theorem borrow_then_return_restores books id b a t :
  books !! id = Some b -> counts a t b -> Number.safe t -> 0 < a <= t ->
  handle (handle books (BookBorrowed id)) (BookReturned id) !! id
  = Some (Book.set_status Book.available b)
  /\ (forall k, k <> id ->
                handle (handle books (BookBorrowed id)) (BookReturned id) !! k
                = books !! k).
Proof.
  intros Hb Hc Ht Ha. rewrite (borrowed_then_returned books id b a t Hb Hc Ht Ha). split.
  - apply lookup_insert_eq.
  - intros k Hk. now apply lookup_insert_ne.
Qed.

Lemma borrow_then_return_restores_witness :
  let b := Book.make "Cosmos" "Science" 3 1 Book.available in
  let books : gmap string Book.doc := {[ "X" := b ]} in
  books !! "X" = Some b
  /\ counts 1 3 b
  /\ handle (handle books (BookBorrowed "X")) (BookReturned "X") !! "X"
     = Some (Book.set_status Book.available b).
Proof.
  intros b books.
  assert (Hb : books !! "X" = Some b) by (vm_compute; reflexivity).
  assert (Hc : counts 1 3 b) by apply counts_make.
  assert (H3 : Number.safe 3) by (unfold Number.safe; lia).
  split; [exact Hb |]. split; [exact Hc |].
  assert (Hbd : 0 < 1 <= 3) by lia.
  exact (proj1 (borrow_then_return_restores books "X" b 1 3 Hb Hc H3 Hbd)).
Defined.

(** A handler is what it does after its first wait, applied to what
    that wait returned. *)
Lemma resumeBorrowed_handle books id :
  resumeBorrowed id (Book.findOne books id) books = fst (handleBookBorrowed books id).
Proof.
  unfold resumeBorrowed, handleBookBorrowed.
  repeat (case_match; simpl; try reflexivity).
Qed.

(** The write of a handler that was given a book, whatever the
    collection holds by then. *)
Lemma resumeBorrowed_cases id b books :
  resumeBorrowed id (Some b) books = <[id := borrowed b]> books
  \/ (resumeBorrowed id (Some b) books = books /\ borrowed b = b).
Proof.
  unfold resumeBorrowed, borrowed, Book.save.
  destruct (Number.leb (Book.availableCopies b) Number.zero) eqn:Hle; [now right |].
  cbn zeta.
  destruct (Number.eqb (Number.sub (Book.availableCopies b) Number.one) Number.zero)
    eqn:Hz; cbn [Book.set_availableCopies Book.availableCopies]; rewrite Hz;
    cbn -[Number.sub Number.leb Number.zero Number.one];
    destruct (Book.validate _); (now left) || now right.
Qed.

Lemma resumeBorrowed_writes id b a t books :
  counts a t b -> Number.safe a -> Number.safe t -> 0 < a ->
  resumeBorrowed id (Some b) books = <[id := borrowed b]> books.
Proof.
  intros Hc Ha Ht Hpos.
  destruct (resumeBorrowed_cases id b books) as [H | [_ H]]; [exact H | exfalso].
  rewrite (borrowed_counts a t b Hc Ha Ht) in H.
  assert ((a <=? 0) = false) as E0 by (apply Z.leb_gt; lia). rewrite E0 in H.
  destruct Hc as [Ea _]. apply (f_equal Book.availableCopies) in H.
  rewrite Ea in H. cbn [Book.availableCopies] in H.
  apply of_Z_inj in H; [lia | unfold Number.safe in *; lia | assumption].
Qed.

(** X3.  The lost update.  When two [BookBorrowed] messages for one
    book are handled so that the second handler reads before the first
    one writes, the book loses one copy, where the same two messages
    handled one after the other take two (as long as two are available,
    the counters being integers up to [2^53]): both handlers write the
    count they computed from the same reading. *)
Theorem overlapping_borrows_lose_an_update books id b a t :
  books !! id = Some b -> counts a t b -> Number.safe a -> Number.safe t ->
  2 <= a ->
  (exists b1, overlappingBorrows id books !! id = Some b1 /\ counts (a - 1) t b1)
  /\ (exists b2, handle (handle books (BookBorrowed id)) (BookBorrowed id) !! id = Some b2
                 /\ counts (a - 2) t b2)
  /\ resumeBorrowed id (Book.findOne books id) books
     = fst (handleBookBorrowed books id).
Proof.
  intros Hb Hc Ha Ht H2.
  pose proof (borrowed_counts a t b Hc Ha Ht) as EB.
  assert ((a <=? 0) = false) as E0 by (apply Z.leb_gt; lia). rewrite E0 in EB.
  assert (Hc1 : counts (a - 1) t (borrowed b)) by (rewrite EB; split; reflexivity).
  assert (Ha1 : Number.safe (a - 1)) by (unfold Number.safe in *; lia).
  split; [| split; [| apply resumeBorrowed_handle]].
  - unfold overlappingBorrows, Book.findOne. rewrite Hb. cbn zeta.
    rewrite !(resumeBorrowed_writes id b a t) by (assumption || lia).
    rewrite lookup_insert_eq. eauto.
  - simpl. rewrite (handleBookBorrowed_found _ _ _ Hb).
    rewrite (handleBookBorrowed_found _ _ (borrowed b)) by apply lookup_insert_eq.
    rewrite lookup_insert_eq. exists (borrowed (borrowed b)).
    split; [reflexivity |].
    rewrite (borrowed_counts (a - 1) t _ Hc1 Ha1 Ht).
    assert ((a - 1 <=? 0) = false) as -> by (apply Z.leb_gt; lia).
    replace (a - 1 - 1) with (a - 2) by lia. split; reflexivity.
Qed.

Lemma overlapping_borrows_lose_an_update_witness :
  let b := Book.make "Cosmos" "Science" 3 3 Book.available in
  let books : gmap string Book.doc := {[ "X" := b ]} in
  books !! "X" = Some b /\ counts 3 3 b
  /\ (exists b1, overlappingBorrows "X" books !! "X" = Some b1 /\ counts 2 3 b1)
  /\ (exists b2, handle (handle books (BookBorrowed "X")) (BookBorrowed "X") !! "X"
                 = Some b2
                 /\ counts 1 3 b2).
Proof.
  intros b books.
  assert (Hb : books !! "X" = Some b) by (vm_compute; reflexivity).
  assert (Hc : counts 3 3 b) by apply counts_make.
  assert (H3 : Number.safe 3) by (unfold Number.safe; lia).
  split; [exact Hb |]. split; [exact Hc |].
  assert (H2 : 2 <= 3) by lia.
  destruct (overlapping_borrows_lose_an_update books "X" b 3 3 Hb Hc H3 H3 H2)
    as (H & H' & _).
  split; [exact H | exact H'].
Defined.

End ProjectorMore.

(** ** The book controller beside the projector *)

Section BookControllerFacts.

Import Projector BookController.

Implicit Types (books : gmap string Book.doc) (b : Book.doc).

Lemma decrease_books books id :
  snd (decreaseAvailableCopies id books) = fst (handleBookBorrowed books id).
Proof.
  unfold decreaseAvailableCopies, handleBookBorrowed, Book.findOne.
  destruct (books !! id) as [b |]; [| reflexivity].
  destruct (Number.leb (Book.availableCopies b) Number.zero); [reflexivity |].
  cbn zeta. destruct (Book.save books id _); reflexivity.
Qed.

Lemma increase_books books id b a t :
  books !! id = Some b -> counts a t b -> Number.safe a -> Number.safe t ->
  snd (increaseAvailableCopies id books)
  = if t <=? a then books else fst (handleBookReturned books id).
Proof.
  intros Hb [Ea Et] Ha Ht.
  unfold increaseAvailableCopies, handleBookReturned, Book.findOne. rewrite Hb.
  rewrite Ea, Et, leb_of_Z, ltb_of_Z by assumption.
  destruct (t <=? a) eqn:Hcap; [reflexivity |]. apply Z.leb_gt in Hcap.
  assert ((a <? t) = true) as -> by (apply Z.ltb_lt; lia).
  cbn zeta. destruct (Book.save books id _); reflexivity.
Qed.

Lemma round_magnitude_pos m : 0 < m -> 0 < Number.round_magnitude m.
Proof.
  intros H. destruct (Z_lt_le_dec m (2 ^ 53)) as [Hlt | Hge].
  - now rewrite round_magnitude_small.
  - destruct (round_magnitude_large m Hge)
      as (s & q & r & up & Hs & _ & Hq & _ & _ & _ & ->).
    assert (0 < 2 ^ s) by (apply Z.pow_pos_nonneg; lia).
    assert (0 < 2 ^ 52) by (apply Z.pow_pos_nonneg; lia).
    destruct up; nia.
Qed.

(** The difference of a smaller and a larger finite number is
    negative. *)
Lemma round_negative k :
  k < 0 -> Number.leb Number.zero (Number.round k) = false.
Proof.
  intros Hk. unfold Number.round.
  assert ((k <? 0) = true) as -> by (apply Z.ltb_lt; lia).
  destruct (2 ^ 2098 <=? _); [reflexivity |].
  pose proof (round_magnitude_pos (Z.abs k)). rewrite Z.sgn_neg by lia.
  simpl. apply Z.leb_gt. lia.
Qed.

(** X4.  The REST endpoint and the event handler are one writer: on
    every collection [decreaseAvailableCopies] leaves what
    [handleBookBorrowed] leaves.  It answers 404 exactly when the book
    is missing, 400 when the book has no copy available, and 200 with
    the new count when the book had one, its counters being integers up
    to [2^53]; for a book with less than one copy the write of the
    negative count is refused, the answer is 500 and nothing changes. *)
Theorem decrease_is_the_borrow_handler books id :
  snd (decreaseAvailableCopies id books) = fst (handleBookBorrowed books id)
  /\ (Http.status (fst (decreaseAvailableCopies id books)) = 404%nat
      <-> books !! id = None)
  /\ (forall b, books !! id = Some b ->
                Number.leb (Book.availableCopies b) Number.zero = true ->
                Http.status (fst (decreaseAvailableCopies id books)) = 400%nat
                /\ snd (decreaseAvailableCopies id books) = books)
  /\ (forall b a t, books !! id = Some b -> counts a t b ->
                    Number.safe a -> Number.safe t -> 0 < a ->
                    exists av,
                      fst (decreaseAvailableCopies id books)
                      = Http.mk 200 true "Book availability decreased" (Some av)
                      /\ availableCopies av = Number.of_Z (a - 1)
                      /\ totalCopies av = Number.of_Z t)
  /\ (forall b, books !! id = Some b ->
                Number.ltb Number.zero (Book.availableCopies b) = true ->
                Number.ltb (Book.availableCopies b) Number.one = true ->
                Http.status (fst (decreaseAvailableCopies id books)) = 500%nat
                /\ snd (decreaseAvailableCopies id books) = books).
Proof.
  split; [apply decrease_books |].
  unfold decreaseAvailableCopies, Book.findOne.
  destruct (books !! id) as [b |] eqn:Hb.
  - split; [| split; [| split]].
    + destruct (Number.leb _ _); [split; discriminate |].
      cbn zeta. destruct (Book.save books id _); split; discriminate.
    + intros b' [= <-] Hle. rewrite Hle. split; reflexivity.
    + intros b' a t [= <-] [Ea Et] Ha Ht Hpos.
      assert (Ha1 : Number.safe (a - 1)) by (unfold Number.safe in *; lia).
      rewrite Ea, zero_of_Z, leb_of_Z by (assumption || apply safe_0).
      assert ((a <=? 0) = false) as -> by (apply Z.leb_gt; lia).
      rewrite sub_one by assumption. cbn zeta.
      cbn [Book.set_availableCopies Book.availableCopies].
      rewrite eqb_of_Z by (assumption || apply safe_0).
      assert (Hv : forall s,
                 Book.validate (Book.mk (Book.title b) (Book.category b)
                                  (Book.totalCopies b) (Number.of_Z (a - 1)) s) = true).
      { intros s. unfold Book.validate. cbn [Book.totalCopies Book.availableCopies].
        rewrite Et, zero_of_Z, !leb_of_Z by (assumption || apply safe_0).
        apply andb_true_iff. rewrite !Z.leb_le. unfold Number.safe in *. lia. }
      unfold Book.save.
      destruct (a - 1 =? 0); unfold Book.set_status, Book.set_availableCopies;
        cbn [Book.title Book.category Book.totalCopies Book.availableCopies Book.status];
        rewrite Hv; eexists; (split; [reflexivity |]); (split; [reflexivity | exact Et]).
    + intros b' [= <-] Hpos Hlow.
      destruct (Book.availableCopies b) as [k | [] |] eqn:Ek; try discriminate.
      simpl in Hpos, Hlow. apply Z.ltb_lt in Hpos, Hlow.
      change (Number.leb (Number.Finite k) Number.zero) with (k <=? 0).
      assert ((k <=? 0) = false) as -> by (apply Z.leb_gt; lia).
      change (Number.sub (Number.Finite k) Number.one)
        with (Number.round (k + - Number.scale)).
      cbn zeta. cbn [Book.set_availableCopies Book.availableCopies].
      assert (Hneg : Number.leb Number.zero (Number.round (k + - Number.scale)) = false)
        by (apply round_negative; lia).
      assert (Hv : forall s,
                 Book.validate (Book.mk (Book.title b) (Book.category b)
                                  (Book.totalCopies b)
                                  (Number.round (k + - Number.scale)) s) = false).
      { intros s. unfold Book.validate. cbn [Book.totalCopies Book.availableCopies].
        rewrite Hneg. apply andb_false_r. }
      unfold Book.save.
      destruct (Number.eqb _ _); unfold Book.set_status, Book.set_availableCopies;
        cbn [Book.title Book.category Book.totalCopies Book.availableCopies Book.status];
        rewrite Hv; split; reflexivity.
  - split; [split; reflexivity |].
    split; [| split]; intros; discriminate.
Qed.

Lemma decrease_is_the_borrow_handler_witness :
  let b := Book.make "Cosmos" "Science" 3 1 Book.available in
  let books : gmap string Book.doc := {[ "X" := b ]} in
  books !! "X" = Some b /\ counts 1 3 b
  /\ exists av,
       fst (decreaseAvailableCopies "X" books)
       = Http.mk 200 true "Book availability decreased" (Some av)
       /\ availableCopies av = Number.of_Z 0 /\ totalCopies av = Number.of_Z 3.
Proof.
  intros b books.
  assert (Hb : books !! "X" = Some b) by (vm_compute; reflexivity).
  assert (Hc : counts 1 3 b) by apply counts_make.
  assert (H1 : Number.safe 1) by (unfold Number.safe; lia).
  assert (H3 : Number.safe 3) by (unfold Number.safe; lia).
  assert (Hp : 0 < 1) by lia.
  split; [exact Hb |]. split; [exact Hc |].
  destruct (decrease_is_the_borrow_handler books "X") as (_ & _ & _ & H & _).
  exact (H b 1 3 Hb Hc H1 H3 Hp).
Defined.

(** X5.  [increaseAvailableCopies] refuses at capacity: when the count
    has reached (or passed) the total it answers 400 and changes
    nothing; below capacity, the counters being integers up to [2^53],
    it leaves what [handleBookReturned] leaves and answers 200 with the
    count one higher, which is at most the total. *)
Theorem increase_refuses_at_capacity books id b :
  books !! id = Some b ->
  (Number.leb (Book.totalCopies b) (Book.availableCopies b) = true ->
   Http.status (fst (increaseAvailableCopies id books)) = 400%nat
   /\ snd (increaseAvailableCopies id books) = books)
  /\ (forall a t,
         counts a t b -> Number.safe a -> Number.safe t -> a < t ->
         snd (increaseAvailableCopies id books) = fst (handleBookReturned books id)
         /\ exists av,
              fst (increaseAvailableCopies id books)
              = Http.mk 200 true "Book availability increased" (Some av)
              /\ availableCopies av = Number.of_Z (a + 1)
              /\ totalCopies av = Number.of_Z t
              /\ Number.leb (availableCopies av) (totalCopies av) = true).
Proof.
  intros Hb. split.
  - intros Hcap. unfold increaseAvailableCopies, Book.findOne. rewrite Hb, Hcap.
    split; reflexivity.
  - intros a t Hc Ha Ht Hlt. split.
    + rewrite (increase_books books id b a t Hb Hc Ha Ht).
      assert ((t <=? a) = false) as -> by (apply Z.leb_gt; lia). reflexivity.
    + destruct Hc as [Ea Et].
      assert (Ha1 : Number.safe (a + 1)) by (unfold Number.safe in *; lia).
      unfold increaseAvailableCopies, Book.findOne. rewrite Hb.
      rewrite Ea, Et, leb_of_Z by assumption.
      assert ((t <=? a) = false) as -> by (apply Z.leb_gt; lia).
      rewrite add_one by assumption. cbn zeta.
      cbn [Book.set_availableCopies Book.availableCopies].
      rewrite zero_of_Z, ltb_of_Z by (assumption || apply safe_0).
      assert ((0 <? a + 1) = true) as -> by (apply Z.ltb_lt; unfold Number.safe in *; lia).
      unfold Book.save, Book.validate, Book.set_status, Book.set_availableCopies.
      cbn [Book.title Book.category Book.totalCopies Book.availableCopies Book.status].
      rewrite Et, zero_of_Z, !leb_of_Z by (assumption || apply safe_0).
      assert ((0 <=? t) = true) as -> by (apply Z.leb_le; unfold Number.safe in *; lia).
      assert ((0 <=? a + 1) = true) as ->
        by (apply Z.leb_le; unfold Number.safe in *; lia).
      eexists. split; [reflexivity |].
      cbn [availabilityOf availableCopies totalCopies Book.availableCopies
           Book.totalCopies].
      split; [reflexivity |]. split; [reflexivity |].
      rewrite leb_of_Z by assumption. apply Z.leb_le. lia.
Qed.

Lemma increase_refuses_at_capacity_witness :
  let b := Book.make "Cosmos" "Science" 3 3 Book.available in
  let c := Book.make "Contact" "Science" 3 1 Book.available in
  let books : gmap string Book.doc := {[ "X" := b; "Y" := c ]} in
  books !! "X" = Some b
  /\ Number.leb (Book.totalCopies b) (Book.availableCopies b) = true
  /\ Http.status (fst (increaseAvailableCopies "X" books)) = 400%nat
  /\ snd (increaseAvailableCopies "X" books) = books
  /\ books !! "Y" = Some c
  /\ counts 1 3 c
  /\ exists av,
       fst (increaseAvailableCopies "Y" books)
       = Http.mk 200 true "Book availability increased" (Some av)
       /\ availableCopies av = Number.of_Z 2.
Proof.
  intros b c books.
  assert (Hb : books !! "X" = Some b) by (vm_compute; reflexivity).
  assert (Hcap : Number.leb (Book.totalCopies b) (Book.availableCopies b) = true)
    by (vm_compute; reflexivity).
  assert (Hy : books !! "Y" = Some c) by (vm_compute; reflexivity).
  assert (Hc : counts 1 3 c) by apply counts_make.
  assert (H1 : Number.safe 1) by (unfold Number.safe; lia).
  assert (H3 : Number.safe 3) by (unfold Number.safe; lia).
  assert (Hlt : 1 < 3) by lia.
  split; [exact Hb |]. split; [exact Hcap |].
  destruct (proj1 (increase_refuses_at_capacity books "X" b Hb) Hcap) as [H400 Hsame].
  split; [exact H400 |]. split; [exact Hsame |].
  split; [exact Hy |]. split; [exact Hc |].
  destruct (proj2 (increase_refuses_at_capacity books "Y" c Hy) 1 3 Hc H1 H3 Hlt)
    as (_ & av & Hrun & Hav & _).
  exists av. split; [exact Hrun | exact Hav].
Defined.

Lemma step_counts b a t :
  counts a t b -> 0 <= a <= t -> t <= 2 ^ 53 ->
  (exists a', counts a' t (borrowed b) /\ 0 <= a' <= t)
  /\ (exists a', counts a' t (returned b) /\ 0 <= a' <= t).
Proof.
  intros Hc Ha Ht.
  assert (Hsa : Number.safe a) by (unfold Number.safe; lia).
  assert (Hst : Number.safe t) by (unfold Number.safe; lia).
  rewrite (borrowed_counts a t b Hc Hsa Hst), (returned_counts a t b Hc Hsa Hst).
  split.
  - destruct (a <=? 0) eqn:Hle; [exists a; auto |]. apply Z.leb_gt in Hle.
    exists (a - 1). split; [split; reflexivity | lia].
  - cbn zeta. exists (if a <? t then a + 1 else a). split; [split; reflexivity |].
    destruct (a <? t) eqn:Hlt; [apply Z.ltb_lt in Hlt |]; lia.
Qed.

Lemma handle_within_bounds books e :
  within_bounds books -> within_bounds (handle books e).
Proof.
  intros Hall k b' Hk.
  assert (Hdom : dom (handle books e) = dom books)
    by (destruct e; [apply handleBookBorrowed_dom | apply handleBookReturned_dom]).
  assert (Hin : is_Some (books !! k)).
  { apply elem_of_dom. rewrite <- Hdom. apply elem_of_dom. eauto. }
  destruct Hin as [b Hb]. destruct (Hall k b Hb) as (a & t & Hc & Ha & Ht).
  destruct (step_counts b a t Hc Ha Ht) as [(a1 & Hc1 & Ha1) (a2 & Hc2 & Ha2)].
  destruct e as [id | id]; simpl in Hk; destruct (decide (id = k)) as [-> | Hne].
  - rewrite (handleBookBorrowed_found _ _ _ Hb), lookup_insert_eq in Hk.
    injection Hk as <-. eauto.
  - rewrite handleBookBorrowed_other, Hb in Hk by assumption. injection Hk as <-. eauto.
  - rewrite (handleBookReturned_found _ _ _ Hb), lookup_insert_eq in Hk.
    injection Hk as <-. eauto.
  - rewrite handleBookReturned_other, Hb in Hk by assumption. injection Hk as <-. eauto.
Qed.

(** X6.  Every writer of stored books but [updateBook] keeps the whole
    collection at integer counters with
    [0 <= availableCopies <= totalCopies <= 2^53]: the two event
    handlers, the two availability endpoints and [deleteBook]. *)
Theorem writers_keep_bounds books :
  within_bounds books ->
  (forall e, within_bounds (handle books e))
  /\ (forall id, within_bounds (snd (decreaseAvailableCopies id books)))
  /\ (forall id, within_bounds (snd (increaseAvailableCopies id books)))
  /\ (forall id, within_bounds (snd (fst (deleteBook id books)))).
Proof.
  intros Hall. split; [| split; [| split]].
  - intros e. now apply handle_within_bounds.
  - intros id. rewrite decrease_books.
    exact (handle_within_bounds books (BookBorrowed id) Hall).
  - intros id. destruct (books !! id) as [b |] eqn:Hb.
    + destruct (Hall id b Hb) as (a & t & Hc & Ha & Ht).
      rewrite (increase_books books id b a t Hb Hc)
        by (unfold Number.safe; lia).
      destruct (t <=? a); [exact Hall |].
      exact (handle_within_bounds books (BookReturned id) Hall).
    + unfold increaseAvailableCopies, Book.findOne. rewrite Hb. exact Hall.
  - intros id. unfold deleteBook. repeat (case_match; simpl; try exact Hall).
    intros k b Hk. apply lookup_delete_Some in Hk as [_ Hk]. eauto.
Qed.

Lemma writers_keep_bounds_witness :
  let books : gmap string Book.doc :=
    {[ "X" := Book.make "Cosmos" "Science" 3 1 Book.available ]} in
  within_bounds books
  /\ within_bounds (snd (decreaseAvailableCopies "X" books)).
Proof.
  intros books.
  assert (H : within_bounds books).
  { intros k b Hk. apply lookup_singleton_Some in Hk as [_ <-].
    exists 1, 3. split; [apply counts_make | lia]. }
  split; [exact H |].
  destruct (writers_keep_bounds books H) as (_ & Hd & _).
  exact (Hd "X").
Defined.

Lemma leb_ltb_trans x y z :
  Number.leb x y = true -> Number.ltb y z = true -> Number.leb x z = true.
Proof.
  destruct x as [a | [] |], y as [c | [] |], z as [e | [] |]; simpl;
    try discriminate; try reflexivity.
  rewrite !Z.leb_le, Z.ltb_lt. lia.
Qed.

Lemma ltb_irrefl x : Number.ltb x x = false.
Proof. destruct x as [a | [] |]; simpl; try reflexivity. apply Z.ltb_irrefl. Qed.

(** X7.  [updateBook] never changes [availableCopies]: the comparison
    that guards the adjustment reads the total after it has been
    assigned, so it never holds, and the status is recomputed from the
    unchanged count.  A total lowered below the count is therefore
    accepted and stored, which leaves the book outside its bounds. *)
Theorem update_never_adjusts_available books id b updates :
  books !! id = Some b ->
  let r := updateBook id updates books in
  (forall b', Http.data (fst (fst r)) = Some b' ->
              snd (fst r) = <[id := b']> books
              /\ Book.availableCopies b' = Book.availableCopies b
              /\ Book.totalCopies b' = assignedNumber (u_totalCopies updates)
                                         (Book.totalCopies b)
              /\ Book.status b' = (if Number.ltb Number.zero (Book.availableCopies b)
                                   then Book.available else Book.unavailable))
  /\ (forall n,
         u_totalCopies updates = Some n ->
         Number.leb Number.zero n = true ->
         Number.ltb n (Book.availableCopies b) = true ->
         assigned (u_title updates) (Book.title b) <> "" ->
         assigned (u_category updates) (Book.category b) <> "" ->
         filled (u_author updates) = true -> filled (u_coverImageUrl updates) = true ->
         exists b',
           Http.status (fst (fst r)) = 200%nat
           /\ snd (fst r) !! id = Some b'
           /\ Book.totalCopies b' = n
           /\ Number.ltb (Book.totalCopies b') (Book.availableCopies b') = true).
Proof.
  intros Hb r. subst r. unfold updateBook, Book.findOne. rewrite Hb.
  set (b0 := Book.mk _ _ _ _ _).
  assert (Hsame :
            match u_totalCopies updates with
            | Some n =>
                if Number.truthy n && Number.ltb (Book.totalCopies b0) n
                then Book.set_availableCopies
                       (Number.add (Book.availableCopies b0)
                          (Number.sub n (Book.totalCopies b0))) b0
                else b0
            | None => b0
            end = b0).
  { destruct (u_totalCopies updates) as [n |]; [| reflexivity]. subst b0.
    cbn [Book.totalCopies assignedNumber].
    now rewrite ltb_irrefl, andb_false_r. }
  cbn zeta. rewrite Hsame. split.
  - intros b'. destruct (_ && filled (u_coverImageUrl updates)); simpl; [| discriminate].
    intros [= <-]. repeat split.
  - intros n Hn H0 Hlow Htitle Hcat Hau Hcov.
    set (b1 := Book.set_status _ b0).
    assert (Hval : Book.validate b1
                   && negb (String.eqb (Book.title b1) "")
                   && negb (String.eqb (Book.category b1) "")
                   && filled (u_author updates) && filled (u_coverImageUrl updates)
                   = true).
    { rewrite Hau, Hcov, !andb_true_r. subst b1 b0.
      unfold Book.validate, Book.set_status.
      cbn [Book.title Book.category Book.totalCopies Book.availableCopies].
      rewrite Hn. cbn [assignedNumber]. rewrite H0, (leb_ltb_trans _ _ _ H0 Hlow).
      apply andb_true_iff. split.
      - apply negb_true_iff, String.eqb_neq. exact Htitle.
      - apply negb_true_iff, String.eqb_neq. exact Hcat. }
    rewrite Hval. exists b1. cbn [fst snd Http.status].
    split; [reflexivity |]. split; [apply lookup_insert_eq |].
    subst b1 b0. unfold Book.set_status.
    cbn [Book.totalCopies Book.availableCopies]. rewrite Hn. cbn [assignedNumber].
    split; [reflexivity | exact Hlow].
Qed.

Lemma update_never_adjusts_available_witness :
  let b := Book.make "Cosmos" "Science" 5 5 Book.available in
  let books : gmap string Book.doc := {[ "X" := b ]} in
  let updates := mkUpdates None None None None None None (Some (Number.of_Z 2)) in
  books !! "X" = Some b
  /\ exists b',
       Http.status (fst (fst (updateBook "X" updates books))) = 200%nat
       /\ snd (fst (updateBook "X" updates books)) !! "X" = Some b'
       /\ Book.totalCopies b' = Number.of_Z 2
       /\ Number.ltb (Book.totalCopies b') (Book.availableCopies b') = true.
Proof.
  intros b books updates.
  assert (Hb : books !! "X" = Some b) by (vm_compute; reflexivity).
  split; [exact Hb |].
  apply (proj2 (update_never_adjusts_available books "X" b updates Hb) (Number.of_Z 2));
    try (vm_compute; reflexivity); discriminate.
Defined.

(** X8.  [deleteBook] answers 404 for a missing book, refuses with 400
    and changes nothing while copies are out ([availableCopies] below
    [totalCopies]), and otherwise removes the book and nothing else,
    after which [getBookById] answers 404 for it.  So a book with all
    its copies in (an integer up to [2^53]) cannot be deleted once a
    [BookBorrowed] has taken one, and can again after the
    [BookReturned] that follows. *)
Theorem delete_waits_for_returns books id :
  (Http.status (fst (fst (deleteBook id books))) = 404%nat <-> books !! id = None)
  /\ (forall b, books !! id = Some b ->
                Number.ltb (Book.availableCopies b) (Book.totalCopies b) = true ->
                Http.status (fst (fst (deleteBook id books))) = 400%nat
                /\ snd (fst (deleteBook id books)) = books
                /\ snd (deleteBook id books) = None)
  /\ (forall b, books !! id = Some b ->
                Number.ltb (Book.availableCopies b) (Book.totalCopies b) = false ->
                Http.status (fst (fst (deleteBook id books))) = 200%nat
                /\ snd (fst (deleteBook id books)) = delete id books
                /\ snd (deleteBook id books) = Some (BookDeleted id (Book.title b))
                /\ Http.status (getBookById id (snd (fst (deleteBook id books))))
                   = 404%nat)
  /\ (forall b t, books !! id = Some b -> counts t t b -> Number.safe t -> 0 < t ->
                  let lent := handle books (BookBorrowed id) in
                  let back := handle lent (BookReturned id) in
                  Http.status (fst (fst (deleteBook id lent))) = 400%nat
                  /\ snd (fst (deleteBook id lent)) = lent
                  /\ Http.status (fst (fst (deleteBook id back))) = 200%nat
                  /\ snd (fst (deleteBook id back)) = delete id books).
Proof.
  assert (Hdel : forall bs b,
             bs !! id = Some b ->
             (Number.ltb (Book.availableCopies b) (Book.totalCopies b) = true ->
              Http.status (fst (fst (deleteBook id bs))) = 400%nat
              /\ snd (fst (deleteBook id bs)) = bs /\ snd (deleteBook id bs) = None)
             /\ (Number.ltb (Book.availableCopies b) (Book.totalCopies b) = false ->
                 Http.status (fst (fst (deleteBook id bs))) = 200%nat
                 /\ snd (fst (deleteBook id bs)) = delete id bs
                 /\ snd (deleteBook id bs) = Some (BookDeleted id (Book.title b))
                 /\ Http.status (getBookById id (snd (fst (deleteBook id bs))))
                    = 404%nat)).
  { intros bs b Hb. unfold deleteBook, Book.findOne. rewrite Hb. split; intros ->.
    - repeat split.
    - repeat split. simpl. unfold getBookById, Book.findOne.
      now rewrite lookup_delete_eq. }
  split; [| split; [| split]].
  - unfold deleteBook, Book.findOne. destruct (books !! id) as [b |]; simpl.
    + destruct (Number.ltb _ _); simpl; split; discriminate.
    + split; reflexivity.
  - intros b Hb Hlt. exact (proj1 (Hdel books b Hb) Hlt).
  - intros b Hb Hge. exact (proj2 (Hdel books b Hb) Hge).
  - intros b t Hb Hc Ht Hpos lent back.
    assert (Hlent : lent = <[id := borrowed b]> books)
      by (subst lent; simpl; now apply handleBookBorrowed_found).
    assert (Hback : back = <[id := Book.set_status Book.available b]> books)
      by (subst back lent; apply (borrowed_then_returned _ _ _ t t); auto; lia).
    pose proof (borrowed_counts t t b Hc Ht Ht) as EB.
    assert ((t <=? 0) = false) as E0 by (apply Z.leb_gt; lia). rewrite E0 in EB.
    assert (Ht1 : Number.safe (t - 1)) by (unfold Number.safe in *; lia).
    assert (Hbl : Number.ltb (Book.availableCopies (borrowed b))
                    (Book.totalCopies (borrowed b)) = true).
    { rewrite EB. cbn [Book.availableCopies Book.totalCopies].
      rewrite ltb_of_Z by assumption. apply Z.ltb_lt. lia. }
    assert (Hfull : Number.ltb (Book.availableCopies (Book.set_status Book.available b))
                      (Book.totalCopies (Book.set_status Book.available b)) = false).
    { destruct Hc as [Ea Et]. unfold Book.set_status.
      cbn [Book.availableCopies Book.totalCopies]. rewrite Ea, Et. apply ltb_irrefl. }
    destruct (proj1 (Hdel lent (borrowed b) ltac:(rewrite Hlent; apply lookup_insert_eq))
                Hbl) as (H1 & H2 & _).
    destruct (proj2 (Hdel back (Book.set_status Book.available b)
                       ltac:(rewrite Hback; apply lookup_insert_eq))
                Hfull) as (H3 & H4 & _).
    repeat split; auto. rewrite H4, Hback. apply delete_insert_eq.
Qed.

Lemma delete_waits_for_returns_witness :
  let b := Book.make "Cosmos" "Science" 3 3 Book.available in
  let books : gmap string Book.doc := {[ "X" := b ]} in
  let lent := handle books (BookBorrowed "X") in
  books !! "X" = Some b
  /\ counts 3 3 b
  /\ Http.status (fst (fst (deleteBook "X" lent))) = 400%nat
  /\ snd (fst (deleteBook "X" lent)) = lent.
Proof.
  intros b books lent.
  assert (Hb : books !! "X" = Some b) by (vm_compute; reflexivity).
  assert (Hc : counts 3 3 b) by apply counts_make.
  assert (H3 : Number.safe 3) by (unfold Number.safe; lia).
  assert (Hp : 0 < 3) by lia.
  split; [exact Hb |]. split; [exact Hc |].
  destruct (delete_waits_for_returns books "X") as (_ & _ & _ & H).
  destruct (H b 3 Hb Hc H3 Hp) as (H1 & H2 & _).
  split; [exact H1 | exact H2].
Defined.

End BookControllerFacts.

(** ** The queries of the subscription controller *)

Section ActiveRowFacts.

Context {A : Type} (userOf targetOf : A -> string) (isActive : A -> bool).

Local Abbreviation by_key := (Model.by_key userOf targetOf).
Local Abbreviation findOne := (Model.findOne userOf targetOf).
Local Abbreviation save := (Model.save userOf targetOf).
Local Abbreviation unique := (Model.unique userOf targetOf).
Local Abbreviation active u t := (fun d : A => by_key u t d && isActive d).

Lemma findOne_middle u t l1 d l2 :
  (forall x, In x l1 -> by_key u t x = false) -> by_key u t d = true ->
  findOne u t (l1 ++ d :: l2) = Some d.
Proof.
  intros Hl1 Hd. unfold Model.findOne. induction l1 as [| x l1 IH]; simpl.
  - now rewrite Hd.
  - rewrite (Hl1 x) by (simpl; auto). apply IH. intros y Hy. apply Hl1. simpl. auto.
Qed.

Lemma find_active_found u t col d :
  findOne u t col = Some d -> isActive d = true ->
  List.find (active u t) col = Some d.
Proof.
  intros Hf Ha.
  destruct (findOne_Some _ _ _ _ _ _ Hf) as (l1 & l2 & -> & Hu & Ht & Hl1).
  clear Hf. induction l1 as [| x l1 IH]; simpl.
  - assert (by_key u t d = true) as -> by (apply by_key_spec; auto).
    now rewrite Ha.
  - rewrite (Hl1 x) by (simpl; auto). simpl. apply IH.
    intros y Hy. apply Hl1. simpl. auto.
Qed.

Lemma find_active_none u t col :
  findOne u t col = None -> List.find (active u t) col = None.
Proof.
  unfold Model.findOne. induction col as [| x col IH]; simpl; [reflexivity |].
  destruct (by_key u t x); [discriminate | simpl; exact IH].
Qed.

Lemma find_active_inactive u t col d :
  unique col -> findOne u t col = Some d -> isActive d = false ->
  List.find (active u t) col = None.
Proof.
  intros Hnd Hf Ha.
  destruct (List.find (active u t) col) as [x |] eqn:Hx; [| reflexivity].
  apply find_some in Hx as [Hin Hk]. apply andb_true_iff in Hk as [Hk Hax].
  apply by_key_spec in Hk as [Hu Ht].
  assert (Hrow : Model.row userOf targetOf u t x col) by (unfold Model.row; auto).
  pose proof (unique_row_found _ _ _ _ _ _ Hnd Hrow) as Hfx. congruence.
Qed.

Lemma findOne_save u t col d d' :
  findOne u t col = Some d -> userOf d' = userOf d -> targetOf d' = targetOf d ->
  findOne u t (save d' col) = Some d'.
Proof.
  intros Hf Hu Ht.
  destruct (findOne_Some _ _ _ _ _ _ Hf) as (l1 & l2 & -> & Hdu & Hdt & Hl1).
  rewrite (save_split _ _ l1 d l2 d'); auto.
  - apply findOne_middle; [exact Hl1 |]. apply by_key_spec. split; congruence.
  - intros x Hx. rewrite Hu, Ht, Hdu, Hdt. auto.
Qed.

(** The collection a [subscribe] handler leaves has an active row of
    the pair, and the query finds it. *)
Lemma active_after_subscribe reactivate fresh u t col :
  (forall d, userOf (reactivate d) = userOf d /\ targetOf (reactivate d) = targetOf d
             /\ isActive (reactivate d) = true) ->
  userOf fresh = u -> targetOf fresh = t -> isActive fresh = true ->
  exists d,
    List.find (active u t)
      (match findOne u t col with
       | Some d => if isActive d then col else save (reactivate d) col
       | None => col ++ [fresh]
       end) = Some d
    /\ userOf d = u /\ targetOf d = t /\ isActive d = true.
Proof.
  intros Hre Hu Ht Ha. destruct (findOne u t col) as [d |] eqn:Hf.
  - destruct (findOne_row _ _ _ _ _ _ Hf) as (_ & Hdu & Hdt).
    destruct (isActive d) eqn:Hd.
    + exists d. split; [now apply find_active_found | auto].
    + destruct (Hre d) as (Hru & Hrt & Hra). exists (reactivate d).
      split; [| split; [congruence | split; [congruence | exact Hra]]].
      apply find_active_found; [| exact Hra]. now apply (findOne_save u t col d).
  - exists fresh. split; [| auto]. apply find_active_found; [| exact Ha].
    apply findOne_snoc; auto. now apply findOne_None.
Qed.

(** Under the unique index, the collection an [unsubscribe] handler
    leaves has no active row of the pair. *)
Lemma inactive_after_unsubscribe deactivate u t col :
  unique col ->
  (forall d, userOf (deactivate d) = userOf d /\ targetOf (deactivate d) = targetOf d
             /\ isActive (deactivate d) = false) ->
  List.find (active u t)
    (match findOne u t col with
     | Some d => save (deactivate d) col
     | None => col
     end) = None.
Proof.
  intros Hnd Hde. destruct (findOne u t col) as [d |] eqn:Hf.
  - destruct (Hde d) as (Hu & Ht & Ha).
    apply (find_active_inactive u t _ (deactivate d)); [| | exact Ha].
    + unfold Model.unique. now rewrite keys_save.
    + now apply (findOne_save u t col d).
  - now apply find_active_none.
Qed.

End ActiveRowFacts.

Section SubscriptionQueryFacts.

Import SubscriptionController SubscriptionQueries.

(** X10.  The check endpoints agree with the commands.  After a
    [subscribe] request with its required fields, whatever its answer
    (201, 200 or 409), the check for the pair reports a subscription
    and returns an active row of the pair; after an [unsubscribe]
    request on a collection that respects the unique index, whatever
    its answer (200 or 404), the check reports none.  The same holds of
    categories and of books. *)
Theorem check_agrees_with_commands :
  (forall now body col u e c cn,
      Js.present (cb_userId body) = Some u ->
      Js.present (cb_userEmail body) = Some e ->
      Js.present (cb_categoryId body) = Some c ->
      Js.present (cb_categoryName body) = Some cn ->
      exists d,
        checkCategorySubscription u c (snd (subscribeToCategory now body col))
        = (true, Some d)
        /\ CategorySubscription.userId d = u /\ CategorySubscription.categoryId d = c
        /\ CategorySubscription.isActive d = true)
  /\ (forall userId categoryId col u c,
        Model.unique CategorySubscription.userId CategorySubscription.categoryId col ->
        Js.present userId = Some u -> Js.present categoryId = Some c ->
        checkCategorySubscription u c (snd (unsubscribeFromCategory userId categoryId col))
        = (false, None))
  /\ (forall now body col u e b bt,
        Js.present (bb_userId body) = Some u ->
        Js.present (bb_userEmail body) = Some e ->
        Js.present (bb_bookId body) = Some b ->
        Js.present (bb_bookTitle body) = Some bt ->
        exists d,
          checkBookSubscription u b (snd (subscribeToBook now body col)) = (true, Some d)
          /\ BookSubscription.userId d = u /\ BookSubscription.bookId d = b
          /\ BookSubscription.isActive d = true)
  /\ (forall userId bookId col u b,
        Model.unique BookSubscription.userId BookSubscription.bookId col ->
        Js.present userId = Some u -> Js.present bookId = Some b ->
        checkBookSubscription u b (snd (unsubscribeFromBook userId bookId col))
        = (false, None)).
Proof.
  split; [| split; [| split]].
  - intros now body col u e c cn Hu He Hc Hcn.
    destruct (active_after_subscribe
                CategorySubscription.userId CategorySubscription.categoryId
                CategorySubscription.isActive
                (fun d => CategorySubscription.set_subscribedAt now
                            (CategorySubscription.set_isActive true d))
                (CategorySubscription.mk u e (Js.or_else (cb_userName body) "") c cn
                   true now)
                u c col) as (d & Hd & Hrest); auto.
    exists d. split; [| exact Hrest].
    unfold checkCategorySubscription, subscribeToCategory.
    rewrite Hu, He, Hc, Hcn.
    unfold CategorySubscription.findOne, CategorySubscription.save,
      CategorySubscription.create.
    destruct (Model.findOne _ _ u c col) as [d0 |];
      [destruct (CategorySubscription.isActive d0) |]; simpl in *; now rewrite Hd.
  - intros userId categoryId col u c Hnd Hu Hc.
    pose proof (inactive_after_unsubscribe
                  CategorySubscription.userId CategorySubscription.categoryId
                  CategorySubscription.isActive
                  (CategorySubscription.set_isActive false) u c col Hnd) as Hd.
    unfold checkCategorySubscription, unsubscribeFromCategory.
    rewrite Hu, Hc. unfold CategorySubscription.findOne, CategorySubscription.save.
    destruct (Model.findOne _ _ u c col) as [d0 |]; simpl in *; rewrite Hd; auto.
  - intros now body col u e b bt Hu He Hb Hbt.
    destruct (active_after_subscribe
                BookSubscription.userId BookSubscription.bookId
                BookSubscription.isActive
                (fun d => BookSubscription.set_subscribedAt now
                            (BookSubscription.set_isActive true d))
                (BookSubscription.mk u e (Js.or_else (bb_userName body) "") b bt
                   (Js.or_else (bb_bookCategory body) "") true now)
                u b col) as (d & Hd & Hrest); auto.
    exists d. split; [| exact Hrest].
    unfold checkBookSubscription, subscribeToBook.
    rewrite Hu, He, Hb, Hbt.
    unfold BookSubscription.findOne, BookSubscription.save, BookSubscription.create.
    destruct (Model.findOne _ _ u b col) as [d0 |];
      [destruct (BookSubscription.isActive d0) |]; simpl in *; now rewrite Hd.
  - intros userId bookId col u b Hnd Hu Hb.
    pose proof (inactive_after_unsubscribe
                  BookSubscription.userId BookSubscription.bookId
                  BookSubscription.isActive
                  (BookSubscription.set_isActive false) u b col Hnd) as Hd.
    unfold checkBookSubscription, unsubscribeFromBook.
    rewrite Hu, Hb. unfold BookSubscription.findOne, BookSubscription.save.
    destruct (Model.findOne _ _ u b col) as [d0 |]; simpl in *; rewrite Hd; auto.
Qed.

Lemma check_agrees_with_commands_witness :
  let ann := CategorySubscription.mk "u1" "ann@lib.org" "Ann" "c1" "Science" true 0 in
  Model.unique CategorySubscription.userId CategorySubscription.categoryId [ann]
  /\ checkCategorySubscription "u1" "c1"
       (snd (unsubscribeFromCategory (Some "u1") (Some "c1") [ann]))
     = (false, None).
Proof.
  intros ann.
  assert (Hnd : Model.unique CategorySubscription.userId
                  CategorySubscription.categoryId [ann]).
  { unfold Model.unique, Model.keys. simpl. apply NoDup_singleton. }
  split; [exact Hnd |].
  destruct check_agrees_with_commands as (_ & H & _).
  exact (H (Some "u1") (Some "c1") [ann] "u1" "c1" Hnd eq_refl eq_refl).
Defined.

Lemma newerCategory_order :
  Transitive newerCategory /\ Total newerCategory.
Proof.
  unfold newerCategory. split.
  - intros x y z Hxy Hyz. lia.
  - intros x y. lia.
Qed.

Lemma newerBook_order :
  Transitive newerBook /\ Total newerBook.
Proof.
  unfold newerBook. split.
  - intros x y z Hxy Hyz. lia.
  - intros x y. lia.
Qed.

Lemma find_is_Some {A} (p : A -> bool) (l : list A) :
  (match List.find p l with Some _ => true | None => false end) = true
  <-> exists d, In d l /\ p d = true.
Proof.
  destruct (List.find p l) as [d |] eqn:Hf.
  - apply find_some in Hf. split; eauto.
  - split; [discriminate |]. intros (d & Hin & Hp).
    rewrite (find_none _ _ Hf d Hin) in Hp. discriminate.
Qed.

(** X11.  [getUserSubscriptions] answers 400 without a user; for a
    user it returns the user's active rows of each collection, all of
    them and nothing else, the most recently subscribed first, and the
    two totals count them.  A category (a book) is in the listing
    exactly when the check endpoint reports the user subscribed to
    it. *)
Theorem user_subscriptions_listing cats bks :
  (forall v, Js.truthy v = false ->
             getUserSubscriptions v cats bks = Http.mk 400 false "userId is required" None)
  /\ (forall u, u <> "" ->
        exists r,
          getUserSubscriptions (Some u) cats bks = Http.mk 200 true "" (Some r)
          /\ Permutation (categories r)
               (List.filter (fun d => String.eqb (CategorySubscription.userId d) u
                                      && CategorySubscription.isActive d) cats)
          /\ Permutation (books r)
               (List.filter (fun d => String.eqb (BookSubscription.userId d) u
                                      && BookSubscription.isActive d) bks)
          /\ StronglySorted newerCategory (categories r)
          /\ StronglySorted newerBook (books r)
          /\ totalCategories r = List.length (categories r)
          /\ totalBooks r = List.length (books r)
          /\ (forall c, fst (checkCategorySubscription u c cats) = true
                        <-> exists d, In d (categories r)
                                      /\ CategorySubscription.categoryId d = c)
          /\ (forall b, fst (checkBookSubscription u b bks) = true
                        <-> exists d, In d (books r) /\ BookSubscription.bookId d = b)).
Proof.
  split.
  - intros [s |] Hv; unfold getUserSubscriptions; simpl in *; [| reflexivity].
    destruct (String.eqb s ""); [reflexivity | discriminate].
  - intros u Hu. unfold getUserSubscriptions. simpl.
    assert (String.eqb u "" = false) as -> by now apply String.eqb_neq.
    destruct newerCategory_order as [Htc Hoc], newerBook_order as [Htb Hob].
    eexists. split; [reflexivity |]. simpl.
    split; [apply merge_sort_Permutation |].
    split; [apply merge_sort_Permutation |].
    split; [apply (StronglySorted_merge_sort newerCategory) |].
    split; [apply (StronglySorted_merge_sort newerBook) |].
    split; [reflexivity |]. split; [reflexivity |]. split.
    + intros c. unfold checkCategorySubscription. simpl. rewrite find_is_Some.
      split.
      * intros (d & Hin & Hp). apply andb_true_iff in Hp as [Hk Ha].
        apply by_key_spec in Hk as [Hdu Hdc]. exists d. split; [| exact Hdc].
        apply (Permutation_in _ (Permutation_sym (merge_sort_Permutation _ _))).
        apply filter_In. split; [exact Hin |].
        apply andb_true_iff. split; [now apply String.eqb_eq | exact Ha].
      * intros (d & Hin & Hdc).
        apply (Permutation_in _ (merge_sort_Permutation _ _)) in Hin.
        apply filter_In in Hin as [Hin Hp]. apply andb_true_iff in Hp as [Hdu Ha].
        apply String.eqb_eq in Hdu. exists d. split; [exact Hin |].
        apply andb_true_iff. split; [| exact Ha]. apply by_key_spec. auto.
    + intros b. unfold checkBookSubscription. simpl. rewrite find_is_Some.
      split.
      * intros (d & Hin & Hp). apply andb_true_iff in Hp as [Hk Ha].
        apply by_key_spec in Hk as [Hdu Hdb]. exists d. split; [| exact Hdb].
        apply (Permutation_in _ (Permutation_sym (merge_sort_Permutation _ _))).
        apply filter_In. split; [exact Hin |].
        apply andb_true_iff. split; [now apply String.eqb_eq | exact Ha].
      * intros (d & Hin & Hdb).
        apply (Permutation_in _ (merge_sort_Permutation _ _)) in Hin.
        apply filter_In in Hin as [Hin Hp]. apply andb_true_iff in Hp as [Hdu Ha].
        apply String.eqb_eq in Hdu. exists d. split; [exact Hin |].
        apply andb_true_iff. split; [| exact Ha]. apply by_key_spec. auto.
Qed.

Lemma user_subscriptions_listing_witness :
  let old := CategorySubscription.mk "u1" "ann@lib.org" "Ann" "c1" "Science" true 10 in
  let gone := CategorySubscription.mk "u1" "ann@lib.org" "Ann" "c2" "History" false 20 in
  let new := CategorySubscription.mk "u1" "ann@lib.org" "Ann" "c3" "Poetry" true 30 in
  "u1" <> ""
  /\ exists r,
       getUserSubscriptions (Some "u1") [old; gone; new] []
       = Http.mk 200 true "" (Some r)
       /\ categories r = [new; old] /\ totalCategories r = 2%nat.
Proof.
  intros old gone new. assert (Hu : "u1" <> "") by discriminate.
  split; [exact Hu |].
  destruct (proj2 (user_subscriptions_listing [old; gone; new] []) "u1" Hu)
    as (r & Hr & _).
  exists r. split; [exact Hr |].
  vm_compute in Hr. injection Hr as <-. split; reflexivity.
Defined.

(** X12.  [getCategorySubscribers] builds its pattern from
    [categoryName || categoryId].  When the pattern does not compile
    the answer is 500; otherwise the answer lists, with their count,
    the active rows that carry the identifier or whose name the pattern
    accepts.  Every subscriber the targeting resolver finds for a
    category name is among the rows this endpoint lists for that
    name. *)
Theorem category_subscribers_endpoint beyond id name cats :
  id <> "" ->
  match RegExp beyond ("^" +:+ Js.or_else name id +:+ "$") with
  | None =>
      Http.status (getCategorySubscribers beyond (Some id) name cats) = 500%nat
      /\ Http.data (getCategorySubscribers beyond (Some id) name cats) = None
  | Some re =>
      exists rows,
        getCategorySubscribers beyond (Some id) name cats
        = Http.mk 200 true "" (Some (List.length rows, rows))
        /\ (forall d, In d rows <->
                      In d cats /\ CategorySubscription.isActive d = true
                      /\ (CategorySubscription.categoryId d = id
                          \/ re (CategorySubscription.categoryName d) = true))
        /\ (Js.truthy name = true ->
            forall t, In t (getTargetedSubscribers beyond cats [] name None) ->
                      exists d, In d rows /\ t = fromCategory d)
  end.
Proof.
  intros Hid. unfold getCategorySubscribers. simpl.
  assert (String.eqb id "" = false) as -> by now apply String.eqb_neq.
  destruct (RegExp beyond ("^" +:+ Js.or_else name id +:+ "$")) as [re |] eqn:Hre;
    [| split; reflexivity].
  eexists. split; [reflexivity |].
  assert (Hrows : forall d,
             In d (List.filter
                     (fun d => CategorySubscription.isActive d
                               && (String.eqb (CategorySubscription.categoryId d) id
                                   || re (CategorySubscription.categoryName d))) cats)
             <-> In d cats /\ CategorySubscription.isActive d = true
                 /\ (CategorySubscription.categoryId d = id
                     \/ re (CategorySubscription.categoryName d) = true)).
  { intros d. rewrite filter_In, andb_true_iff, orb_true_iff, String.eqb_eq. tauto. }
  split; [exact Hrows |].
  intros Hname t Ht.
  assert (Hsame : Js.or_else name id = Js.interpolate name).
  { destruct name as [s |]; simpl in *; [| discriminate].
    destruct (String.eqb s ""); [discriminate | reflexivity]. }
  rewrite Hsame in Hre. rewrite (resolver_values _ _ _ _ _ _ Hre) in Ht. simpl in Ht.
  destruct (pass1_spec (categorySubscribers re cats)) as (Hnd & Hget & _).
  apply (in_values _ _ Hnd) in Ht as (u & Hu).
  destruct (Hget u t Hu) as (sub & Hsub & _ & ->).
  apply in_categorySubscribers in Hsub as (Hin & Hm & Ha).
  exists sub. split; [| reflexivity]. apply Hrows. auto.
Qed.

Lemma category_subscribers_endpoint_witness :
  let ann := CategorySubscription.mk "u1" "ann@lib.org" "Ann" "c1" "Science" true 0 in
  let bob := CategorySubscription.mk "u2" "bob@lib.org" "Bob" "c9" "science" true 0 in
  let eve := CategorySubscription.mk "u3" "eve@lib.org" "Eve" "c2" "History" true 0 in
  "c1" <> ""
  /\ exists rows,
       Http.data (getCategorySubscribers (fun _ => None) (Some "c1") (Some "Science")
                    [ann; bob; eve])
       = Some (2%nat, rows)
       /\ rows = [ann; bob].
Proof.
  intros ann bob eve. assert (Hid : "c1" <> "") by discriminate.
  split; [exact Hid |].
  pose proof (category_subscribers_endpoint (fun _ => None) "c1" (Some "Science")
                [ann; bob; eve] Hid) as H.
  assert (Hrun : getCategorySubscribers (fun _ => None) (Some "c1") (Some "Science")
                   [ann; bob; eve]
                 = Http.mk 200 true "" (Some (2%nat, [ann; bob])))
    by (vm_compute; reflexivity).
  rewrite Hrun in H.
  destruct (RegExp _ _) as [re |]; [| destruct H as [H _]; discriminate H].
  destruct H as (rows & Hrows & _). exists rows.
  injection Hrows as _ <-. split; reflexivity.
Defined.

End SubscriptionQueryFacts.

(** ** The catalog events, from the message to the unread counts *)

Section CatalogEventFacts.

Import SubscriptionController NotificationDbController EventHandlers.

Lemma pass2_covers rows m sub :
  In sub rows ->
  exists v, JsMap.get (BookSubscription.userId sub) (pass2 rows m) = Some v
            /\ TargetedSubscriber.followsBook v = true.
Proof.
  induction rows as [| s rows IH] using rev_ind; [intros [] |].
  intros Hin. rewrite pass2_snoc. set (k := BookSubscription.userId s).
  assert (Hcase :
           exists w,
             (match JsMap.get k (pass2 rows m) with
              | Some existing => JsMap.set k (markBoth existing s) (pass2 rows m)
              | None => JsMap.set k (fromBook s) (pass2 rows m)
              end) = JsMap.set k w (pass2 rows m)
             /\ TargetedSubscriber.followsBook w = true).
  { destruct (JsMap.get k (pass2 rows m)) as [existing |]; eexists; split; reflexivity. }
  destruct Hcase as (w & -> & Hw).
  destruct (String.eqb_spec k (BookSubscription.userId sub)) as [<- | Hne].
  - rewrite get_set_eq. eauto.
  - rewrite get_set_ne by assumption. apply IH.
    apply in_app_iff in Hin as [Hin | [-> | []]]; [exact Hin | now contradict Hne].
Qed.

Lemma NoDup_map_filter {A B} (f : A -> B) (p : A -> bool) (l : list A) :
  NoDup (map f l) -> NoDup (map f (List.filter p l)).
Proof.
  induction l as [| x l IH]; simpl; [auto |].
  intros Hnd. apply NoDup_cons in Hnd as [Hx Hnd].
  destruct (p x); simpl; [| auto].
  apply NoDup_cons. split; [| auto].
  intros Hin. apply Hx. apply list_elem_of_In in Hin. apply list_elem_of_In.
  apply in_map_iff in Hin as (y & Hy & Hin). apply filter_In in Hin as [Hin _].
  apply in_map_iff. eauto.
Qed.

Lemma created_users fresh d subscribers :
  map Notification.userId (imap (notificationFor fresh d) subscribers)
  = map TargetedSubscriber.userId subscribers.
Proof.
  revert fresh. induction subscribers as [| t subscribers IH]; intros fresh.
  - reflexivity.
  - rewrite imap_cons. simpl. f_equal. exact (IH (fresh ∘ S)).
Qed.

Lemma created_fields fresh d subscribers n :
  In n (imap (notificationFor fresh d) subscribers) ->
  Notification.isRead n = false
  /\ Notification.type n = type d
  /\ Notification.priority n = default Notification.normal (priority d)
  /\ Notification.relatedBookId n = Js.or_null (relatedBookId d).
Proof.
  intros Hin. apply list_elem_of_In, elem_of_lookup_imap in Hin as (i & t & -> & Ht).
  repeat split.
Qed.

(** With followers that are addressed and identifiers that are new,
    the batch of a [BOOK_UPDATED] event is written whole. *)
Lemma handleBookUpdated_notifications env svc data :
  let followers :=
    List.filter TargetedSubscriber.followsBook
      (getTargetedSubscribers (beyond env) (categorySubscriptions svc)
         (bookSubscriptions svc) (Some (Js.or_else (category data) ""))
         (bookId data)) in
  addressed followers ->
  freshIds (fresh env) (List.length followers) (notifications svc) ->
  notifications (fst (handleBookUpdated env svc data))
  = notifications svc
    ++ imap (notificationFor (fresh env) (bookUpdatedData data)) followers.
Proof.
  intros followers Hsub Hfresh.
  rewrite (handleBookUpdated_run env svc data followers eq_refl).
  rewrite (createBatchNotifications_written _ _ _ _ Hsub Hfresh);
    [reflexivity | apply bookUpdatedData_filled ..].
Qed.

(** The users the resolver marks as followers of a book are the users
    of the book's active rows. *)
Lemma followers_are_subscribers beyond cats books categoryName id re u :
  id <> "" ->
  RegExp beyond ("^" +:+ Js.interpolate categoryName +:+ "$") = Some re ->
  In u (map TargetedSubscriber.userId
          (List.filter TargetedSubscriber.followsBook
             (getTargetedSubscribers beyond cats books categoryName (Some id))))
  <-> exists d, In d books /\ BookSubscription.userId d = u
                /\ BookSubscription.bookId d = id /\ BookSubscription.isActive d = true.
Proof.
  intros Hid Hre. rewrite in_map_iff. split.
  - intros (t & <- & Ht). apply filter_In in Ht as [Ht Hf].
    destruct (follower_has_row _ _ _ _ _ _ Ht Hf) as (_ & sub & ? & ? & ? & ?).
    exists sub. auto.
  - intros (d & Hin & Hu & Hb & Ha).
    assert (Hrow : In d (bookSubscribers id books))
      by (apply in_bookSubscribers; auto).
    assert (Htruthy : Js.truthy (Some id) = true).
    { simpl. apply negb_true_iff. now apply String.eqb_neq. }
    destruct (pass2_covers _ (pass1 (categorySubscribers re cats)) d Hrow)
      as (v & Hv & Hf).
    pose proof (resolver_map_wf re cats books (Some id)) as Hwf.
    rewrite Htruthy in Hwf. simpl in Hwf. destruct Hwf as (Hnd & Hk).
    exists v. split; [rewrite (Hk _ _ Hv); exact Hu |].
    apply filter_In. split; [| exact Hf].
    rewrite (resolver_values _ _ _ _ _ _ Hre), Htruthy. simpl.
    apply (in_values _ _ Hnd). eauto.
Qed.

Lemma updated_recipients env svc data id re :
  bookId data = Some id -> id <> "" ->
  RegExp (beyond env) ("^" +:+ Js.or_else (category data) "" +:+ "$") = Some re ->
  let followers :=
    List.filter TargetedSubscriber.followsBook
      (getTargetedSubscribers (beyond env) (categorySubscriptions svc)
         (bookSubscriptions svc) (Some (Js.or_else (category data) ""))
         (bookId data)) in
  addressed followers ->
  freshIds (fresh env) (List.length followers) (notifications svc) ->
  exists created,
    notifications (fst (handleBookUpdated env svc data)) = notifications svc ++ created
    /\ NoDup (map Notification.userId created)
    /\ (forall u, In u (map Notification.userId created) <->
                  exists d, In d (bookSubscriptions svc)
                            /\ BookSubscription.userId d = u
                            /\ BookSubscription.bookId d = id
                            /\ BookSubscription.isActive d = true)
    /\ (forall n, In n created ->
                  Notification.isRead n = false
                  /\ Notification.type n = Notification.BOOK_UPDATED
                  /\ Notification.priority n = Notification.low
                  /\ Notification.relatedBookId n = Some id).
Proof.
  intros Hb Hid Hre followers Hsub Hfresh. eexists.
  split; [now apply handleBookUpdated_notifications |].
  rewrite created_users, Hb. split; [| split].
  - apply NoDup_map_filter, resolver_NoDup.
  - intros u. now apply (followers_are_subscribers _ _ _ _ _ re).
  - intros n Hn. apply created_fields in Hn as (H1 & H2 & H3 & H4).
    repeat split; auto. rewrite H4. simpl. rewrite Hb. unfold Js.or_null. simpl.
    now assert (String.eqb id "" = false) as -> by now apply String.eqb_neq.
Qed.

(** Without a book there is no follower, and nothing is written. *)
Lemma handleBookUpdated_no_book env svc data :
  Js.truthy (bookId data) = false -> handleBookUpdated env svc data = (svc, []).
Proof.
  intros Hb. unfold handleBookUpdated.
  destruct (List.filter _ _) as [| t ts] eqn:Hf; [reflexivity |].
  assert (Hin : In t (t :: ts)) by (simpl; auto).
  rewrite <- Hf in Hin. apply filter_In in Hin as [Hin Hfollow].
  destruct (follower_has_row _ _ _ _ _ _ Hin Hfollow) as (Ht & _). congruence.
Qed.

(** X13.  A [BOOK_UPDATED] event reaches every follower, once.  When
    the event names a book and the pattern of its category compiles,
    the followers resolved have a [userId] and a [userEmail], and the
    identifiers drawn for them are new, the handler appends one unread
    [BOOK_UPDATED] notification of low priority for each user with an
    active subscription to the book, no two for one user, and none for
    anyone else: the users notified are the users of the rows
    [getBookSubscribers] lists for the book. *)
Theorem update_notifies_each_follower_once env svc data id re :
  bookId data = Some id -> id <> "" ->
  RegExp (beyond env) ("^" +:+ Js.or_else (category data) "" +:+ "$") = Some re ->
  let followers :=
    List.filter TargetedSubscriber.followsBook
      (getTargetedSubscribers (beyond env) (categorySubscriptions svc)
         (bookSubscriptions svc) (Some (Js.or_else (category data) ""))
         (bookId data)) in
  addressed followers ->
  freshIds (fresh env) (List.length followers) (notifications svc) ->
  exists created n rows,
    notifications (fst (handleBookUpdated env svc data)) = notifications svc ++ created
    /\ NoDup (map Notification.userId created)
    /\ SubscriptionQueries.getBookSubscribers id (bookSubscriptions svc)
       = Http.mk 200 true "" (Some (n, rows))
    /\ n = List.length rows
    /\ (forall u, In u (map Notification.userId created)
                  <-> In u (map BookSubscription.userId rows))
    /\ (forall x, In x created ->
                  Notification.isRead x = false
                  /\ Notification.type x = Notification.BOOK_UPDATED
                  /\ Notification.priority x = Notification.low
                  /\ Notification.relatedBookId x = Some id).
Proof.
  intros Hb Hid Hre followers Hsub Hfresh.
  destruct (updated_recipients env svc data id re Hb Hid Hre Hsub Hfresh)
    as (created & Hrun & Hnd & Hiff & Hfields).
  exists created. do 2 eexists.
  split; [exact Hrun |]. split; [exact Hnd |].
  split; [reflexivity |]. split; [reflexivity |]. split; [| exact Hfields].
  intros u. rewrite Hiff, in_map_iff. split.
  - intros (d & Hin & Hu & Hbk & Ha). exists d. split; [exact Hu |].
    apply filter_In. split; [exact Hin |].
    apply andb_true_iff. split; [now apply String.eqb_eq | exact Ha].
  - intros (d & Hu & Hin). apply filter_In in Hin as [Hin Hp].
    apply andb_true_iff in Hp as [Hbk Ha]. apply String.eqb_eq in Hbk.
    exists d. auto.
Qed.

Lemma update_notifies_each_follower_once_witness :
  let ann := CategorySubscription.mk "u1" "ann@lib.org" "Ann" "c1" "Science" true 0 in
  let bob := BookSubscription.mk "u2" "bob@lib.org" "Bob" "b1" "Cosmos" "Science" true 0 in
  let amy := BookSubscription.mk "u1" "ann@lib.org" "Ann" "b1" "Cosmos" "Science" true 0 in
  let off := BookSubscription.mk "u3" "eve@lib.org" "Eve" "b1" "Cosmos" "Science" false 0 in
  let svc := mkService [ann] [bob; amy; off] [] [] in
  let data := mkBookData (Some "b1") (Some "Cosmos") (Some "Carl Sagan")
                (Some "Science") None in
  let env := mkEnv (fun _ => None)
               (fun i => match i with
                         | O => "1700000000000-9f1c2a3b"
                         | S _ => "1700000000000-4e5d6c7a"
                         end) None in
  let followers :=
    List.filter TargetedSubscriber.followsBook
      (getTargetedSubscribers (beyond env) (categorySubscriptions svc)
         (bookSubscriptions svc) (Some (Js.or_else (category data) ""))
         (bookId data)) in
  addressed followers
  /\ freshIds (fresh env) (List.length followers) (notifications svc)
  /\ exists re,
       RegExp (beyond env) ("^" +:+ Js.or_else (category data) "" +:+ "$") = Some re
       /\ exists created,
            notifications (fst (handleBookUpdated env svc data)) = created
            /\ forall u, In u (map Notification.userId created) <-> In u ["u2"; "u1"].
Proof.
  intros ann bob amy off svc data env followers.
  assert (Hf : followers
               = [TargetedSubscriber.mk "u1" "ann@lib.org" "Ann" TargetedSubscriber.both
                    (Some "c1") (Some "Science") (Some "b1") (Some "Cosmos");
                  fromBook bob]) by (vm_compute; reflexivity).
  assert (Hsub : addressed followers).
  { rewrite Hf. intros t [<- | [<- | []]]; split; discriminate. }
  assert (Hfresh : freshIds (fresh env) (List.length followers) (notifications svc)).
  { rewrite Hf. split.
    - intros [| [| i]] [| [| j]] Hi Hj E; simpl in Hi, Hj;
        try reflexivity; try lia; discriminate E.
    - intros i x _ []. }
  split; [exact Hsub |]. split; [exact Hfresh |].
  destruct (RegExp (beyond env) ("^" +:+ Js.or_else (category data) "" +:+ "$"))
    as [re |] eqn:Hre; [| vm_compute in Hre; discriminate Hre].
  exists re. split; [reflexivity |].
  destruct (update_notifies_each_follower_once env svc data "b1" re eq_refl
              ltac:(discriminate) Hre Hsub Hfresh)
    as (created & n & rows & Hrun & _ & Hrows & _ & Hiff & _).
  exists created. split; [exact Hrun |].
  intros u. rewrite Hiff. injection Hrows as _ <-. reflexivity.
Defined.

(** X14.  The book service publishes [BookUpdated] without a category.
    For such a payload that names a book, in an envelope or bare, the
    pattern is [^$], which always compiles: when the followers resolved
    have a [userId] and a [userEmail] and the identifiers drawn for
    them are new, the event appends one notification for each user with
    an active subscription to the book and for no one else, whatever
    the regular expression engine does with other patterns.  A message
    that is not JSON changes nothing, and so does a bare object whose
    [data] field is a non-empty string. *)
Theorem update_event_without_category env svc type timestamp fields id :
  EventSubscriber.get "category" fields = None ->
  EventSubscriber.get "bookId" fields = Some id -> id <> "" ->
  let message := EventSubscriber.Envelope type timestamp fields in
  let followers :=
    List.filter TargetedSubscriber.followsBook
      (getTargetedSubscribers (beyond env) (categorySubscriptions svc)
         (bookSubscriptions svc) (Some "") (Some id)) in
  (addressed followers ->
   freshIds (fresh env) (List.length followers) (notifications svc) ->
   exists created,
      notifications (fst (EventSubscriber.processBookUpdated env svc (Some message)))
      = notifications svc ++ created
      /\ NoDup (map Notification.userId created)
      /\ (forall u, In u (map Notification.userId created) <->
                    exists d, In d (bookSubscriptions svc)
                              /\ BookSubscription.userId d = u
                              /\ BookSubscription.bookId d = id
                              /\ BookSubscription.isActive d = true))
  /\ (EventSubscriber.get "data" fields = None ->
      EventSubscriber.processBookUpdated env svc (Some (EventSubscriber.Bare fields))
      = EventSubscriber.processBookUpdated env svc (Some message))
  /\ EventSubscriber.processBookUpdated env svc None = (svc, [])
  /\ (forall other, Js.truthy (EventSubscriber.get "data" other) = true ->
                    EventSubscriber.processBookUpdated env svc
                      (Some (EventSubscriber.Bare other)) = (svc, [])).
Proof.
  intros Hcat Hb Hid message followers.
  split; [| split; [| split]].
  - intros Hsub Hfresh.
    assert (Hre : exists re,
               RegExp (beyond env)
                 ("^" +:+ Js.or_else
                            (category (EventSubscriber.bookUpdated fields)) ""
                      +:+ "$") = Some re).
    { simpl. rewrite Hcat. simpl. unfold RegExp.
      destruct (Regex.parse "^$") as [r | |] eqn:Hp;
        [eauto | vm_compute in Hp; discriminate Hp
         | vm_compute in Hp; discriminate Hp]. }
    destruct Hre as (re & Hre).
    assert (Hsame : List.filter TargetedSubscriber.followsBook
                      (getTargetedSubscribers (beyond env) (categorySubscriptions svc)
                         (bookSubscriptions svc)
                         (Some (Js.or_else
                                  (category (EventSubscriber.bookUpdated fields)) ""))
                         (bookId (EventSubscriber.bookUpdated fields)))
                    = followers).
    { subst followers. cbn [EventSubscriber.bookUpdated category bookId].
      now rewrite Hcat, Hb. }
    destruct (updated_recipients env svc (EventSubscriber.bookUpdated fields) id re
                Hb Hid Hre) as (created & Hrun & Hnd & Hiff & _);
      [now rewrite Hsame | now rewrite Hsame |].
    exists created. auto.
  - intros Hdata. simpl. now rewrite Hdata.
  - reflexivity.
  - intros other Hdata. simpl. rewrite Hdata.
    now apply handleBookUpdated_no_book.
Qed.

Lemma update_event_without_category_witness :
  let bob := BookSubscription.mk "u2" "bob@lib.org" "Bob" "b1" "Cosmos" "Science" true 0 in
  let svc := mkService [] [bob] [] [] in
  let env := mkEnv (fun _ => None) (fun _ => "1700000000000-9f1c2a3b") None in
  let fields := [("bookId", "b1"); ("title", "Cosmos"); ("author", "Carl Sagan")] in
  let followers :=
    List.filter TargetedSubscriber.followsBook
      (getTargetedSubscribers (beyond env) (categorySubscriptions svc)
         (bookSubscriptions svc) (Some "") (Some "b1")) in
  EventSubscriber.get "category" fields = None
  /\ EventSubscriber.get "bookId" fields = Some "b1"
  /\ addressed followers
  /\ freshIds (fresh env) (List.length followers) (notifications svc)
  /\ exists created,
       notifications
         (fst (EventSubscriber.processBookUpdated env svc
                 (Some (EventSubscriber.Envelope "BookUpdated" None fields))))
       = created
       /\ (forall u, In u (map Notification.userId created) <->
                     exists d, In d [bob] /\ BookSubscription.userId d = u
                               /\ BookSubscription.bookId d = "b1"
                               /\ BookSubscription.isActive d = true).
Proof.
  intros bob svc env fields followers.
  assert (Hf : followers = [fromBook bob]) by (vm_compute; reflexivity).
  assert (Hsub : addressed followers).
  { rewrite Hf. intros t [<- | []]; split; discriminate. }
  assert (Hfresh : freshIds (fresh env) (List.length followers) (notifications svc)).
  { rewrite Hf. split.
    - intros [| i] [| j] Hi Hj E; simpl in Hi, Hj; try reflexivity; lia.
    - intros i x _ []. }
  split; [reflexivity |]. split; [reflexivity |].
  split; [exact Hsub |]. split; [exact Hfresh |].
  destruct (update_event_without_category env svc "BookUpdated" None fields "b1"
              eq_refl eq_refl ltac:(discriminate)) as (H & _).
  destruct (H Hsub Hfresh) as (created & Hrun & _ & Hiff).
  exists created. split; [exact Hrun | exact Hiff].
Defined.

(** With targets that are addressed and identifiers that are new, the
    batch of a [BOOK_ADDED] event is written whole. *)
Lemma handleBookAdded_notifications env svc data :
  let targets :=
    getTargetedSubscribers (beyond env) (categorySubscriptions svc)
      (bookSubscriptions svc) (category data) (bookId data) in
  addressed targets ->
  freshIds (fresh env) (List.length targets) (notifications svc) ->
  notifications (fst (handleBookAdded env svc data))
  = notifications svc ++ imap (notificationFor (fresh env) (bookAddedData data)) targets.
Proof.
  intros targets Hsub Hfresh.
  destruct targets as [| t ts] eqn:Ht.
  - unfold handleBookAdded. fold targets. rewrite Ht. simpl. now rewrite app_nil_r.
  - rewrite (handleBookAdded_run env svc data (t :: ts) Ht) by (simpl; lia).
    cbn [fst notifications].
    rewrite (createBatchNotifications_written _ _ _ _ Hsub Hfresh);
      [reflexivity | apply bookAddedData_filled ..].
Qed.

Lemma countUnread_app u l1 l2 :
  NotificationQueries.countUnread u (l1 ++ l2)
  = (NotificationQueries.countUnread u l1 + NotificationQueries.countUnread u l2)%nat.
Proof.
  unfold NotificationQueries.countUnread. now rewrite List.filter_app, length_app.
Qed.

Lemma countUnread_created u fresh d subscribers :
  NotificationQueries.countUnread u (imap (notificationFor fresh d) subscribers)
  = List.length
      (List.filter (fun t => String.eqb (TargetedSubscriber.userId t) u) subscribers).
Proof.
  unfold NotificationQueries.countUnread. revert fresh.
  induction subscribers as [| t subscribers IH]; intros fresh; [reflexivity |].
  rewrite imap_cons.
  change (imap (notificationFor fresh d ∘ S) subscribers)
    with (imap (notificationFor (fresh ∘ S) d) subscribers).
  simpl. pose proof (IH (fresh ∘ S)) as IH'.
  unfold NotificationQueries.unread at 1. simpl. rewrite andb_true_r.
  destruct (String.eqb (TargetedSubscriber.userId t) u); simpl; now rewrite IH'.
Qed.

Lemma count_by_user u (l : list TargetedSubscriber.t) :
  NoDup (map TargetedSubscriber.userId l) ->
  (In u (map TargetedSubscriber.userId l) ->
   List.length (List.filter (fun t => String.eqb (TargetedSubscriber.userId t) u) l)
   = 1%nat)
  /\ (~ In u (map TargetedSubscriber.userId l) ->
      List.length (List.filter (fun t => String.eqb (TargetedSubscriber.userId t) u) l)
      = 0%nat).
Proof.
  induction l as [| x l IH]; simpl.
  - intros _. split; [intros [] | reflexivity].
  - intros Hnd. apply NoDup_cons in Hnd as [Hx Hnd]. destruct (IH Hnd) as [IH1 IH0].
    destruct (String.eqb_spec (TargetedSubscriber.userId x) u) as [Heq | Hne]; simpl.
    + assert (Hnot : ~ In u (map TargetedSubscriber.userId l)).
      { intros Hin. apply Hx. rewrite Heq. now apply list_elem_of_In. }
      split; [now rewrite IH0 | intros H; exfalso; apply H; auto].
    + split.
      * intros [Heq | Hin]; [contradiction | auto].
      * intros Hnot. apply IH0. intros Hin. apply Hnot. auto.
Qed.

(** X15.  A [BOOK_ADDED] event whose targets have a [userId] and a
    [userEmail], the identifiers drawn for them being new, raises the
    unread count of each of its targets by exactly one and leaves the
    count of everyone else as it was, as [getUnreadCount] then reports
    it. *)
Theorem added_raises_unread_by_one env svc data u :
  u <> "" ->
  let targets :=
    getTargetedSubscribers (beyond env) (categorySubscriptions svc)
      (bookSubscriptions svc) (category data) (bookId data) in
  addressed targets ->
  freshIds (fresh env) (List.length targets) (notifications svc) ->
  let before := NotificationQueries.countUnread u (notifications svc) in
  let answer :=
    NotificationQueries.getUnreadCount (Some u)
      (notifications (fst (handleBookAdded env svc data))) in
  (In u (map TargetedSubscriber.userId targets) ->
   answer = Http.mk 200 true "" (Some (S before)))
  /\ (~ In u (map TargetedSubscriber.userId targets) ->
      answer = Http.mk 200 true "" (Some before)).
Proof.
  intros Hu targets Hsub Hfresh before answer. subst answer before.
  unfold NotificationQueries.getUnreadCount. simpl.
  assert (String.eqb u "" = false) as -> by now apply String.eqb_neq.
  rewrite (handleBookAdded_notifications env svc data Hsub Hfresh),
    countUnread_app, countUnread_created.
  fold targets.
  destruct (count_by_user u targets (resolver_NoDup _ _ _ _ _)) as [H1 H0].
  split; intros Hin.
  - rewrite (H1 Hin). do 2 f_equal. lia.
  - rewrite (H0 Hin). do 2 f_equal. lia.
Qed.

Lemma added_raises_unread_by_one_witness :
  let ann := CategorySubscription.mk "u1" "ann@lib.org" "Ann" "c1" "Science" true 0 in
  let amy := BookSubscription.mk "u1" "ann@lib.org" "Ann" "b1" "Cosmos" "Science" true 0 in
  let svc := mkService [ann] [amy] [] [] in
  let data := mkBookData (Some "b1") (Some "Cosmos") (Some "Carl Sagan")
                (Some "Science") None in
  let env := mkEnv (fun _ => None) (fun _ => "1700000000000-9f1c2a3b") None in
  let targets :=
    getTargetedSubscribers (beyond env) (categorySubscriptions svc)
      (bookSubscriptions svc) (category data) (bookId data) in
  "u1" <> ""
  /\ addressed targets
  /\ freshIds (fresh env) (List.length targets) (notifications svc)
  /\ In "u1" (map TargetedSubscriber.userId targets)
  /\ NotificationQueries.getUnreadCount (Some "u1")
       (notifications (fst (handleBookAdded env svc data)))
     = Http.mk 200 true "" (Some 1%nat).
Proof.
  intros ann amy svc data env targets.
  assert (Ht : targets
               = [TargetedSubscriber.mk "u1" "ann@lib.org" "Ann" TargetedSubscriber.both
                    (Some "c1") (Some "Science") (Some "b1") (Some "Cosmos")])
    by (vm_compute; reflexivity).
  assert (Hu : "u1" <> "") by discriminate.
  assert (Hsub : addressed targets).
  { rewrite Ht. intros t [<- | []]; split; discriminate. }
  assert (Hfresh : freshIds (fresh env) (List.length targets) (notifications svc)).
  { rewrite Ht. split.
    - intros [| i] [| j] Hi Hj E; simpl in Hi, Hj; try reflexivity; lia.
    - intros i x _ []. }
  assert (Hin : In "u1" (map TargetedSubscriber.userId targets))
    by (rewrite Ht; simpl; auto).
  split; [exact Hu |]. split; [exact Hsub |]. split; [exact Hfresh |].
  split; [exact Hin |].
  exact (proj1 (added_raises_unread_by_one env svc data "u1" Hu Hsub Hfresh) Hin).
Defined.

(** An e-mail that was accepted for delivery. *)
Lemma sendAll_count env data subscribers :
  fst (sendAll env data subscribers)
  = List.length
      (List.filter (fun e => match e with SendMail _ sent => sent | _ => false end)
         (snd (sendAll env data subscribers)))
  /\ (fst (sendAll env data subscribers) <= List.length subscribers)%nat
  /\ (transporter env = None -> fst (sendAll env data subscribers) = 0%nat).
Proof.
  induction subscribers as [| t subscribers (IH1 & IH2 & IH3)]; simpl.
  - repeat split; auto.
  - destruct (sendAll env data subscribers) as [emailsSent effects]. simpl in *.
    destruct (EmailService.sendNewBookNotificationEmail _ _) eqn:Hsent; simpl.
    + split; [now rewrite IH1 |]. split; [lia |].
      intros Hnone. rewrite Hnone in Hsent. discriminate Hsent.
    + split; [exact IH1 |]. split; [lia | exact IH3].
Qed.

(** X16.  The audit entry of a [BOOK_ADDED] event tells what happened.
    The handler appends exactly one entry to the event log and leaves
    the subscriptions alone.  Without targets the entry is
    [NoSubscribers], nothing is written and no e-mail is attempted.
    With targets the entry counts them, and its [emailsSent] is the
    number of e-mails the transport accepted: at most one per target,
    and none when no transport is configured. *)
Theorem added_audit_entry env svc data :
  let targets :=
    getTargetedSubscribers (beyond env) (categorySubscriptions svc)
      (bookSubscriptions svc) (category data) (bookId data) in
  let r := handleBookAdded env svc data in
  categorySubscriptions (fst r) = categorySubscriptions svc
  /\ bookSubscriptions (fst r) = bookSubscriptions svc
  /\ exists entry,
       eventLog (fst r) = eventLog svc ++ [entry]
       /\ match targets with
          | [] => entry = NoSubscribers data /\ snd r = []
                  /\ notifications (fst r) = notifications svc
          | _ :: _ =>
              exists emailsSent,
                entry = BookAddedProcessed data (List.length targets) emailsSent
                /\ emailsSent
                   = List.length
                       (List.filter
                          (fun e => match e with SendMail _ sent => sent | _ => false end)
                          (snd r))
                /\ (emailsSent <= List.length targets)%nat
                /\ (transporter env = None -> emailsSent = 0%nat)
          end.
Proof.
  intros targets r. subst r. unfold handleBookAdded. fold targets.
  destruct targets as [| t ts] eqn:Ht.
  - simpl. repeat split. eexists. split; [reflexivity |]. repeat split.
  - destruct (createBatchNotifications _ _ _ _) as [created col'].
    destruct (sendAll_count env data (t :: ts)) as (H1 & H2 & H3).
    destruct (sendAll env data (t :: ts)) as [emailsSent effects]. simpl in *.
    repeat split. eexists. split; [reflexivity |].
    exists emailsSent. repeat split; auto.
Qed.

Lemma added_audit_entry_witness :
  let ann := CategorySubscription.mk "u1" "ann@lib.org" "Ann" "c1" "Science" true 0 in
  let svc := mkService [ann] [] [] [] in
  let data := mkBookData (Some "b1") (Some "Cosmos") (Some "Carl Sagan")
                (Some "Science") None in
  let env := mkEnv (fun _ => None) (fun _ => "1700000000000-9f1c2a3b") None in
  transporter env = None
  /\ eventLog (fst (handleBookAdded env svc data)) = [BookAddedProcessed data 1 0].
Proof.
  intros ann svc data env. split; [reflexivity |].
  destruct (added_audit_entry env svc data) as (_ & _ & entry & Hlog & Hentry).
  rewrite Hlog.
  assert (Ht : getTargetedSubscribers (beyond env) (categorySubscriptions svc)
                 (bookSubscriptions svc) (category data) (bookId data)
               = [fromCategory ann]) by (vm_compute; reflexivity).
  rewrite Ht in Hentry. destruct Hentry as (k & -> & _ & _ & Hk).
  now rewrite (Hk eq_refl).
Defined.

(** X17.  A [BookAdded] payload without a category.  The handler
    interpolates the missing category into its pattern, which becomes
    [^undefined$]: for such a payload that names no book either, with
    stored category names of printable ASCII characters, targets that
    have a [userId] and a [userEmail] and identifiers that are new, the
    users notified are the users with an active subscription to a
    category whose name reads "undefined", in any letter case, and no
    one else.  A bare payload is handled as the same payload in an
    envelope, and a message that is not JSON changes nothing. *)
Theorem added_event_without_category env svc type timestamp fields :
  EventSubscriber.get "category" fields = None ->
  EventSubscriber.get "bookId" fields = None ->
  let message := EventSubscriber.Envelope type timestamp fields in
  let targets :=
    getTargetedSubscribers (beyond env) (categorySubscriptions svc)
      (bookSubscriptions svc) None None in
  ((forall sub, In sub (categorySubscriptions svc) ->
                Regex.printable (CategorySubscription.categoryName sub) = true) ->
   addressed targets ->
   freshIds (fresh env) (List.length targets) (notifications svc) ->
   exists created,
      notifications (fst (EventSubscriber.processBookAdded env svc (Some message)))
      = notifications svc ++ created
      /\ forall u,
           In u (map Notification.userId created) <->
           exists sub, In sub (categorySubscriptions svc)
                       /\ CategorySubscription.userId sub = u
                       /\ CategorySubscription.isActive sub = true
                       /\ Regex.eq_nocase "undefined"
                            (CategorySubscription.categoryName sub) = true)
  /\ (EventSubscriber.get "data" fields = None ->
      EventSubscriber.processBookAdded env svc (Some (EventSubscriber.Bare fields))
      = EventSubscriber.processBookAdded env svc (Some message))
  /\ EventSubscriber.processBookAdded env svc None = (svc, []).
Proof.
  intros Hcat Hb message targets. split; [| split; [| reflexivity]].
  - intros Hprintable Hsub Hfresh.
    assert (Hsame : getTargetedSubscribers (beyond env) (categorySubscriptions svc)
                      (bookSubscriptions svc)
                      (category (EventSubscriber.bookAdded fields))
                      (bookId (EventSubscriber.bookAdded fields))
                    = targets).
    { subst targets. cbn [EventSubscriber.bookAdded category bookId].
      now rewrite Hcat, Hb. }
    exists (imap (notificationFor (fresh env)
                    (bookAddedData (EventSubscriber.bookAdded fields))) targets).
    split.
    { pose proof (handleBookAdded_notifications env svc
                    (EventSubscriber.bookAdded fields)) as H.
      cbv zeta in H. rewrite Hsame in H. exact (H Hsub Hfresh). }
    intros u. rewrite created_users. subst targets.
    change (getTargetedSubscribers (beyond env) (categorySubscriptions svc)
              (bookSubscriptions svc) None None)
      with (getTargetedSubscribers (beyond env) (categorySubscriptions svc) []
              (Some "undefined") None).
    rewrite <- (resolver_exact_on_plain_names (beyond env) (categorySubscriptions svc)
                  "undefined" u eq_refl Hprintable).
    rewrite in_map_iff. split; intros (t & H1 & H2); exists t; auto.
  - intros Hdata. simpl. now rewrite Hdata.
Qed.

Lemma added_event_without_category_witness :
  let odd := CategorySubscription.mk "u1" "ann@lib.org" "Ann" "c0" "Undefined" true 0 in
  let sci := CategorySubscription.mk "u2" "bob@lib.org" "Bob" "c1" "Science" true 0 in
  let svc := mkService [odd; sci] [] [] [] in
  let env := mkEnv (fun _ => None) (fun _ => "1700000000000-9f1c2a3b") None in
  let fields := [("title", "Cosmos"); ("author", "Carl Sagan")] in
  let targets :=
    getTargetedSubscribers (beyond env) (categorySubscriptions svc)
      (bookSubscriptions svc) None None in
  EventSubscriber.get "category" fields = None
  /\ EventSubscriber.get "bookId" fields = None
  /\ addressed targets
  /\ freshIds (fresh env) (List.length targets) (notifications svc)
  /\ exists created,
       notifications
         (fst (EventSubscriber.processBookAdded env svc
                 (Some (EventSubscriber.Envelope "BookAdded" None fields))))
       = created
       /\ In "u1" (map Notification.userId created).
Proof.
  intros odd sci svc env fields targets.
  assert (Ht : targets = [fromCategory odd]) by (vm_compute; reflexivity).
  assert (Hp : forall sub, In sub (categorySubscriptions svc) ->
                           Regex.printable (CategorySubscription.categoryName sub) = true).
  { intros sub [<- | [<- | []]]; reflexivity. }
  assert (Hsub : addressed targets).
  { rewrite Ht. intros t [<- | []]; split; discriminate. }
  assert (Hfresh : freshIds (fresh env) (List.length targets) (notifications svc)).
  { rewrite Ht. split.
    - intros [| i] [| j] Hi Hj E; simpl in Hi, Hj; try reflexivity; lia.
    - intros i x _ []. }
  split; [reflexivity |]. split; [reflexivity |].
  split; [exact Hsub |]. split; [exact Hfresh |].
  destruct (added_event_without_category env svc "BookAdded" None fields
              eq_refl eq_refl) as (H & _).
  destruct (H Hp Hsub Hfresh) as (created & Hrun & Hiff).
  exists created. split; [exact Hrun |].
  apply Hiff. exists odd. simpl. auto.
Defined.

End CatalogEventFacts.

(** ** The requests on stored notifications *)

Section NotificationQueryFacts.

Import NotificationQueries.

Implicit Types (col : list Notification.doc) (u v : string).

(** The notifications of one user, in order. *)
Local Abbreviation of_user v col :=
  (List.filter (fun d => String.eqb (Notification.userId d) v) col).

Lemma unread_set_isRead u d : unread u (set_isRead d) = false.
Proof. unfold unread, set_isRead. simpl. apply andb_false_r. Qed.

Lemma markAllAsRead_clears u col :
  countUnread u (map (fun d => if unread u d then set_isRead d else d) col) = 0%nat.
Proof.
  unfold countUnread. induction col as [| d col IH]; simpl; [reflexivity |].
  destruct (unread u d) eqn:Hd.
  - now rewrite unread_set_isRead.
  - now rewrite Hd.
Qed.

Lemma markAllAsRead_others u v col :
  v <> u ->
  of_user v (map (fun d => if unread u d then set_isRead d else d) col) = of_user v col.
Proof.
  intros Hne. induction col as [| d col IH]; simpl; [reflexivity |].
  destruct (unread u d) eqn:Hd; simpl.
  - apply andb_true_iff in Hd as [Hd _]. apply String.eqb_eq in Hd.
    assert (String.eqb (Notification.userId d) v = false) as ->
      by (apply String.eqb_neq; congruence).
    exact IH.
  - now rewrite IH.
Qed.

Lemma updateOne_others id u v f col :
  v <> u -> (forall d, Notification.userId (f d) = Notification.userId d) ->
  of_user v (updateOne (owned id u) f col) = of_user v col.
Proof.
  intros Hne Hf. induction col as [| d col IH]; simpl; [reflexivity |].
  destruct (owned id u d) eqn:Hd; simpl.
  - rewrite Hf. apply andb_true_iff in Hd as [_ Hd]. apply String.eqb_eq in Hd.
    assert (String.eqb (Notification.userId d) v = false) as ->
      by (apply String.eqb_neq; congruence).
    reflexivity.
  - now rewrite IH.
Qed.

Lemma deleteOne_others id u v col :
  v <> u -> of_user v (deleteOne (owned id u) col) = of_user v col.
Proof.
  intros Hne. induction col as [| d col IH]; simpl; [reflexivity |].
  destruct (owned id u d) eqn:Hd; simpl.
  - apply andb_true_iff in Hd as [_ Hd]. apply String.eqb_eq in Hd.
    assert (String.eqb (Notification.userId d) v = false) as ->
      by (apply String.eqb_neq; congruence).
    reflexivity.
  - now rewrite IH.
Qed.

Lemma deleteMany_others u v col :
  v <> u ->
  of_user v (List.filter (fun d => negb (String.eqb (Notification.userId d) u)) col)
  = of_user v col.
Proof.
  intros Hne. induction col as [| d col IH]; simpl; [reflexivity |].
  destruct (String.eqb_spec (Notification.userId d) u) as [Hd | Hd]; simpl.
  - assert (String.eqb (Notification.userId d) v = false) as ->
      by (apply String.eqb_neq; congruence).
    exact IH.
  - now rewrite IH.
Qed.

(** X18.  [markAllAsRead] clears one user.  Its [modifiedCount] is the
    number of notifications the user had unread; afterwards the user
    has none unread, the collection has the same length, and a second
    request modifies nothing.  Without a user the answer is 400 and
    nothing changes. *)
Theorem mark_all_read_clears_the_user now col :
  (forall userId : Js.value, Js.truthy userId = false ->
             markAllAsRead now userId col
             = (Http.mk 400 false "userId is required" None, col))
  /\ (forall u, u <> "" ->
        let r := markAllAsRead now (Some u) col in
        Http.status (fst r) = 200%nat
        /\ Http.data (fst r) = Some (countUnread u col)
        /\ getUnreadCount (Some u) (snd r) = Http.mk 200 true "" (Some 0%nat)
        /\ List.length (snd r) = List.length col
        /\ map Notification.notificationId (snd r) = map Notification.notificationId col
        /\ Http.data (fst (markAllAsRead now (Some u) (snd r))) = Some 0%nat
        /\ snd (markAllAsRead now (Some u) (snd r)) = snd r).
Proof.
  split.
  - intros [s |] Hv; unfold markAllAsRead; simpl in *; [| reflexivity].
    destruct (String.eqb s ""); [reflexivity | discriminate].
  - intros u Hu. unfold markAllAsRead, getUnreadCount. simpl.
    assert (String.eqb u "" = false) as -> by now apply String.eqb_neq.
    simpl. rewrite markAllAsRead_clears.
    repeat split.
    + apply length_map.
    + rewrite map_map. apply map_ext. intros d. now destruct (unread u d).
    + rewrite map_map. apply map_ext. intros d.
      destruct (unread u d) eqn:Hd; [now rewrite unread_set_isRead | now rewrite Hd].
Qed.

Lemma mark_all_read_clears_the_user_witness :
  let n1 := Notification.mk "NOTIF-1" "u1" "ann@lib.org" Notification.BOOK_ADDED
              "New Book: Cosmos" "" None None None None [] false Notification.normal in
  let n2 := Notification.mk "NOTIF-2" "u2" "bob@lib.org" Notification.BOOK_ADDED
              "New Book: Cosmos" "" None None None None [] false Notification.normal in
  "u1" <> ""
  /\ Http.data (fst (markAllAsRead 0 (Some "u1") [n1; n2])) = Some 1%nat
  /\ getUnreadCount (Some "u1") (snd (markAllAsRead 0 (Some "u1") [n1; n2]))
     = Http.mk 200 true "" (Some 0%nat).
Proof.
  intros n1 n2. assert (Hu : "u1" <> "") by discriminate.
  split; [exact Hu |].
  destruct (proj2 (mark_all_read_clears_the_user 0 [n1; n2]) "u1" Hu)
    as (_ & Hcount & Hzero & _).
  split; [exact Hcount | exact Hzero].
Defined.

(** X19.  A request touches only the notifications of its user.
    [markAsRead], [markAllAsRead], [deleteNotification] and
    [deleteAllNotifications], called for one user, leave the
    notifications of every other user as they were, and in their
    order, whatever identifier the request names. *)
Theorem requests_touch_only_their_user now id u v col :
  v <> u ->
  of_user v (snd (markAsRead now id u col)) = of_user v col
  /\ of_user v (snd (markAllAsRead now (Some u) col)) = of_user v col
  /\ of_user v (snd (deleteNotification id u col)) = of_user v col
  /\ of_user v (snd (deleteAllNotifications (Some u) col)) = of_user v col.
Proof.
  intros Hne. split; [| split; [| split]].
  - unfold markAsRead. destruct (List.find (owned id u) col) as [d |] eqn:Hd;
      [| reflexivity].
    simpl. apply find_some in Hd as [_ Hd]. apply andb_true_iff in Hd as [_ Hd].
    apply String.eqb_eq in Hd. clear -Hne Hd.
    induction col as [| x col IH]; simpl; [reflexivity |].
    destruct (owned id u x) eqn:Hx; simpl.
    + apply andb_true_iff in Hx as [_ Hx]. apply String.eqb_eq in Hx.
      assert (String.eqb (Notification.userId d) v = false) as ->
        by (apply String.eqb_neq; congruence).
      assert (String.eqb (Notification.userId x) v = false) as ->
        by (apply String.eqb_neq; congruence).
      reflexivity.
    + now rewrite IH.
  - unfold markAllAsRead. simpl.
    destruct (String.eqb u ""); [reflexivity |]. now apply markAllAsRead_others.
  - unfold deleteNotification. destruct (List.find (owned id u) col); [| reflexivity].
    simpl. now apply deleteOne_others.
  - unfold deleteAllNotifications. simpl.
    destruct (String.eqb u ""); [reflexivity |]. now apply deleteMany_others.
Qed.

Lemma requests_touch_only_their_user_witness :
  let n1 := Notification.mk "NOTIF-1" "u1" "ann@lib.org" Notification.BOOK_ADDED
              "New Book: Cosmos" "" None None None None [] false Notification.normal in
  let n2 := Notification.mk "NOTIF-2" "u2" "bob@lib.org" Notification.BOOK_ADDED
              "New Book: Cosmos" "" None None None None [] false Notification.normal in
  "u2" <> "u1"
  /\ of_user "u2" (snd (deleteNotification "NOTIF-2" "u1" [n1; n2])) = [n2]
  /\ of_user "u2" (snd (deleteAllNotifications (Some "u1") [n1; n2])) = [n2].
Proof.
  intros n1 n2. assert (Hne : "u2" <> "u1") by discriminate.
  split; [exact Hne |].
  destruct (requests_touch_only_their_user 0 "NOTIF-2" "u1" "u2" [n1; n2] Hne)
    as (_ & _ & Hd & Hall).
  split; [exact Hd | exact Hall].
Defined.

Lemma deleteOne_length p col d :
  List.find p col = Some d -> S (List.length (deleteOne p col)) = List.length col.
Proof.
  induction col as [| x col IH]; simpl; [discriminate |].
  destruct (p x); [reflexivity |]. intros H. simpl. now rewrite IH.
Qed.

(** X20.  The two deletions.  [deleteNotification] answers 200 exactly
    when the user owns a notification with the identifier, and then
    removes one document; otherwise it answers 404 and removes none.
    [deleteAllNotifications] removes every notification of the user,
    and its [deletedCount] is their number. *)
Theorem deletions_remove_what_they_report id u col :
  (Http.status (fst (deleteNotification id u col)) = 200%nat
   <-> exists d, In d col /\ Notification.notificationId d = id
                 /\ Notification.userId d = u)
  /\ (Http.status (fst (deleteNotification id u col)) = 200%nat ->
      S (List.length (snd (deleteNotification id u col))) = List.length col)
  /\ (Http.status (fst (deleteNotification id u col)) <> 200%nat ->
      Http.status (fst (deleteNotification id u col)) = 404%nat
      /\ snd (deleteNotification id u col) = col)
  /\ (u <> "" ->
      Http.data (fst (deleteAllNotifications (Some u) col))
      = Some (List.length (of_user u col))
      /\ of_user u (snd (deleteAllNotifications (Some u) col)) = []
      /\ (List.length (snd (deleteAllNotifications (Some u) col))
          + List.length (of_user u col) = List.length col)%nat).
Proof.
  unfold deleteNotification.
  destruct (List.find (owned id u) col) as [d |] eqn:Hd; simpl.
  - split; [| split; [| split]].
    + split; [| reflexivity]. intros _. apply find_some in Hd as [Hin Hd].
      apply andb_true_iff in Hd as [H1 H2]. apply String.eqb_eq in H1, H2. eauto.
    + intros _. now apply (deleteOne_length _ _ d).
    + intros H. now contradict H.
    + intros Hu. unfold deleteAllNotifications. simpl.
      assert (String.eqb u "" = false) as -> by now apply String.eqb_neq.
      simpl. split; [reflexivity |]. clear. split.
      * induction col as [| x col IH]; simpl; [reflexivity |].
        destruct (String.eqb (Notification.userId x) u) eqn:Hx; simpl;
          [exact IH | now rewrite Hx].
      * induction col as [| x col IH]; simpl; [reflexivity |].
        destruct (String.eqb (Notification.userId x) u); simpl; lia.
  - split; [| split; [| split]].
    + split; [discriminate |]. intros (x & Hin & H1 & H2).
      pose proof (find_none _ _ Hd x Hin) as Hx. unfold owned in Hx.
      rewrite <- H1, <- H2, !String.eqb_refl in Hx. discriminate Hx.
    + discriminate.
    + auto.
    + intros Hu. unfold deleteAllNotifications. simpl.
      assert (String.eqb u "" = false) as -> by now apply String.eqb_neq.
      simpl. split; [reflexivity |]. clear. split.
      * induction col as [| x col IH]; simpl; [reflexivity |].
        destruct (String.eqb (Notification.userId x) u) eqn:Hx; simpl;
          [exact IH | now rewrite Hx].
      * induction col as [| x col IH]; simpl; [reflexivity |].
        destruct (String.eqb (Notification.userId x) u); simpl; lia.
Qed.

Lemma deletions_remove_what_they_report_witness :
  let n1 := Notification.mk "NOTIF-1" "u1" "ann@lib.org" Notification.BOOK_ADDED
              "New Book: Cosmos" "" None None None None [] false Notification.normal in
  let n2 := Notification.mk "NOTIF-2" "u2" "bob@lib.org" Notification.BOOK_ADDED
              "New Book: Cosmos" "" None None None None [] false Notification.normal in
  Http.status (fst (deleteNotification "NOTIF-2" "u1" [n1; n2])) <> 200%nat
  /\ Http.status (fst (deleteNotification "NOTIF-2" "u1" [n1; n2])) = 404%nat
  /\ snd (deleteNotification "NOTIF-2" "u1" [n1; n2]) = [n1; n2].
Proof.
  intros n1 n2.
  assert (H : Http.status (fst (deleteNotification "NOTIF-2" "u1" [n1; n2])) <> 200%nat)
    by (vm_compute; discriminate).
  split; [exact H |].
  destruct (deletions_remove_what_they_report "NOTIF-2" "u1" [n1; n2])
    as (_ & _ & Hno & _).
  exact (Hno H).
Defined.

(** X21.  The route of [deleteAllNotifications] is never taken.  The
    router tries [DELETE /:notificationId] first, and this route takes
    every path of one segment: a [DELETE] request is dispatched to
    [deleteNotification] or to nothing.  So [DELETE /delete-all] looks
    for a notification whose identifier is [delete-all] and, when there
    is none, answers 404 and deletes nothing.  The same layout does not
    hide [PUT /mark-all-read], whose rival route has two segments. *)
Theorem delete_all_route_is_shadowed :
  (forall path handler params,
      dispatch routes DELETE path = Some (handler, params) ->
      handler = DeleteNotification
      /\ exists x, path = [x] /\ x <> "" /\ params = [("notificationId", x)])
  /\ (forall userId col,
        (forall d, In d col -> Notification.notificationId d <> "delete-all") ->
        serveDelete ["delete-all"] userId col = (404%nat, col))
  /\ dispatch routes PUT ["mark-all-read"] = Some (MarkAllAsRead, []).
Proof.
  split; [| split; [| reflexivity]].
  - intros path handler params.
    change (dispatch routes DELETE path)
      with (match matchPath [Param "notificationId"] path with
            | Some params => Some (DeleteNotification, params)
            | None =>
                match matchPath [Literal "delete-all"] path with
                | Some params => Some (DeleteAllNotifications, params)
                | None => None
                end
            end).
    destruct path as [| x [| y path]]; cbn [matchPath].
    + discriminate.
    + destruct (String.eqb_spec x "") as [-> | Hx].
      * change (Regex.eq_nocase "delete-all" "") with false. discriminate.
      * intros [= <- <-]. split; [reflexivity |]. exists x. auto.
    + destruct (String.eqb x ""); destruct (Regex.eq_nocase "delete-all" x);
        discriminate.
  - intros userId col Hnone. unfold serveDelete. simpl.
    unfold deleteNotification, param. simpl.
    destruct (List.find (owned "delete-all" userId) col) as [d |] eqn:Hd;
      [| reflexivity].
    apply find_some in Hd as [Hin Hd]. apply andb_true_iff in Hd as [Hd _].
    apply String.eqb_eq in Hd. now apply Hnone in Hin.
Qed.

Lemma delete_all_route_is_shadowed_witness :
  let n1 := Notification.mk "NOTIF-1" "u1" "ann@lib.org" Notification.BOOK_ADDED
              "New Book: Cosmos" "" None None None None [] false Notification.normal in
  (forall d, In d [n1] -> Notification.notificationId d <> "delete-all")
  /\ serveDelete ["delete-all"] "u1" [n1] = (404%nat, [n1]).
Proof.
  intros n1.
  assert (H : forall d, In d [n1] -> Notification.notificationId d <> "delete-all")
    by (intros d [<- | []]; discriminate).
  split; [exact H |].
  exact (proj1 (proj2 delete_all_route_is_shadowed) "u1" [n1] H).
Defined.

End NotificationQueryFacts.

(** ** The borrow service: outcomes, returns and invariants *)

Section BorrowFacts.

Import EventPublisher BorrowController BorrowReturns.

Implicit Types (w : Eff.World) (col : list Borrow.doc).

Lemma publishBookBorrowed_cases p t data w :
  (isConnected p = true /\ redisClient p = Some Open
   /\ publishBookBorrowed p t data w
      = (Eff.Ok true,
         Eff.mkWorld (Eff.borrows w)
           (Eff.channels w ++ [("BookBorrowed", EventPublisher.bookId data, t)])))
  \/ (unavailable p /\ publishBookBorrowed p t data w = (Eff.Ok false, w)).
Proof.
  unfold unavailable, publishBookBorrowed.
  destruct p as [[[|] |] [|]]; simpl; auto 6.
Qed.

Lemma publishBookReturned_cases p t data w :
  (isConnected p = true /\ redisClient p = Some Open
   /\ publishBookReturned p t data w
      = (Eff.Ok true,
         Eff.mkWorld (Eff.borrows w)
           (Eff.channels w ++ [("BookReturned", BorrowReturns.bookId data, t)])))
  \/ (unavailable p /\ publishBookReturned p t data w = (Eff.Ok false, w)).
Proof.
  unfold unavailable, publishBookReturned.
  destruct p as [[[|] |] [|]]; simpl; auto 6.
Qed.

(** X22.  The two publishers of the borrow service never throw, and
    their result tells whether the broker took the message: [true]
    with exactly one message appended to the channel of the event,
    carrying the book of the record, when the client is connected and
    open; [false] with nothing sent in every other case.  Neither
    touches the borrow records. *)
Theorem publishers_report_delivery p t w :
  (forall data,
      exists sent w',
        publishBookBorrowed p t data w = (Eff.Ok sent, w')
        /\ Eff.borrows w' = Eff.borrows w
        /\ Eff.channels w'
           = Eff.channels w
             ++ (if sent then [("BookBorrowed", EventPublisher.bookId data, t)] else [])
        /\ (sent = true <-> isConnected p = true /\ redisClient p = Some Open))
  /\ (forall data,
        exists sent w',
          publishBookReturned p t data w = (Eff.Ok sent, w')
          /\ Eff.borrows w' = Eff.borrows w
          /\ Eff.channels w'
             = Eff.channels w
               ++ (if sent then [("BookReturned", BorrowReturns.bookId data, t)] else [])
          /\ (sent = true <-> isConnected p = true /\ redisClient p = Some Open)).
Proof.
  assert (Hdown : unavailable p -> ~ (isConnected p = true /\ redisClient p = Some Open)).
  { unfold unavailable. intros [H | [H | H]] [H1 H2]; congruence. }
  split; intros data.
  - destruct (publishBookBorrowed_cases p t data w) as [(H1 & H2 & ->) | (Hu & ->)].
    + do 2 eexists. split; [reflexivity |]. simpl. repeat split; auto.
    + exists false, w. split; [reflexivity |]. rewrite app_nil_r.
      split; [reflexivity |]. split; [reflexivity |].
      split; [discriminate | intros Hup; now apply Hdown in Hup].
  - destruct (publishBookReturned_cases p t data w) as [(H1 & H2 & ->) | (Hu & ->)].
    + do 2 eexists. split; [reflexivity |]. simpl. repeat split; auto.
    + exists false, w. split; [reflexivity |]. rewrite app_nil_r.
      split; [reflexivity |]. split; [reflexivity |].
      split; [discriminate | intros Hup; now apply Hdown in Hup].
Qed.

(** A borrow request that passes its three checks and whose record is
    created. *)
Lemma borrowBook_accepted env body w u b e due :
  Js.present (BorrowController.userId body) = Some u ->
  Js.present (BorrowController.bookId body) = Some b ->
  Js.present (BorrowController.email body) = Some e ->
  verifyEmail env e = Eff.Ok tt ->
  Borrow.findOne u b (Eff.borrows w) = None ->
  setDate env (now env) (duration (borrowDuration body)) = Some due ->
  (forall d, In d (Eff.borrows w) -> Borrow._id d <> objectId env) ->
  let borrow :=
    Borrow.mk (objectId env) u b (toLowerCase env e)
      (Js.or_else (BorrowController.borrowerName body) (beforeAt e))
      (now env) due Borrow.BORROWED in
  exists sent : bool,
    borrowBook env body w
    = (Eff.Ok (Http.mk 201 true "Book borrowed successfully" (Some borrow)),
       Eff.mkWorld (Eff.borrows w ++ [borrow])
         (Eff.channels w ++ (if sent then [("BookBorrowed", b, now env)] else [])))
    /\ (sent = true <-> isConnected (publisher env) = true
                        /\ redisClient (publisher env) = Some Open).
Proof.
  intros Hu Hb He Hverify Hfree Hdue Hnew borrow.
  assert (Hdown : unavailable (publisher env) ->
                  ~ (isConnected (publisher env) = true
                     /\ redisClient (publisher env) = Some Open)).
  { unfold unavailable. intros [H | [H | H]] [H1 H2]; congruence. }
  unfold borrowBook, Eff.try_catch at 1. unfold Eff.bind at 1.
  rewrite Hu, Hb, He. unfold Eff.try_catch at 1, Eff.bind at 1, Eff.call.
  rewrite Hverify. unfold Eff.ret at 1. unfold Eff.bind at 1, Eff.get_borrows.
  rewrite Hfree, Hdue. unfold Eff.bind at 1.
  rewrite insert_fresh by exact Hnew.
  unfold Eff.bind, Eff.try_catch, Eff.call, Eff.ret.
  destruct (getBook env b) as [[title |] | err];
    match goal with
    | |- context [publishBookBorrowed ?p ?t ?d ?w0] =>
        destruct (publishBookBorrowed_cases p t d w0) as [(H1 & H2 & ->) | (Hd & ->)]
    end; cbn [Eff.borrows Eff.channels EventPublisher.bookId];
    solve [ exists true; split; [reflexivity | tauto]
          | exists false; rewrite app_nil_r; split;
            [reflexivity | split; [discriminate | intros Hup; now apply Hdown in Hup]] ].
Qed.

(** A borrow request that passes its three checks and whose record
    cannot be created. *)
Lemma borrowBook_failed env body w u b e :
  Js.present (BorrowController.userId body) = Some u ->
  Js.present (BorrowController.bookId body) = Some b ->
  Js.present (BorrowController.email body) = Some e ->
  verifyEmail env e = Eff.Ok tt ->
  Borrow.findOne u b (Eff.borrows w) = None ->
  setDate env (now env) (duration (borrowDuration body)) = None
  \/ (exists d, In d (Eff.borrows w) /\ Borrow._id d = objectId env) ->
  borrowBook env body w
  = (Eff.Ok (Http.mk 500 false "Server error during borrow" None), w).
Proof.
  intros Hu Hb He Hverify Hfree Hfail.
  unfold borrowBook, Eff.try_catch at 1. unfold Eff.bind at 1.
  rewrite Hu, Hb, He. unfold Eff.try_catch at 1, Eff.bind at 1, Eff.call.
  rewrite Hverify. unfold Eff.ret at 1. unfold Eff.bind at 1, Eff.get_borrows.
  rewrite Hfree.
  destruct (setDate env (now env) (duration (borrowDuration body))) as [due |] eqn:Hdue.
  - destruct Hfail as [Hnone | Htaken]; [discriminate |].
    unfold Eff.bind at 1. rewrite insert_taken by exact Htaken. reflexivity.
  - reflexivity.
Qed.

(** The record can be created or it cannot. *)
Lemma creation_cases env body w :
  (exists due, setDate env (now env) (duration (borrowDuration body)) = Some due
               /\ forall d, In d (Eff.borrows w) -> Borrow._id d <> objectId env)
  \/ (setDate env (now env) (duration (borrowDuration body)) = None
      \/ exists d, In d (Eff.borrows w) /\ Borrow._id d = objectId env).
Proof.
  destruct (setDate env (now env) (duration (borrowDuration body))) as [due |];
    [| right; now left].
  destruct (existsb (fun d => String.eqb (Borrow._id d) (objectId env)) (Eff.borrows w))
    eqn:Hex.
  - right. right. apply existsb_exists in Hex as (d & Hd & E).
    exists d. split; [exact Hd | now apply String.eqb_eq].
  - left. exists due. split; [reflexivity |]. intros d Hd E.
    assert (existsb (fun d => String.eqb (Borrow._id d) (objectId env)) (Eff.borrows w)
            = true); [| congruence].
    apply existsb_exists. exists d. split; [exact Hd | now apply String.eqb_eq].
Qed.

(** The three refusals. *)
Lemma borrowBook_missing env body w :
  Js.present (BorrowController.userId body) = None
  \/ Js.present (BorrowController.bookId body) = None
  \/ Js.present (BorrowController.email body) = None ->
  borrowBook env body w
  = (Eff.Ok (Http.mk 400 false "userId, bookId, and email are required" None), w).
Proof.
  intros H. unfold borrowBook, Eff.try_catch at 1.
  destruct (Js.present (BorrowController.userId body)) as [u |];
    [| reflexivity].
  destruct (Js.present (BorrowController.bookId body)) as [b |];
    [| reflexivity].
  destruct (Js.present (BorrowController.email body)) as [e |];
    [| reflexivity].
  destruct H as [H | [H | H]]; discriminate H.
Qed.

Lemma borrowBook_unverified env body w u b e err :
  Js.present (BorrowController.userId body) = Some u ->
  Js.present (BorrowController.bookId body) = Some b ->
  Js.present (BorrowController.email body) = Some e ->
  verifyEmail env e = Eff.Throw err ->
  borrowBook env body w
  = (Eff.Ok (Http.mk 400 false
               (if String.eqb err "" then "Email verification failed" else err) None),
     w).
Proof.
  intros Hu Hb He Hv. unfold borrowBook, Eff.try_catch at 1. unfold Eff.bind at 1.
  rewrite Hu, Hb, He. unfold Eff.try_catch at 1, Eff.bind at 1, Eff.call.
  rewrite Hv. reflexivity.
Qed.

Lemma borrowBook_duplicate env body w u b e d :
  Js.present (BorrowController.userId body) = Some u ->
  Js.present (BorrowController.bookId body) = Some b ->
  Js.present (BorrowController.email body) = Some e ->
  verifyEmail env e = Eff.Ok tt ->
  Borrow.findOne u b (Eff.borrows w) = Some d ->
  borrowBook env body w
  = (Eff.Ok (Http.mk 400 false "You already have this book borrowed" None), w).
Proof.
  intros Hu Hb He Hv Hf. unfold borrowBook, Eff.try_catch at 1. unfold Eff.bind at 1.
  rewrite Hu, Hb, He. unfold Eff.try_catch at 1, Eff.bind at 1, Eff.call.
  rewrite Hv. unfold Eff.ret at 1. unfold Eff.bind at 1, Eff.get_borrows.
  rewrite Hf. reflexivity.
Qed.

(** A request passes the three checks or is refused. *)
Lemma borrowBook_refused env body w :
  (exists u b e,
      Js.present (BorrowController.userId body) = Some u
      /\ Js.present (BorrowController.bookId body) = Some b
      /\ Js.present (BorrowController.email body) = Some e
      /\ verifyEmail env e = Eff.Ok tt
      /\ Borrow.findOne u b (Eff.borrows w) = None)
  \/ exists message, borrowBook env body w = (Eff.Ok (Http.mk 400 false message None), w).
Proof.
  destruct (Js.present (BorrowController.userId body)) as [u |] eqn:Hu;
    [| right; eexists; apply borrowBook_missing; auto].
  destruct (Js.present (BorrowController.bookId body)) as [b |] eqn:Hb;
    [| right; eexists; apply borrowBook_missing; auto].
  destruct (Js.present (BorrowController.email body)) as [e |] eqn:He;
    [| right; eexists; apply borrowBook_missing; auto].
  destruct (verifyEmail env e) as [[] | err] eqn:Hv;
    [| right; eexists; now apply (borrowBook_unverified env body w u b e err)].
  destruct (Borrow.findOne u b (Eff.borrows w)) as [d |] eqn:Hf;
    [right; eexists; now apply (borrowBook_duplicate env body w u b e d) |].
  left. exists u, b, e. auto.
Qed.

(** X23.  What the answers of [borrowBook] mean.  The handler always
    answers.  A 201 means that the three fields were present, that the
    e-mail was verified, that the user held no open record of the book,
    that the due date is a date and the [_id] drawn was not in use, and
    that exactly one record was appended: [BORROWED], for this user and
    book, with the e-mail in lower case, dated now and due on that
    date; at most one message went to the broker, on [BookBorrowed].
    Any other answer means that nothing was written and nothing sent,
    and a 500 that the record of a request which had passed the three
    checks could not be created. *)
Theorem borrow_outcomes env body w :
  exists resp w',
    borrowBook env body w = (Eff.Ok resp, w')
    /\ (Http.status resp = 201%nat ->
        exists borrow u b e due,
          Js.present (BorrowController.userId body) = Some u
          /\ Js.present (BorrowController.bookId body) = Some b
          /\ Js.present (BorrowController.email body) = Some e
          /\ verifyEmail env e = Eff.Ok tt
          /\ Borrow.findOne u b (Eff.borrows w) = None
          /\ setDate env (now env) (duration (borrowDuration body)) = Some due
          /\ (forall d, In d (Eff.borrows w) -> Borrow._id d <> objectId env)
          /\ Http.data resp = Some borrow
          /\ Eff.borrows w' = Eff.borrows w ++ [borrow]
          /\ Borrow.userId borrow = u /\ Borrow.bookId borrow = b
          /\ Borrow.email borrow = toLowerCase env e
          /\ (is_ascii e = true -> Borrow.email borrow = lower_ascii e)
          /\ Borrow.status borrow = Borrow.BORROWED
          /\ Borrow.borrowDate borrow = now env
          /\ Borrow.dueDate borrow = due
          /\ Borrow._id borrow = objectId env
          /\ (Eff.channels w' = Eff.channels w
              \/ Eff.channels w' = Eff.channels w ++ [("BookBorrowed", b, now env)]))
    /\ (Http.status resp <> 201%nat -> w' = w /\ Http.data resp = None)
    /\ (Http.status resp = 500%nat ->
        (exists u b e,
            Js.present (BorrowController.userId body) = Some u
            /\ Js.present (BorrowController.bookId body) = Some b
            /\ Js.present (BorrowController.email body) = Some e
            /\ verifyEmail env e = Eff.Ok tt
            /\ Borrow.findOne u b (Eff.borrows w) = None)
        /\ (setDate env (now env) (duration (borrowDuration body)) = None
            \/ exists d, In d (Eff.borrows w) /\ Borrow._id d = objectId env)).
Proof.
  destruct (borrowBook_refused env body w)
    as [(u & b & e & Hu & Hb & He & Hv & Hf) | (message & ->)].
  - destruct (creation_cases env body w) as [(due & Hdue & Hnew) | Hfail].
    + destruct (borrowBook_accepted env body w u b e due Hu Hb He Hv Hf Hdue Hnew)
        as (sent & -> & _).
      do 2 eexists. split; [reflexivity |]. split; [| split].
      * intros _. eexists. exists u, b, e, due. cbn [Http.data Eff.borrows Eff.channels].
        repeat (split; [first [assumption | reflexivity] |]).
        split; [intros Ha; cbn [Borrow.email]; unfold toLowerCase; now rewrite Ha |].
        repeat (split; [reflexivity |]).
        destruct sent; [right; reflexivity | left; apply app_nil_r].
      * intros H. now contradict H.
      * discriminate.
    + rewrite (borrowBook_failed env body w u b e Hu Hb He Hv Hf Hfail).
      do 2 eexists. split; [reflexivity |]. split; [discriminate |].
      split; [auto |]. intros _. split; [exists u, b, e; auto | exact Hfail].
  - do 2 eexists. split; [reflexivity |]. split; [discriminate |].
    split; [auto | discriminate].
Qed.

Lemma borrow_outcomes_witness :
  let env := mkEnv 1700000000000 (fun _ => Eff.Ok tt)
               (fun _ => Eff.Ok (Some (Some "Cosmos")))
               (mkPublisher (Some Open) true)
               "65a1f0c2e4b0a1b2c3d4e5f6"
               (fun t n => Some (t + n * 86400000)) (fun s => s) Some in
  let body := mkBody (Some "u1") (Some "b1") (Some "Ann@Lib.org") None (Some 7) in
  let w := Eff.mkWorld [] [] in
  exists resp w',
    borrowBook env body w = (Eff.Ok resp, w')
    /\ Http.status resp = 201%nat
    /\ exists borrow, Eff.borrows w' = [borrow] /\ Borrow.email borrow = "ann@lib.org".
Proof.
  intros env body w.
  destruct (borrow_outcomes env body w) as (resp & w' & Hrun & H201 & _).
  exists resp, w'. split; [exact Hrun |].
  assert (Hs : Http.status resp = 201%nat).
  { vm_compute in Hrun. now injection Hrun as <- _. }
  split; [exact Hs |].
  destruct (H201 Hs)
    as (borrow & u & b & e & due & _ & _ & He & _ & _ & _ & _ & _ & Hcol & _ & _ & _
        & Hmail & _).
  exists borrow. split; [exact Hcol |].
  injection He as <-. exact (Hmail eq_refl).
Defined.

(** X24.  [borrowBook] never asks the catalog whether a copy is
    available.  The book service is consulted for the title only, after
    the record has been written: the answer, the record and the sending
    of the message are the same whatever the book service replies, be
    it an unknown book or a failure.  (Only the title inside the
    message, which the model of a message leaves out, depends on the
    reply.) *)
Theorem borrow_ignores_the_catalog env getBook' body w :
  let env' := mkEnv (now env) (verifyEmail env) getBook' (publisher env)
                (objectId env) (setDate env) (lowerCase env) (castObjectId env) in
  borrowBook env' body w = borrowBook env body w.
Proof.
  intros env'.
  destruct (Js.present (BorrowController.userId body)) as [u |] eqn:Hu;
    [| rewrite !borrowBook_missing by auto; reflexivity].
  destruct (Js.present (BorrowController.bookId body)) as [b |] eqn:Hb;
    [| rewrite !borrowBook_missing by auto; reflexivity].
  destruct (Js.present (BorrowController.email body)) as [e |] eqn:He;
    [| rewrite !borrowBook_missing by auto; reflexivity].
  destruct (verifyEmail env e) as [[] | err] eqn:Hv.
  2:{ rewrite (borrowBook_unverified env body w u b e err Hu Hb He Hv).
      exact (borrowBook_unverified env' body w u b e err Hu Hb He Hv). }
  destruct (Borrow.findOne u b (Eff.borrows w)) as [d |] eqn:Hf.
  { rewrite (borrowBook_duplicate env body w u b e d Hu Hb He Hv Hf).
    exact (borrowBook_duplicate env' body w u b e d Hu Hb He Hv Hf). }
  destruct (creation_cases env body w) as [(due & Hdue & Hnew) | Hfail].
  - destruct (borrowBook_accepted env body w u b e due Hu Hb He Hv Hf Hdue Hnew)
      as (sent & -> & Hs).
    destruct (borrowBook_accepted env' body w u b e due Hu Hb He Hv Hf Hdue Hnew)
      as (sent' & -> & Hs').
    cbn [publisher env'] in Hs'. assert (sent' = sent) as ->; [| reflexivity].
    destruct sent, sent'; try reflexivity.
    + apply Hs'. now apply Hs.
    + symmetry. apply Hs. now apply Hs'.
  - rewrite (borrowBook_failed env body w u b e Hu Hb He Hv Hf Hfail).
    exact (borrowBook_failed env' body w u b e Hu Hb He Hv Hf Hfail).
Qed.

Lemma findById_split id col d :
  findById id col = Some d ->
  exists l1 l2, col = l1 ++ d :: l2 /\ Borrow._id d = id
                /\ forall x, In x l1 -> Borrow._id x <> id.
Proof.
  unfold findById. induction col as [| x col IH]; simpl; [discriminate |].
  destruct (String.eqb_spec (Borrow._id x) id) as [Hx | Hx].
  - intros [= ->]. exists [], col. repeat split; auto.
  - intros H. destruct (IH H) as (l1 & l2 & -> & Hd & Hl1).
    exists (x :: l1), l2. repeat split; auto.
    intros y [<- | Hy]; auto.
Qed.

Lemma findById_middle id l1 d l2 :
  (forall x, In x l1 -> Borrow._id x <> id) ->
  findById id (l1 ++ d :: l2) = if String.eqb (Borrow._id d) id then Some d
                                else findById id l2.
Proof.
  intros Hl1. unfold findById. induction l1 as [| x l1 IH]; simpl; [reflexivity |].
  destruct (String.eqb_spec (Borrow._id x) id) as [Hx | Hx].
  - exfalso. apply (Hl1 x); simpl; auto.
  - apply IH. intros y Hy. apply Hl1. simpl. auto.
Qed.

Lemma save_middle l1 d l2 d' :
  (forall x, In x l1 -> Borrow._id x <> Borrow._id d') ->
  Borrow._id d = Borrow._id d' ->
  save d' (l1 ++ d :: l2) = l1 ++ d' :: l2.
Proof.
  intros Hl1 Hd. induction l1 as [| x l1 IH]; simpl.
  - now rewrite Hd, String.eqb_refl.
  - destruct (String.eqb_spec (Borrow._id x) (Borrow._id d')) as [Hx | Hx].
    + exfalso. apply (Hl1 x); simpl; auto.
    + f_equal. apply IH. intros y Hy. apply Hl1. simpl. auto.
Qed.

Lemma findById_other j l1 d d' l2 :
  Borrow._id d' = Borrow._id d -> j <> Borrow._id d ->
  findById j (l1 ++ d' :: l2) = findById j (l1 ++ d :: l2).
Proof.
  intros Hid Hj. unfold findById. induction l1 as [| x l1 IH]; simpl.
  - rewrite Hid. destruct (String.eqb_spec (Borrow._id d) j); [congruence | reflexivity].
  - now rewrite IH.
Qed.

(** A parameter that is no ObjectId. *)
Lemma returnBook_malformed env borrowId w :
  castObjectId env borrowId = None ->
  returnBook env borrowId w
  = (Eff.Ok (Http.mk 500 false "Server error during return" None), w).
Proof. intros Hc. unfold returnBook, Eff.try_catch. now rewrite Hc. Qed.

(** The three ways of [returnBook] on an ObjectId. *)
Lemma returnBook_cases env borrowId id w :
  castObjectId env borrowId = Some id ->
  match findById id (Eff.borrows w) with
  | None =>
      returnBook env borrowId w
      = (Eff.Ok (Http.mk 404 false "Borrow record not found" None), w)
  | Some d =>
      match Borrow.status d with
      | Borrow.RETURNED =>
          returnBook env borrowId w
          = (Eff.Ok (Http.mk 400 false "This book has already been returned" None), w)
      | Borrow.BORROWED =>
          exists sent : bool,
            returnBook env borrowId w
            = (Eff.Ok (Http.mk 200 true "Book returned successfully"
                         (Some (set_returned d, now env))),
               Eff.mkWorld (save (set_returned d) (Eff.borrows w))
                 (Eff.channels w
                    ++ (if sent then [("BookReturned", Borrow.bookId d, now env)]
                        else [])))
            /\ (sent = true <-> isConnected (publisher env) = true
                                /\ redisClient (publisher env) = Some Open)
      end
  end.
Proof.
  intros Hc.
  assert (Hdown : unavailable (publisher env) ->
                  ~ (isConnected (publisher env) = true
                     /\ redisClient (publisher env) = Some Open)).
  { unfold unavailable. intros [H | [H | H]] [H1 H2]; congruence. }
  unfold returnBook. rewrite Hc.
  unfold Eff.try_catch, Eff.bind, Eff.get_borrows, Eff.put_borrows, Eff.ret.
  destruct (findById id (Eff.borrows w)) as [d |]; [| reflexivity].
  destruct (Borrow.status d); [| reflexivity].
  match goal with
  | |- context [publishBookReturned ?p ?t ?x ?w0] =>
      destruct (publishBookReturned_cases p t x w0) as [(H1 & H2 & ->) | (Hd & ->)]
  end; simpl.
  - exists true. split; [reflexivity | tauto].
  - exists false. rewrite app_nil_r. split; [reflexivity |].
    split; [discriminate | intros Hup; now apply Hdown in Hup].
Qed.

Lemma open_pairs_app l1 l2 : open_pairs (l1 ++ l2) = open_pairs l1 ++ open_pairs l2.
Proof. unfold open_pairs. now rewrite List.filter_app, map_app. Qed.

Lemma open_pairs_cons d col :
  open_pairs (d :: col)
  = if Borrow.is_borrowed d
    then (Borrow.userId d, Borrow.bookId d) :: open_pairs col
    else open_pairs col.
Proof. unfold open_pairs. simpl. now destruct (Borrow.is_borrowed d). Qed.

Lemma findOne_open u b col :
  Borrow.findOne u b col = None <-> ~ In (u, b) (open_pairs col).
Proof.
  unfold Borrow.findOne, open_pairs. rewrite in_map_iff. split.
  - intros Hf (x & Hx & Hin). apply filter_In in Hin as [Hin Hopen].
    pose proof (find_none _ _ Hf x Hin) as Hno. simpl in Hno.
    injection Hx as Hu Hb. now rewrite Hu, Hb, !String.eqb_refl, Hopen in Hno.
  - intros Hno.
    destruct (List.find _ col) as [x |] eqn:Hf; [| reflexivity].
    apply find_some in Hf as [Hin Hx]. apply andb_true_iff in Hx as [Hx Hopen].
    apply andb_true_iff in Hx as [Hu Hb]. apply String.eqb_eq in Hu, Hb.
    exfalso. apply Hno. exists x. split; [congruence |]. apply filter_In. auto.
Qed.

(** X25.  [returnBook], by cases.  A parameter that is no ObjectId is
    answered 500, an unknown record 404 and a returned one 400, with
    nothing changed.  An open record is answered 200: it is marked
    [RETURNED] where it stands, every other record is left as it is, at
    most one message goes to the broker, on [BookReturned] and for the
    book of the record; a second return of the same record is then
    refused with 400; and when no user held two open records of one
    book, the user holds none of this book any more, so that the
    duplicate check of [borrowBook] lets the user borrow it again. *)
Theorem return_contract env borrowId w :
  match castObjectId env borrowId with
  | None =>
      returnBook env borrowId w
      = (Eff.Ok (Http.mk 500 false "Server error during return" None), w)
  | Some id =>
      match findById id (Eff.borrows w) with
      | None =>
          returnBook env borrowId w
          = (Eff.Ok (Http.mk 404 false "Borrow record not found" None), w)
      | Some d =>
          match Borrow.status d with
          | Borrow.RETURNED =>
              returnBook env borrowId w
              = (Eff.Ok (Http.mk 400 false "This book has already been returned" None),
                 w)
          | Borrow.BORROWED =>
              exists w',
                returnBook env borrowId w
                = (Eff.Ok (Http.mk 200 true "Book returned successfully"
                             (Some (set_returned d, now env))), w')
                /\ findById id (Eff.borrows w') = Some (set_returned d)
                /\ Borrow.status (set_returned d) = Borrow.RETURNED
                /\ (forall j, j <> id ->
                              findById j (Eff.borrows w') = findById j (Eff.borrows w))
                /\ List.length (Eff.borrows w') = List.length (Eff.borrows w)
                /\ (Eff.channels w' = Eff.channels w
                    \/ Eff.channels w'
                       = Eff.channels w ++ [("BookReturned", Borrow.bookId d, now env)])
                /\ returnBook env borrowId w'
                   = (Eff.Ok (Http.mk 400 false "This book has already been returned"
                                None), w')
                /\ (single_open (Eff.borrows w) ->
                    Borrow.findOne (Borrow.userId d) (Borrow.bookId d) (Eff.borrows w')
                    = None)
          end
      end
  end.
Proof.
  destruct (castObjectId env borrowId) as [id |] eqn:Hc;
    [| now apply returnBook_malformed].
  pose proof (returnBook_cases env borrowId id w Hc) as Hrun.
  destruct (findById id (Eff.borrows w)) as [d |] eqn:Hd; [| exact Hrun].
  destruct (Borrow.status d) eqn:Hst; [| exact Hrun].
  destruct Hrun as (sent & -> & _).
  destruct (findById_split _ _ _ Hd) as (l1 & l2 & Hcol & Hid & Hl1).
  assert (Hsave : save (set_returned d) (Eff.borrows w) = l1 ++ set_returned d :: l2).
  { rewrite Hcol. apply save_middle; [| reflexivity]. simpl. now rewrite Hid. }
  assert (Hfound : findById id (l1 ++ set_returned d :: l2) = Some (set_returned d)).
  { rewrite (findById_middle _ _ _ _ Hl1). simpl. now rewrite Hid, String.eqb_refl. }
  eexists. split; [reflexivity |]. cbn [Eff.borrows Eff.channels]. rewrite Hsave.
  split; [exact Hfound |]. split; [reflexivity |].
  split; [| split; [| split; [| split]]].
  - intros j Hj. rewrite Hcol. apply findById_other; [reflexivity | congruence].
  - rewrite Hcol, !length_app. reflexivity.
  - destruct sent; [right; reflexivity | left; apply app_nil_r].
  - pose proof (returnBook_cases env borrowId id
                  (Eff.mkWorld (l1 ++ set_returned d :: l2)
                     (Eff.channels w
                        ++ (if sent
                            then [("BookReturned", Borrow.bookId d, now env)]
                            else []))) Hc) as Hagain.
    cbn [Eff.borrows] in Hagain. rewrite Hfound in Hagain. exact Hagain.
  - unfold single_open. rewrite Hcol, open_pairs_app. intros Hnd.
    apply findOne_open. rewrite open_pairs_app.
    rewrite open_pairs_cons in *. unfold Borrow.is_borrowed in *.
    rewrite Hst in Hnd. simpl.
    apply NoDup_ListNoDup in Hnd.
    pose proof (NoDup_remove_2 _ _ _ Hnd) as Hnot.
    rewrite in_app_iff in *. exact Hnot.
Qed.

Lemma return_contract_witness :
  let env := mkEnv 1700000000000 (fun _ => Eff.Ok tt)
               (fun _ => Eff.Ok (Some (Some "Cosmos")))
               (mkPublisher (Some Open) true)
               "65a1f0c2e4b0a1b2c3d4e5f7"
               (fun t n => Some (t + n * 86400000)) (fun s => s)
               (fun s => if (String.length s =? 24)%nat then Some s else None) in
  let d := Borrow.mk "65a1f0c2e4b0a1b2c3d4e5f6" "u1" "b1" "ann@lib.org" "Ann"
             0 1209600000 Borrow.BORROWED in
  let w := Eff.mkWorld [d] [] in
  single_open (Eff.borrows w)
  /\ returnBook env "42" w
     = (Eff.Ok (Http.mk 500 false "Server error during return" None), w)
  /\ exists w',
       returnBook env "65a1f0c2e4b0a1b2c3d4e5f6" w
       = (Eff.Ok (Http.mk 200 true "Book returned successfully"
                    (Some (set_returned d, now env))), w')
       /\ Borrow.findOne "u1" "b1" (Eff.borrows w') = None.
Proof.
  intros env d w.
  assert (Hso : single_open (Eff.borrows w)).
  { unfold single_open, open_pairs. simpl. apply NoDup_singleton. }
  split; [exact Hso |]. split; [exact (return_contract env "42" w) |].
  pose proof (return_contract env "65a1f0c2e4b0a1b2c3d4e5f6" w) as H.
  change (castObjectId env "65a1f0c2e4b0a1b2c3d4e5f6")
    with (Some "65a1f0c2e4b0a1b2c3d4e5f6") in H.
  change (findById "65a1f0c2e4b0a1b2c3d4e5f6" (Eff.borrows w)) with (Some d) in H.
  cbn [Borrow.status d] in H.
  destruct H as (w' & Hrun & _ & _ & _ & _ & _ & _ & Hfree).
  exists w'. split; [exact Hrun | exact (Hfree Hso)].
Defined.

Lemma save_ids d col : map Borrow._id (save d col) = map Borrow._id col.
Proof.
  induction col as [| x col IH]; simpl; [reflexivity |].
  destruct (String.eqb_spec (Borrow._id x) (Borrow._id d)) as [Hx | Hx]; simpl.
  - now rewrite Hx.
  - now rewrite IH.
Qed.

(** Every request leaves a collection. *)
Lemma borrowBook_borrows env body w :
  Eff.borrows (snd (borrowBook env body w)) = Eff.borrows w
  \/ exists u b e due,
       Borrow.findOne u b (Eff.borrows w) = None
       /\ (forall d, In d (Eff.borrows w) -> Borrow._id d <> objectId env)
       /\ Eff.borrows (snd (borrowBook env body w))
          = Eff.borrows w
            ++ [Borrow.mk (objectId env) u b (toLowerCase env e)
                  (Js.or_else (BorrowController.borrowerName body) (beforeAt e))
                  (now env) due Borrow.BORROWED].
Proof.
  destruct (borrowBook_refused env body w)
    as [(u & b & e & Hu & Hb & He & Hv & Hf) | (message & ->)]; [| now left].
  destruct (creation_cases env body w) as [(due & Hdue & Hnew) | Hfail].
  - destruct (borrowBook_accepted env body w u b e due Hu Hb He Hv Hf Hdue Hnew)
      as (sent & -> & _).
    right. exists u, b, e, due. auto.
  - rewrite (borrowBook_failed env body w u b e Hu Hb He Hv Hf Hfail). now left.
Qed.

Lemma returnBook_borrows env borrowId w :
  Eff.borrows (snd (returnBook env borrowId w)) = Eff.borrows w
  \/ exists l1 d l2,
       Eff.borrows w = l1 ++ d :: l2 /\ Borrow.status d = Borrow.BORROWED
       /\ Eff.borrows (snd (returnBook env borrowId w)) = l1 ++ set_returned d :: l2.
Proof.
  destruct (castObjectId env borrowId) as [id |] eqn:Hc;
    [| rewrite returnBook_malformed by assumption; now left].
  pose proof (returnBook_cases env borrowId id w Hc) as Hrun.
  destruct (findById id (Eff.borrows w)) as [d |] eqn:Hd; [| rewrite Hrun; now left].
  destruct (Borrow.status d) eqn:Hst; [| rewrite Hrun; now left].
  destruct Hrun as (sent & -> & _).
  destruct (findById_split _ _ _ Hd) as (l1 & l2 & Hcol & Hid & Hl1).
  right. exists l1, d, l2. split; [exact Hcol |]. split; [exact Hst |].
  cbn [snd Eff.borrows]. rewrite Hcol. apply save_middle; [| reflexivity].
  simpl. now rewrite Hid.
Qed.

(** X26.  Two invariants of the borrow records.  If no user holds two
    open records of one book, the same is true after any [borrowBook]
    and after any [returnBook] request, whatever the request and
    whatever the other services answer; and so it is of the records
    having different [_id]s. *)
Theorem borrow_invariants env w :
  (single_open (Eff.borrows w) ->
   (forall body, single_open (Eff.borrows (snd (borrowBook env body w))))
   /\ (forall borrowId, single_open (Eff.borrows (snd (returnBook env borrowId w)))))
  /\ (unique_ids (Eff.borrows w) ->
      (forall body, unique_ids (Eff.borrows (snd (borrowBook env body w))))
      /\ (forall borrowId, unique_ids (Eff.borrows (snd (returnBook env borrowId w))))).
Proof.
  split.
  - intros Hso. split.
    + intros body.
      destruct (borrowBook_borrows env body w)
        as [-> | (u & b & e & due & Hf & _ & ->)]; [exact Hso |].
      unfold single_open in *. rewrite open_pairs_app, open_pairs_cons. simpl.
      apply NoDup_app. split; [exact Hso |]. split; [| apply NoDup_singleton].
      intros k Hk Hk'. apply list_elem_of_In in Hk, Hk'.
      destruct Hk' as [<- | []]. now apply findOne_open in Hf.
    + intros borrowId.
      destruct (returnBook_borrows env borrowId w)
        as [-> | (l1 & d & l2 & Hcol & Hst & ->)]; [exact Hso |].
      unfold single_open in *. rewrite Hcol in Hso.
      rewrite open_pairs_app, open_pairs_cons in *.
      unfold Borrow.is_borrowed in *. rewrite Hst in Hso. simpl.
      apply NoDup_ListNoDup. apply NoDup_ListNoDup in Hso.
      exact (NoDup_remove_1 _ _ _ Hso).
  - intros Hids. split.
    + intros body.
      destruct (borrowBook_borrows env body w)
        as [-> | (u & b & e & due & _ & Hnew & ->)]; [exact Hids |].
      unfold unique_ids in *. rewrite map_app. simpl.
      apply NoDup_app. split; [exact Hids |]. split; [| apply NoDup_singleton].
      intros k Hk Hk'. apply list_elem_of_In in Hk, Hk'.
      destruct Hk' as [<- | []]. apply in_map_iff in Hk as (d & Hd & Hin).
      exact (Hnew d Hin Hd).
    + intros borrowId.
      destruct (returnBook_borrows env borrowId w)
        as [-> | (l1 & d & l2 & Hcol & _ & ->)]; [exact Hids |].
      unfold unique_ids in *. rewrite Hcol in Hids.
      rewrite map_app in *. exact Hids.
Qed.

Lemma borrow_invariants_witness :
  let env := mkEnv 1700000000000 (fun _ => Eff.Ok tt)
               (fun _ => Eff.Ok (Some (Some "Cosmos")))
               (mkPublisher (Some Open) true)
               "65a1f0c2e4b0a1b2c3d4e5f7"
               (fun t n => Some (t + n * 86400000)) (fun s => s) Some in
  let d := Borrow.mk "65a1f0c2e4b0a1b2c3d4e5f6" "u1" "b1" "ann@lib.org" "Ann"
             0 1209600000 Borrow.BORROWED in
  let body := mkBody (Some "u1") (Some "b1") (Some "Ann@Lib.org") None (Some 7) in
  let other := mkBody (Some "u2") (Some "b1") (Some "bob@lib.org") None None in
  let w := Eff.mkWorld [d] [] in
  single_open (Eff.borrows w)
  /\ open_pairs (Eff.borrows (snd (borrowBook env body w))) = [("u1", "b1")]
  /\ open_pairs (Eff.borrows (snd (borrowBook env other w)))
     = [("u1", "b1"); ("u2", "b1")]
  /\ single_open (Eff.borrows (snd (borrowBook env body w)))
  /\ single_open (Eff.borrows (snd (borrowBook env other w))).
Proof.
  intros env d body other w.
  assert (Hso : single_open (Eff.borrows w)).
  { unfold single_open, open_pairs. simpl. apply NoDup_singleton. }
  split; [exact Hso |]. split; [vm_compute; reflexivity |].
  split; [vm_compute; reflexivity |].
  destruct (proj1 (borrow_invariants env w) Hso) as [H _].
  split; [exact (H body) | exact (H other)].
Defined.

Lemma replay_app m1 m2 books :
  Pipeline.replay (m1 ++ m2) books = Pipeline.replay m2 (Pipeline.replay m1 books).
Proof. unfold Pipeline.replay. apply fold_left_app. Qed.

(** X27.  From a borrow and its return to the catalog.  With the
    broker up, an accepted borrow followed by the return of its record
    sends two messages, [BookBorrowed] then [BookReturned], for the
    book.  Delivered in this order to the book service, they leave a
    book that had a copy available with the count it had, the counters
    being integers up to [2^53].  But the borrow is accepted just as
    well when the book has no copy available: the first message is
    then ignored and the second one still adds a copy, so the book ends
    with one more available copy than before, though none was taken. *)
Theorem borrow_and_return_reach_the_catalog env body w books u b e due book a t :
  Js.present (BorrowController.userId body) = Some u ->
  Js.present (BorrowController.bookId body) = Some b ->
  Js.present (BorrowController.email body) = Some e ->
  verifyEmail env e = Eff.Ok tt ->
  Borrow.findOne u b (Eff.borrows w) = None ->
  setDate env (now env) (duration (borrowDuration body)) = Some due ->
  (forall d, In d (Eff.borrows w) -> Borrow._id d <> objectId env) ->
  castObjectId env (objectId env) = Some (objectId env) ->
  isConnected (publisher env) = true -> redisClient (publisher env) = Some Open ->
  books !! b = Some book ->
  Projector.counts a t book -> 0 <= a <= t -> Number.safe t ->
  exists borrow w1 w2,
    borrowBook env body w
    = (Eff.Ok (Http.mk 201 true "Book borrowed successfully" (Some borrow)), w1)
    /\ returnBook env (Borrow._id borrow) w1
       = (Eff.Ok (Http.mk 200 true "Book returned successfully"
                    (Some (set_returned borrow, now env))), w2)
    /\ Eff.channels w2
       = Eff.channels w ++ [("BookBorrowed", b, now env); ("BookReturned", b, now env)]
    /\ exists book',
         Pipeline.replay [("BookBorrowed", b, now env); ("BookReturned", b, now env)]
           books !! b = Some book'
         /\ (0 < a -> Projector.counts a t book')
         /\ (a = 0 -> 0 < t -> Projector.counts 1 t book').
Proof.
  intros Hu Hb He Hv Hf Hdue Hnew Hcast Hup Hopen Hbook Hc Hbd Ht.
  destruct (borrowBook_accepted env body w u b e due Hu Hb He Hv Hf Hdue Hnew)
    as (sent & -> & Hs).
  assert (sent = true) as -> by (apply Hs; auto).
  set (borrow := Borrow.mk _ _ _ _ _ _ _ _).
  set (w1 := Eff.mkWorld _ _).
  assert (Hfound : findById (objectId env) (Eff.borrows w1) = Some borrow).
  { subst w1. cbn [Eff.borrows]. rewrite findById_middle by exact Hnew.
    subst borrow. cbn [Borrow._id]. now rewrite String.eqb_refl. }
  pose proof (returnBook_cases env (objectId env) (objectId env) w1 Hcast) as Hret.
  rewrite Hfound in Hret. cbn [Borrow.status borrow] in Hret.
  destruct Hret as (sent & Hret & Hs').
  assert (sent = true) as -> by (apply Hs'; auto).
  exists borrow, w1. eexists. split; [reflexivity |]. split; [exact Hret |].
  split; [cbn [Eff.channels w1 Borrow.bookId borrow]; now rewrite <- app_assoc |].
  assert (Hsa : Number.safe a) by (unfold Number.safe in *; lia).
  assert (Hdeliver : Pipeline.replay
                       [("BookBorrowed", b, now env); ("BookReturned", b, now env)] books
                     = Projector.handle (Projector.handle books (Projector.BookBorrowed b))
                         (Projector.BookReturned b)) by reflexivity.
  rewrite Hdeliver.
  destruct (Z.eq_dec a 0) as [-> | Hpos].
  - cbn [Projector.handle].
    rewrite (handleBookBorrowed_found _ _ _ Hbook),
      (borrowed_counts 0 t book Hc Hsa Ht).
    cbn [Z.leb Z.compare]. rewrite insert_same by exact Hbook.
    rewrite (handleBookReturned_found _ _ _ Hbook), lookup_insert_eq,
      (returned_counts 0 t book Hc Hsa Ht).
    eexists. split; [reflexivity |]. split; [lia |]. intros _ Htot. cbn zeta.
    assert ((0 <? t) = true) as -> by (apply Z.ltb_lt; lia).
    split; reflexivity.
  - rewrite (borrowed_then_returned books b book a t Hbook Hc Ht) by lia.
    rewrite lookup_insert_eq. eexists. split; [reflexivity |].
    split; [intros _; exact Hc | lia].
Qed.

Lemma borrow_and_return_reach_the_catalog_witness :
  let env := mkEnv 1700000000000 (fun _ => Eff.Ok tt)
               (fun _ => Eff.Ok (Some (Some "Cosmos")))
               (mkPublisher (Some Open) true)
               "65a1f0c2e4b0a1b2c3d4e5f6"
               (fun t n => Some (t + n * 86400000)) (fun s => s) Some in
  let body := mkBody (Some "u1") (Some "b1") (Some "Ann@Lib.org") None (Some 7) in
  let w := Eff.mkWorld [] [] in
  let book := Book.make "Cosmos" "Science" 3 0 Book.unavailable in
  let books : gmap string Book.doc := {[ "b1" := book ]} in
  Projector.counts 0 3 book
  /\ exists book',
       Pipeline.replay [("BookBorrowed", "b1", now env); ("BookReturned", "b1", now env)]
         books !! "b1" = Some book'
       /\ Projector.counts 1 3 book'.
Proof.
  intros env body w book books.
  assert (Hc : Projector.counts 0 3 book) by apply counts_make.
  split; [exact Hc |].
  assert (Hbook : books !! "b1" = Some book) by (vm_compute; reflexivity).
  assert (Hbd : 0 <= 0 <= 3) by lia.
  assert (H3 : Number.safe 3) by (unfold Number.safe; lia).
  assert (H03 : 0 < 3) by lia.
  destruct (borrow_and_return_reach_the_catalog env body w books "u1" "b1"
              "Ann@Lib.org" 1700604800000 book 0 3 eq_refl eq_refl eq_refl eq_refl
              eq_refl eq_refl (fun d (H : In d []) => match H with end) eq_refl
              eq_refl eq_refl Hbook Hc Hbd H3)
    as (_ & _ & _ & _ & _ & _ & book' & Hreplay & _ & Hdrift).
  exists book'. split; [exact Hreplay | exact (Hdrift eq_refl H03)].
Defined.

(** X28.  The due date of a borrow.  The number of days asked of the
    calendar is the requested number, capped at 14; a request without a
    duration, or with 0, asks for 14, and a negative duration is taken
    as it is.  For a request that passes the three checks and draws an
    [_id] not in use: when the calendar has a date that many days after
    now, the record is borrowed now and due on that date, and the
    answer is 201; when it has none, the answer is 500 and nothing is
    written or sent. *)
Theorem due_date_rule env body w u b e :
  Js.present (BorrowController.userId body) = Some u ->
  Js.present (BorrowController.bookId body) = Some b ->
  Js.present (BorrowController.email body) = Some e ->
  verifyEmail env e = Eff.Ok tt ->
  Borrow.findOne u b (Eff.borrows w) = None ->
  (forall d, In d (Eff.borrows w) -> Borrow._id d <> objectId env) ->
  let days := duration (borrowDuration body) in
  days <= 14
  /\ match borrowDuration body with
     | None => days = 14
     | Some n => (n = 0 -> days = 14) /\ (n <> 0 -> days = Z.min n 14)
                 /\ (n < 0 -> days = n)
     end
  /\ match setDate env (now env) days with
     | Some due =>
         exists borrow w',
           borrowBook env body w
           = (Eff.Ok (Http.mk 201 true "Book borrowed successfully" (Some borrow)), w')
           /\ Borrow.borrowDate borrow = now env
           /\ Borrow.dueDate borrow = due
     | None =>
         borrowBook env body w
         = (Eff.Ok (Http.mk 500 false "Server error during borrow" None), w)
     end.
Proof.
  intros Hu Hb He Hv Hf Hnew days. split; [| split].
  - subst days. unfold duration. lia.
  - subst days. unfold duration. destruct (borrowDuration body) as [n |]; [| lia].
    destruct (Z.eqb_spec n 0) as [-> | Hn]; lia.
  - destruct (setDate env (now env) days) as [due |] eqn:Hdue.
    + destruct (borrowBook_accepted env body w u b e due Hu Hb He Hv Hf Hdue Hnew)
        as (sent & -> & _).
      do 2 eexists. split; [reflexivity |]. split; reflexivity.
    + apply (borrowBook_failed env body w u b e Hu Hb He Hv Hf). now left.
Qed.

Lemma due_date_rule_witness :
  let env := mkEnv 1700000000000 (fun _ => Eff.Ok tt)
               (fun _ => Eff.Ok (Some (Some "Cosmos")))
               (mkPublisher (Some Open) true)
               "65a1f0c2e4b0a1b2c3d4e5f6"
               (fun t n => if Z.abs (t + n * 86400000) <=? 8640000000000000
                           then Some (t + n * 86400000) else None)
               (fun s => s) Some in
  let body := mkBody (Some "u1") (Some "b1") (Some "Ann@Lib.org") None (Some (-3)) in
  let far := mkBody (Some "u1") (Some "b1") (Some "Ann@Lib.org") None
               (Some (-200000000)) in
  let w := Eff.mkWorld [] [] in
  (exists borrow w',
      borrowBook env body w
      = (Eff.Ok (Http.mk 201 true "Book borrowed successfully" (Some borrow)), w')
      /\ Borrow.dueDate borrow = 1699740800000)
  /\ borrowBook env far w
     = (Eff.Ok (Http.mk 500 false "Server error during borrow" None), w).
Proof.
  intros env body far w.
  assert (Hnew : forall d, In d (Eff.borrows w) -> Borrow._id d <> objectId env)
    by (intros d []).
  split.
  - destruct (due_date_rule env body w "u1" "b1" "Ann@Lib.org"
                eq_refl eq_refl eq_refl eq_refl eq_refl Hnew)
      as (_ & _ & Hcase).
    change (setDate env (now env) (duration (borrowDuration body)))
      with (Some 1699740800000) in Hcase.
    destruct Hcase as (borrow & w' & Hrun & _ & Hdue). eauto.
  - destruct (due_date_rule env far w "u1" "b1" "Ann@Lib.org"
                eq_refl eq_refl eq_refl eq_refl eq_refl Hnew)
      as (_ & _ & Hcase).
    exact Hcase.
Defined.

End BorrowFacts.

(** ** The live streams of the book service *)

Section LivePushFacts.

Import LivePush.

Implicit Types (hub : Hub) (c : nat) (frame : Frame).

Lemma received_written c clients hub extra :
  received c (mkHub clients (written hub ++ extra))
  = received c hub ++ map snd (List.filter (fun w => Nat.eqb (fst w) c) extra).
Proof. unfold received. simpl. now rewrite List.filter_app, map_app. Qed.

Lemma frames_for c frame clients :
  NoDup clients ->
  map snd (List.filter (fun w => Nat.eqb (fst w) c) (map (fun x => (x, frame)) clients))
  = if existsb (Nat.eqb c) clients then [frame] else [].
Proof.
  induction clients as [| x clients IH]; [reflexivity |].
  intros Hnd. apply NoDup_cons in Hnd as [Hx Hnd]. specialize (IH Hnd).
  cbn [map List.filter existsb fst]. rewrite (Nat.eqb_sym c x).
  destruct (Nat.eqb_spec x c) as [-> | Hne]; cbn [map snd orb]; [| exact IH].
  rewrite IH.
  destruct (existsb (Nat.eqb c) clients) eqn:Hin; [| reflexivity].
  apply existsb_exists in Hin as (y & Hy & Heq). apply Nat.eqb_eq in Heq. subst y.
  exfalso. apply Hx. now apply list_elem_of_In.
Qed.

Lemma existsb_add c x clients :
  existsb (Nat.eqb c) (add x clients) = Nat.eqb c x || existsb (Nat.eqb c) clients.
Proof.
  unfold add. destruct (existsb (Nat.eqb x) clients) eqn:Hx.
  - destruct (Nat.eqb_spec c x) as [-> | Hne]; [now rewrite Hx | reflexivity].
  - rewrite existsb_app. simpl. rewrite orb_false_r. apply orb_comm.
Qed.

Lemma existsb_close c x clients :
  existsb (Nat.eqb c) (List.filter (fun y => negb (Nat.eqb y x)) clients)
  = negb (Nat.eqb c x) && existsb (Nat.eqb c) clients.
Proof.
  induction clients as [| y clients IH]; simpl; [now rewrite andb_false_r |].
  destruct (Nat.eqb_spec y x) as [-> | Hy]; simpl.
  - rewrite IH. destruct (Nat.eqb c x); reflexivity.
  - rewrite IH. destruct (Nat.eqb_spec c y) as [-> | Hc]; simpl; [| reflexivity].
    destruct (Nat.eqb_spec y x); [contradiction | reflexivity].
Qed.

(** X29.  The set of open streams.  It never holds a stream twice, so
    a broadcast writes its frame exactly once to each stream of the set
    and to no other; a stream that has connected gets its greeting and
    then every broadcast; a stream that has closed gets none of the
    later ones. *)
Theorem streams_get_each_frame_once hub :
  NoDup (sseClients hub) ->
  (forall c, NoDup (sseClients (connect c hub)) /\ NoDup (sseClients (close c hub)))
  /\ (forall c frame,
        received c (broadcastNotification frame hub)
        = received c hub
          ++ (if existsb (Nat.eqb c) (sseClients hub) then [frame] else []))
  /\ (forall c frame,
        received c (broadcastNotification frame (connect c hub))
        = received c hub ++ [Connected; frame])
  /\ (forall c frame,
        received c (broadcastNotification frame (close c hub)) = received c hub)
  /\ (forall c x frame, x <> c ->
        received c (broadcastNotification frame (close x hub))
        = received c (broadcastNotification frame hub)
        /\ received c (connect x hub) = received c hub).
Proof.
  intros Hnd.
  assert (Hconnect : forall c, NoDup (sseClients (connect c hub))).
  { intros c. unfold connect, add. simpl.
    destruct (existsb (Nat.eqb c) (sseClients hub)) eqn:Hc; [exact Hnd |].
    apply NoDup_app. split; [exact Hnd |]. split; [| apply NoDup_singleton].
    intros x Hx Hx'. apply list_elem_of_In in Hx, Hx'. destruct Hx' as [<- | []].
    assert (Hin : existsb (Nat.eqb c) (sseClients hub) = true)
      by (apply existsb_exists; exists c; split; [exact Hx | apply Nat.eqb_refl]).
    congruence. }
  assert (Hclose : forall c, NoDup (sseClients (close c hub))).
  { intros c. unfold close. simpl. apply NoDup_ListNoDup, List.NoDup_filter.
    now apply NoDup_ListNoDup. }
  assert (Hcast : forall h c frame,
             NoDup (sseClients h) ->
             received c (broadcastNotification frame h)
             = received c h
               ++ (if existsb (Nat.eqb c) (sseClients h) then [frame] else [])).
  { intros h c frame Hh. unfold broadcastNotification.
    now rewrite received_written, frames_for. }
  split; [auto |]. split; [intros c frame; now apply Hcast |].
  split; [| split].
  - intros c frame. rewrite (Hcast _ _ _ (Hconnect c)).
    unfold connect at 2. simpl. rewrite existsb_add, Nat.eqb_refl. simpl.
    unfold connect. rewrite received_written. simpl. rewrite Nat.eqb_refl. simpl.
    now rewrite <- app_assoc.
  - intros c frame. rewrite (Hcast _ _ _ (Hclose c)).
    unfold close at 2. simpl. rewrite existsb_close, Nat.eqb_refl. simpl.
    apply app_nil_r.
  - intros c x frame Hne.
    assert (Nat.eqb c x = false) as Hcx by now apply Nat.eqb_neq.
    split.
    + rewrite (Hcast _ _ _ (Hclose x)), (Hcast _ _ _ Hnd).
      unfold close at 2. simpl. rewrite existsb_close, Hcx. reflexivity.
    + unfold connect. rewrite received_written. simpl.
      rewrite Nat.eqb_sym, Hcx. apply app_nil_r.
Qed.

Lemma streams_get_each_frame_once_witness :
  let hub := connect 2 (connect 1 (mkHub [] [])) in
  let frame := Event "BookDeleted" 0 (BookController.BookDeleted "BOOK-1" "Cosmos") in
  NoDup (sseClients hub)
  /\ received 1 (broadcastNotification frame (close 2 hub)) = [Connected; frame]
  /\ received 2 (broadcastNotification frame (close 2 hub)) = [Connected].
Proof.
  intros hub frame.
  assert (Hnd : NoDup (sseClients hub)).
  { apply NoDup_ListNoDup. repeat constructor; simpl; intuition lia. }
  split; [exact Hnd |].
  destruct (streams_get_each_frame_once hub Hnd) as (_ & Hcast & _ & Hclosed & Hother).
  split.
  - rewrite (proj1 (Hother 1%nat 2%nat frame ltac:(lia))), Hcast. reflexivity.
  - rewrite Hclosed. reflexivity.
Defined.

End LivePushFacts.
